(** * TransportApp: earnings, vehicle services and trip profitability

    A shallow embedding of the three calculators of
    [src/components/screens/EarningsScreen.jsx] (the components
    [EarningsScreen], [ServicesScreen] and the trip calculator) together with
    the parts of the ECMAScript run time they call, of the rest of the trips
    screen (the suggestions of places, the saving of an analysis), of the
    notifications of the screens, and of the ordering and deleting of
    records in the history of earnings ([src/components/Navigation.jsx]).

    - JavaScript numbers are IEEE 754 binary64 values: Rocq's primitive
      [float], with [+], [-], [*], [/] and the comparisons of [PrimFloat].
    - The form fields are strings; [parseFloat] and [parseInt] are modelled on
      the strings themselves.
    - [Date] values are time values in milliseconds since the epoch, kept as
      integers; the host's time zone is an explicit parameter.
    - The hosted data store is a list of rows; every request made to it is
      answered by the next entry of a schedule of outcomes, so that failing
      requests are part of the model.
    - A handler runs to completion; where a handler awaits an answer that
      other events can overtake (the suggestions of places), what it does
      before and after the [await] are two steps. *)

From Stdlib Require Import ZArith List String Ascii Bool Lia.
From Stdlib Require Import Floats.
Import ListNotations.

Local Open Scope string_scope.
Local Open Scope Z_scope.

(* ================================================================== *)
(** * The ECMAScript run time used by the screens                     *)
(* ================================================================== *)

Module JS.

(** The Number type. *)
Definition number := float.

Definition NaN : number := nan.

(** [isNaN x]: a NaN is the only number that differs from itself. *)
Definition isNaN (x : number) : bool := negb (x =? x)%float.

(** [ToBoolean] on a number: [+0], [-0] and [NaN] are falsy. *)
Definition ToBoolean (x : number) : bool :=
  negb (isNaN x) && negb (x =? 0)%float.

(** [x || d] on numbers. *)
Definition or_else (x d : number) : number :=
  if ToBoolean x then x else d.

(** [ToBoolean] on a string: only the empty string is falsy. *)
Definition truthy (s : string) : bool :=
  match s with
  | EmptyString => false
  | String _ _ => true
  end.

(** ** Reading numbers out of strings *)

(** White space and line terminators of the ASCII range (TAB, LF, VT, FF,
    CR, SP). *)
Definition is_white_space (c : ascii) : bool :=
  let n := Z.of_nat (nat_of_ascii c) in
  ((9 <=? n) && (n <=? 13)) || (n =? 32).

Fixpoint trim_start (s : string) : string :=
  match s with
  | String c rest => if is_white_space c then trim_start rest else s
  | EmptyString => s
  end.

Definition decimal_digit (c : ascii) : option Z :=
  let n := Z.of_nat (nat_of_ascii c) in
  if (48 <=? n) && (n <=? 57) then Some (n - 48) else None.

Definition hex_digit (c : ascii) : option Z :=
  let n := Z.of_nat (nat_of_ascii c) in
  if (48 <=? n) && (n <=? 57) then Some (n - 48)
  else if (65 <=? n) && (n <=? 70) then Some (n - 55)
  else if (97 <=? n) && (n <=? 102) then Some (n - 87)
  else None.

(** The result of scanning a run of digits: the value read so far, the
    number of digits read, and what follows them. *)
Record scanned := { value : Z; count : Z; rest : string }.

(** [scan_digits digit radix s v n] reads the longest run of digits at the
    head of [s], continuing from the value [v] of [n] digits. *)
Fixpoint scan_digits (digit : ascii -> option Z) (radix : Z)
         (s : string) (v n : Z) : scanned :=
  match s with
  | String c tl =>
      match digit c with
      | Some d => scan_digits digit radix tl (radix * v + d) (n + 1)
      | None => {| value := v; count := n; rest := s |}
      end
  | EmptyString => {| value := v; count := n; rest := s |}
  end.

(** An optional sign; [true] stands for [-]. *)
Definition scan_sign (s : string) : bool * string :=
  match s with
  | String "-" tl => (true, tl)
  | String "+" tl => (false, tl)
  | _ => (false, s)
  end.

(** [ExponentPart]: [e] or [E], an optional sign and at least one digit.
    When the part is not complete the exponent is 0: the longest prefix
    that is a [StrDecimalLiteral] stops before it. *)
Definition scan_exponent (s : string) : Z :=
  match s with
  | String c tl =>
      if (c =? "e")%char || (c =? "E")%char then
        let (neg, digits) := scan_sign tl in
        let r := scan_digits decimal_digit 10 digits 0 0 in
        if 0 <? count r then (if neg then - value r else value r) else 0
      else 0
  | EmptyString => 0
  end.

(** The Number value of [m * 10 ^ e] for [0 <= m]: the nearest binary64
    value, ties to even. *)
Definition number_of_decimal (m e : Z) : spec_float :=
  match m with
  | Zpos _ =>
      if 0 <=? e then binary_normalize prec emax (m * 10 ^ e) 0 false
      else
        let '(q, e2, l) :=
          SFdiv_core_binary prec emax m 0 (10 ^ (- e)) 0 in
        binary_round_aux prec emax false q e2 l
  | _ => S754_zero false
  end.

Definition signed (neg : bool) (x : spec_float) : number :=
  SF2Prim (if neg then SFopp x else x).

(** [parseFloat(string)]: leading white space is skipped, then the longest
    prefix that is a [StrDecimalLiteral] is read; [NaN] when there is
    none. *)
Definition parseFloat (s : string) : number :=
  let (neg, body) := scan_sign (trim_start s) in
  if prefix "Infinity" body then signed neg (S754_infinity false)
  else
    let int_part := scan_digits decimal_digit 10 body 0 0 in
    let frac_part :=
      match rest int_part with
      | String "." tl => scan_digits decimal_digit 10 tl (value int_part) 0
      | _ => {| value := value int_part; count := 0; rest := rest int_part |}
      end in
    if (count int_part =? 0) && (count frac_part =? 0) then NaN
    else
      signed neg
        (number_of_decimal (value frac_part)
           (scan_exponent (rest frac_part) - count frac_part)).

(** [parseInt(string)] with no radix: leading white space and a sign are
    skipped, a [0x] or [0X] prefix selects radix 16, and the longest run of
    digits is read; [NaN] when there is no digit. *)
Definition parseInt (s : string) : number :=
  let (neg, body) := scan_sign (trim_start s) in
  let r :=
    match body with
    | String "0" (String c tl) =>
        if (c =? "x")%char || (c =? "X")%char
        then scan_digits hex_digit 16 tl 0 0
        else scan_digits decimal_digit 10 body 0 0
    | _ => scan_digits decimal_digit 10 body 0 0
    end in
  if count r =? 0 then NaN
  else signed neg (binary_normalize prec emax (value r) 0 false).

(** The Number value of an integer literal of the source. *)
Definition of_Z (z : Z) : number :=
  SF2Prim (binary_normalize prec emax z 0 false).

End JS.

(* ================================================================== *)
(** * Dates                                                           *)
(* ================================================================== *)

(** A [Date] object holds a time value: a number of milliseconds since
    1970-01-01T00:00:00Z, or [NaN] for an invalid date ([None] here).  The
    abstract operations below are those of the ECMAScript specification
    ([Day], [TimeWithinDay], [MakeDay], [MakeDate], [LocalTime], [UTC]); the
    conversion between day numbers and calendar dates is the usual closed
    form for the proleptic Gregorian calendar. *)
Module Date.

Definition msPerDay : Z := 86400000.

Definition Day (t : Z) : Z := t / msPerDay.
Definition TimeWithinDay (t : Z) : Z := t mod msPerDay.

(** Day number of the calendar date [y]-[m]-[d], [m] in 1..12. *)
Definition days_from_civil (y m d : Z) : Z :=
  let y' := if m <=? 2 then y - 1 else y in
  let era := y' / 400 in
  let yoe := y' - era * 400 in
  let mp := if 2 <? m then m - 3 else m + 9 in
  let doy := (153 * mp + 2) / 5 + d - 1 in
  let doe := yoe * 365 + yoe / 4 - yoe / 100 + doy in
  era * 146097 + doe - 719468.

(** Calendar date (year, month in 1..12, day of month) of a day number. *)
Definition civil_from_days (z : Z) : Z * Z * Z :=
  let z' := z + 719468 in
  let era := z' / 146097 in
  let doe := z' - era * 146097 in
  let yoe := (doe - doe / 1460 + doe / 36524 - doe / 146096) / 365 in
  let doy := doe - (365 * yoe + yoe / 4 - yoe / 100) in
  let mp := (5 * doy + 2) / 153 in
  let d := doy - (153 * mp + 2) / 5 + 1 in
  let m := if mp <? 10 then mp + 3 else mp - 9 in
  (yoe + era * 400 + (if m <=? 2 then 1 else 0), m, d).

Definition YearFromTime (t : Z) : Z :=
  let '(y, _, _) := civil_from_days (Day t) in y.
(** Months are numbered from 0, as in the language. *)
Definition MonthFromTime (t : Z) : Z :=
  let '(_, m, _) := civil_from_days (Day t) in m - 1.
Definition DateFromTime (t : Z) : Z :=
  let '(_, _, d) := civil_from_days (Day t) in d.

(** [MakeDay(year, month, date)]: the day number of the first of the month,
    plus [date - 1]; a [date] past the end of the month runs into the next
    one. *)
Definition MakeDay (year month date : Z) : Z :=
  let ym := year + month / 12 in
  let mn := month mod 12 in
  days_from_civil ym (mn + 1) 1 + date - 1.

Definition MakeDate (day time : Z) : Z := day * msPerDay + time.

Definition DaysInMonth (y m : Z) : Z :=
  MakeDay y m 1 - MakeDay y (m - 1) 1.

Section Host.

(** The offset of the host's local time from UTC, in milliseconds (taken
    constant: a zone without daylight saving, such as UTC-3). *)
Variable LocalTZA : Z.

Definition LocalTime (t : Z) : Z := t + LocalTZA.
Definition UTC (t : Z) : Z := t - LocalTZA.

(** [getFullYear()] reads the year of the local time. *)
Definition getFullYear (t : Z) : Z := YearFromTime (LocalTime t).

(** [setFullYear(year)] keeps the month, the day of the month and the time
    of day of the local time, and converts the result back to UTC. *)
Definition setFullYear (t : Z) (year : Z) : Z :=
  let lt := LocalTime t in
  UTC (MakeDate (MakeDay year (MonthFromTime lt) (DateFromTime lt))
                (TimeWithinDay lt)).

End Host.

(** ** Printing *)

Definition digit_char (n : Z) : ascii := ascii_of_nat (48 + Z.to_nat (n mod 10)).

(** The last [width] decimal digits of [n], most significant first. *)
Fixpoint pad (width : nat) (n : Z) (acc : string) : string :=
  match width with
  | O => acc
  | S w => pad w (n / 10) (String (digit_char n) acc)
  end.

(** Years 0 to 9999 print with four digits, the others with a sign and six
    digits. *)
Definition year_string (y : Z) : string :=
  if (0 <=? y) && (y <=? 9999) then pad 4 y ""
  else String.append (if y <? 0 then "-" else "+") (pad 6 (Z.abs y) "").

(** [toISOString()] of a valid date: [YYYY-MM-DDTHH:mm:ss.sssZ], in UTC. *)
Definition toISOString (t : Z) : string :=
  let '(y, m, d) := civil_from_days (Day t) in
  let ms := TimeWithinDay t in
  let hours := pad 2 (ms / 3600000) "" in
  let minutes := pad 2 (ms / 60000 mod 60) "" in
  let seconds := pad 2 (ms / 1000 mod 60) "" in
  let millis := pad 3 (ms mod 1000) "" in
  (year_string y ++ "-" ++ pad 2 m "" ++ "-" ++ pad 2 d "" ++ "T"
   ++ hours ++ ":" ++ minutes ++ ":" ++ seconds ++ "." ++ millis
   ++ "Z")%string.

(** [s.split(sep)[0]]: the part of [s] before the first [sep]. *)
Fixpoint split_0 (sep : ascii) (s : string) : string :=
  match s with
  | String c tl => if (c =? sep)%char then "" else String c (split_0 sep tl)
  | EmptyString => ""
  end.

(** ** Parsing *)

(** The value of a string made of decimal digits only. *)
Definition digits_value (s : string) : option Z :=
  let r := JS.scan_digits JS.decimal_digit 10 s 0 0 in
  match JS.rest r with
  | EmptyString => if 0 <? JS.count r then Some (JS.value r) else None
  | String _ _ => None
  end.

(** [new Date(s)] for a date-only string [YYYY-MM-DD], which is read as
    midnight UTC.  This is the only form the screens produce (they cut it
    out of [toISOString()]); other strings, whose reading is left to the
    implementation, and dates that do not exist are invalid dates here. *)
Definition parse (s : string) : option Z :=
  match digits_value (substring 0 4 s), digits_value (substring 5 2 s),
        digits_value (substring 8 2 s) with
  | Some y, Some m, Some d =>
      if (String.length s =? 10)%nat
         && (substring 4 1 s =? "-")%string && (substring 7 1 s =? "-")%string
         && (1 <=? m) && (m <=? 12) && (1 <=? d) && (d <=? DaysInMonth y m)
      then Some (MakeDate (MakeDay y (m - 1) d) 0)
      else None
  | _, _, _ => None
  end.

End Date.

(* ================================================================== *)
(** * Event handlers: state, exceptions, notifications                *)
(* ================================================================== *)

(** An event handler runs to completion on the state of its component and
    of the services it talks to.  A computation either completes normally
    or throws; what it did to the state before throwing stays done. *)
Module Eff.

Inductive completion (A : Type) : Type :=
| Normal (a : A)
| Throw (e : string).
Arguments Normal {A} a.
Arguments Throw {A} e.

Definition M (S A : Type) : Type := S -> completion A * S.

Definition ret {S A} (a : A) : M S A := fun s => (Normal a, s).

Definition bind {S A B} (c : M S A) (k : A -> M S B) : M S B :=
  fun s =>
    match c s with
    | (Normal a, s1) => k a s1
    | (Throw e, s1) => (Throw e, s1)
    end.

Definition throw {S A} (e : string) : M S A := fun s => (Throw e, s).
Definition get {S} : M S S := fun s => (Normal s, s).
Definition modify {S} (f : S -> S) : M S unit := fun s => (Normal tt, f s).

(** [try { body } catch (e) { handler e }] *)
Definition try_catch {S A} (body : M S A) (handler : string -> M S A) : M S A :=
  fun s =>
    match body s with
    | (Normal a, s1) => (Normal a, s1)
    | (Throw e, s1) => handler e s1
    end.

(** [... finally { cleanup }]: the cleanup runs on both completions and the
    completion of the body is kept unless the cleanup throws. *)
Definition finally {S A} (body : M S A) (cleanup : M S unit) : M S A :=
  fun s =>
    let (r, s1) := body s in
    match cleanup s1 with
    | (Normal _, s2) => (r, s2)
    | (Throw e, s2) => (Throw e, s2)
    end.

(** [for (const x of l) { body x }] *)
Fixpoint for_of {S A} (l : list A) (body : A -> M S unit) : M S unit :=
  match l with
  | [] => ret tt
  | x :: tl => bind (body x) (fun _ => for_of tl body)
  end.

(** A pure computation that may throw, run inside a handler. *)
Definition lift {S A} (r : completion A) : M S A := fun s => (r, s).

End Eff.

Declare Scope eff_scope.
Delimit Scope eff_scope with eff.
Notation "x <- c ;; k" := (Eff.bind c (fun x => k))
  (at level 61, c at next level, right associativity) : eff_scope.
Notation "c ;; k" := (Eff.bind c (fun _ => k))
  (at level 61, right associativity) : eff_scope.

(** What [showNotification(type, message)] is called with.  (The handler also
    arms a timer that hides the notification three seconds later; timers are
    outside this model.) *)
Record notification := { type : string; message : string }.

(* ================================================================== *)
(** * EarningsScreen                                                  *)
(* ================================================================== *)

Module Earnings.

Record formData := {
  totalEarnings : string;
  tripsCompleted : string;
  kilometersDriver : string;
  hoursWorked : string;
  tips : string;
  extras : string;
  fuelCost : string;
  otherExpenses : string;
}.

Record calculations := {
  grossEarnings : JS.number;
  grossPerKm : JS.number;
  grossPerHour : JS.number;
  grossPerTrip : JS.number;
  totalExpenses : JS.number;
  netEarnings : JS.number;
  netPerKm : JS.number;
  netPerHour : JS.number;
  netPerTrip : JS.number;
}.

(** The form as [useState] creates it and as [handleSave] resets it. *)
Definition blank_form : formData :=
  {| totalEarnings := ""; tripsCompleted := ""; kilometersDriver := "";
     hoursWorked := ""; tips := ""; extras := ""; fuelCost := "";
     otherExpenses := "" |}.

(** [calculateValues], lines 70-96, as a function of the form it reads; the
    result is what it passes to [setCalculations]. *)
Definition calculateValues (fd : formData) : calculations :=
  let totalEarnings := JS.or_else (JS.parseFloat (totalEarnings fd)) 0%float in
  let tripsCompleted := JS.or_else (JS.parseFloat (tripsCompleted fd)) 0%float in
  let kilometersDriver := JS.or_else (JS.parseFloat (kilometersDriver fd)) 0%float in
  let hoursWorked := JS.or_else (JS.parseFloat (hoursWorked fd)) 0%float in
  let tips := JS.or_else (JS.parseFloat (tips fd)) 0%float in
  let extras := JS.or_else (JS.parseFloat (extras fd)) 0%float in
  let fuelCost := JS.or_else (JS.parseFloat (fuelCost fd)) 0%float in
  let otherExpenses := JS.or_else (JS.parseFloat (otherExpenses fd)) 0%float in
  let grossEarnings := (totalEarnings + tips + extras)%float in
  let totalExpenses := (fuelCost + otherExpenses)%float in
  let netEarnings := (grossEarnings - totalExpenses)%float in
  {| grossEarnings := grossEarnings;
     grossPerKm :=
       if (0 <? kilometersDriver)%float
       then (grossEarnings / kilometersDriver)%float else 0%float;
     grossPerHour :=
       if (0 <? hoursWorked)%float
       then (grossEarnings / hoursWorked)%float else 0%float;
     grossPerTrip :=
       if (0 <? tripsCompleted)%float
       then (grossEarnings / tripsCompleted)%float else 0%float;
     totalExpenses := totalExpenses;
     netEarnings := netEarnings;
     netPerKm :=
       if (0 <? kilometersDriver)%float
       then (netEarnings / kilometersDriver)%float else 0%float;
     netPerHour :=
       if (0 <? hoursWorked)%float
       then (netEarnings / hoursWorked)%float else 0%float;
     netPerTrip :=
       if (0 <? tripsCompleted)%float
       then (netEarnings / tripsCompleted)%float else 0%float |}.

(** A row of the table [earnings_records]. *)
Record earnings_record := {
  user_id : string;
  date : string;
  total_earnings : JS.number;
  trips_completed : JS.number;
  kilometers_driven : JS.number;
  hours_worked : JS.number;
  tips_ : JS.number;
  extras_ : JS.number;
  fuel_cost : JS.number;
  other_expenses : JS.number;
  gross_earnings : JS.number;
  gross_per_km : JS.number;
  gross_per_hour : JS.number;
  gross_per_trip : JS.number;
  total_expenses : JS.number;
  net_earnings : JS.number;
  net_per_km : JS.number;
  net_per_hour : JS.number;
  net_per_trip : JS.number;
}.

(** The component's state, the table it inserts into, and the outcomes of
    the insert requests still to come ([true]: the request succeeds; an
    empty schedule means success). *)
Record state := {
  form : formData;
  calcs : calculations;
  loading : bool;
  shown : list notification;
  earnings_records : list earnings_record;
  schedule : list bool;
}.

Definition set_form (fd : formData) (st : state) : state :=
  {| form := fd; calcs := calcs st; loading := loading st; shown := shown st;
     earnings_records := earnings_records st; schedule := schedule st |}.

(** The effect of lines 52-54: after a render in which [formData] changed,
    [calculateValues] runs and stores its result. *)
Definition recalculate (st : state) : state :=
  {| form := form st; calcs := calculateValues (form st);
     loading := loading st; shown := shown st;
     earnings_records := earnings_records st; schedule := schedule st |}.

Definition setLoading (b : bool) (st : state) : state :=
  {| form := form st; calcs := calcs st; loading := b; shown := shown st;
     earnings_records := earnings_records st; schedule := schedule st |}.

Definition showNotification (t m : string) (st : state) : state :=
  {| form := form st; calcs := calcs st; loading := loading st;
     shown := shown st ++ [{| type := t; message := m |}];
     earnings_records := earnings_records st; schedule := schedule st |}.

(** [setFormData(prev => ({...prev, [name]: value}))] for the eight inputs of
    the form. *)
Definition set_field (name value : string) (fd : formData) : formData :=
  let pick field old := if (name =? field)%string then value else old in
  {| totalEarnings := pick "totalEarnings" (totalEarnings fd);
     tripsCompleted := pick "tripsCompleted" (tripsCompleted fd);
     kilometersDriver := pick "kilometersDriver" (kilometersDriver fd);
     hoursWorked := pick "hoursWorked" (hoursWorked fd);
     tips := pick "tips" (tips fd);
     extras := pick "extras" (extras fd);
     fuelCost := pick "fuelCost" (fuelCost fd);
     otherExpenses := pick "otherExpenses" (otherExpenses fd) |}.

(** [handleInputChange], lines 102-110, followed by the effect it triggers. *)
Definition handleInputChange (name value : string) (st : state) : state :=
  recalculate (set_form (set_field name value (form st)) st).

(** The data store's [insert]: the row is appended when the request
    succeeds; the result is the [error] of the response. *)
Definition insert (r : earnings_record) : Eff.M state (option string) :=
  fun st =>
    match schedule st with
    | false :: later =>
        (Eff.Normal (Some "insert failed"),
         {| form := form st; calcs := calcs st; loading := loading st;
            shown := shown st; earnings_records := earnings_records st;
            schedule := later |})
    | _ =>
        (Eff.Normal None,
         {| form := form st; calcs := calcs st; loading := loading st;
            shown := shown st;
            earnings_records := earnings_records st ++ [r];
            schedule := tl (schedule st) |})
    end.

(** The object [earningsData] of lines 130-151. *)
Definition earningsData (user now : string) (st : state) : earnings_record :=
  let formData := form st in
  let calculations := calcs st in
  {| user_id := user;
     date := now;
     total_earnings := JS.parseFloat (totalEarnings formData);
     trips_completed := JS.parseInt (tripsCompleted formData);
     kilometers_driven := JS.parseFloat (kilometersDriver formData);
     hours_worked := JS.parseFloat (hoursWorked formData);
     tips_ := JS.or_else (JS.parseFloat (tips formData)) 0%float;
     extras_ := JS.or_else (JS.parseFloat (extras formData)) 0%float;
     fuel_cost := JS.or_else (JS.parseFloat (fuelCost formData)) 0%float;
     other_expenses := JS.or_else (JS.parseFloat (otherExpenses formData)) 0%float;
     gross_earnings := grossEarnings calculations;
     gross_per_km := grossPerKm calculations;
     gross_per_hour := grossPerHour calculations;
     gross_per_trip := grossPerTrip calculations;
     total_expenses := totalExpenses calculations;
     net_earnings := netEarnings calculations;
     net_per_km := netPerKm calculations;
     net_per_hour := netPerHour calculations;
     net_per_trip := netPerTrip calculations |}.

Local Open Scope eff_scope.

(** [handleSave], lines 115-186.  [user] is the signed-in user's id, if
    any, and [now] the time value of [new Date()]. *)
Definition handleSave (user : option string) (now : Z) : Eff.M state unit :=
  match user with
  | None => Eff.ret tt
  | Some uid =>
      st <- Eff.get ;;
      let formData := form st in
      let requiredFields :=
        [totalEarnings formData; tripsCompleted formData;
         kilometersDriver formData; hoursWorked formData] in
      let missingFields :=
        filter (fun field => negb (JS.truthy field)) requiredFields in
      if (0 <? Z.of_nat (List.length missingFields)) then
        Eff.modify
          (showNotification "error"
             "Por favor completa todos los campos obligatorios")
      else
        Eff.modify (setLoading true) ;;
        Eff.finally
          (Eff.try_catch
             (let today := Date.split_0 "T" (Date.toISOString now) in
              error <- insert (earningsData uid today st) ;;
              match error with
              | Some e => Eff.throw e
              | None =>
                  Eff.modify
                    (showNotification "success"
                       "Registro guardado correctamente") ;;
                  Eff.modify (fun s => recalculate (set_form blank_form s))
              end)
             (fun _ =>
                Eff.modify
                  (showNotification "error" "No se pudo guardar el registro")))
          (Eff.modify (setLoading false))
  end.

End Earnings.

(* ================================================================== *)
(** * ServicesScreen                                                  *)
(* ================================================================== *)

Module Services.

Inductive rule_kind := years | km.

(** An entry of [SERVICE_TYPES] (the label, icon, colour and description
    play no part in the computations). *)
Record service_type := {
  key : string;
  rule : rule_kind;
  value : Z;
}.

(** Lines 466-503. *)
Definition SERVICE_TYPES : list service_type :=
  [ {| key := "vtv"; rule := years; value := 2 |};
    {| key := "oil_change"; rule := km; value := 10000 |};
    {| key := "timing_belt"; rule := km; value := 70000 |};
    {| key := "brakes"; rule := km; value := 40000 |} ].

(** The object returned by [calculateNextService]: a key that is absent is
    [None]. *)
Record next_service := {
  next_date : option string;
  next_mileage : option JS.number;
}.

Definition empty_object : next_service :=
  {| next_date := None; next_mileage := None |}.

Section Host.

(** The host's offset from UTC, in milliseconds. *)
Variable LocalTZA : Z.

(** [calculateNextService], lines 573-586.  [toISOString] throws a
    [RangeError] on an invalid date. *)
Definition calculateNextService (serviceType : string)
           (currentMileage : JS.number) (serviceDate : string)
  : Eff.completion next_service :=
  match find (fun s => (key s =? serviceType)%string) SERVICE_TYPES with
  | None => Eff.Normal empty_object
  | Some service =>
      match rule service with
      | years =>
          match Date.parse serviceDate with
          | None => Eff.Throw "RangeError: Invalid time value"
          | Some t =>
              let nextDate :=
                Date.setFullYear LocalTZA t
                  (Date.getFullYear LocalTZA t + value service) in
              Eff.Normal
                {| next_date :=
                     Some (Date.split_0 "T" (Date.toISOString nextDate));
                   next_mileage := None |}
          end
      | km =>
          Eff.Normal
            {| next_date := None;
               next_mileage :=
                 Some (currentMileage + JS.of_Z (value service))%float |}
      end
  end.

(** A row of the table [service_records]. *)
Record service_record := {
  id : Z;
  user_id : string;
  service_type_ : string;
  service_date : string;
  current_mileage : JS.number;
  next_service_date : option string;
  next_service_mileage : option JS.number;
}.

(** The object [serviceData] of lines 621-627. *)
Record service_data := {
  data_user_id : string;
  data_service_type : string;
  data_service_date : string;
  data_current_mileage : JS.number;
  data_next : next_service;
}.

(** A request sent to the data store. *)
Inductive request :=
| SelectId (user serviceType : string)
| SelectAll (user : string)
| Update (row : Z) (data : service_data)
| Insert (data : service_data)
| Delete (row : Z).

(** The component's state ([currentMileage], [selectedServices],
    [upcomingServices], [loading], the notifications shown), the table in
    the data store, the requests sent so far, and the outcomes of the
    requests still to come ([true]: the request succeeds; an empty schedule
    means success).  A request that fails leaves the table as it is. *)
Record state := {
  currentMileage : string;
  selectedServices : list string;
  upcomingServices : list service_record;
  loading : bool;
  shown : list notification;
  service_records : list service_record;
  next_id : Z;
  requests : list request;
  schedule : list bool;
}.

Definition setCurrentMileage (v : string) (st : state) : state :=
  {| currentMileage := v; selectedServices := selectedServices st;
     upcomingServices := upcomingServices st; loading := loading st;
     shown := shown st; service_records := service_records st;
     next_id := next_id st; requests := requests st;
     schedule := schedule st |}.

Definition setSelectedServices (l : list string) (st : state) : state :=
  {| currentMileage := currentMileage st; selectedServices := l;
     upcomingServices := upcomingServices st; loading := loading st;
     shown := shown st; service_records := service_records st;
     next_id := next_id st; requests := requests st;
     schedule := schedule st |}.

Definition setUpcomingServices (l : list service_record) (st : state) : state :=
  {| currentMileage := currentMileage st;
     selectedServices := selectedServices st;
     upcomingServices := l; loading := loading st;
     shown := shown st; service_records := service_records st;
     next_id := next_id st; requests := requests st;
     schedule := schedule st |}.

Definition setLoading (b : bool) (st : state) : state :=
  {| currentMileage := currentMileage st;
     selectedServices := selectedServices st;
     upcomingServices := upcomingServices st; loading := b;
     shown := shown st; service_records := service_records st;
     next_id := next_id st; requests := requests st;
     schedule := schedule st |}.

Definition showNotification (t m : string) (st : state) : state :=
  {| currentMileage := currentMileage st;
     selectedServices := selectedServices st;
     upcomingServices := upcomingServices st; loading := loading st;
     shown := shown st ++ [{| type := t; message := m |}];
     service_records := service_records st;
     next_id := next_id st; requests := requests st;
     schedule := schedule st |}.

(** The outcome of the next request. *)
Definition outcome (st : state) : bool :=
  match schedule st with
  | b :: _ => b
  | [] => true
  end.

(** The state once a request has been sent: the request is recorded and its
    outcome is taken off the schedule. *)
Definition sent (r : request) (st : state) : state :=
  {| currentMileage := currentMileage st;
     selectedServices := selectedServices st;
     upcomingServices := upcomingServices st; loading := loading st;
     shown := shown st; service_records := service_records st;
     next_id := next_id st; requests := requests st ++ [r];
     schedule := tl (schedule st) |}.

(** Sending a request and awaiting its outcome. *)
Definition send (r : request) : Eff.M state bool :=
  fun st => (Eff.Normal (outcome st), sent r st).

Definition set_table (rows : list service_record) (fresh : Z) (st : state)
  : state :=
  {| currentMileage := currentMileage st;
     selectedServices := selectedServices st;
     upcomingServices := upcomingServices st; loading := loading st;
     shown := shown st; service_records := rows;
     next_id := fresh; requests := requests st;
     schedule := schedule st |}.

Definition matches (user serviceType : string) (r : service_record) : bool :=
  (user_id r =? user)%string && (service_type_ r =? serviceType)%string.

Local Open Scope eff_scope.

(** [from('service_records').select('id').eq('user_id', user)
    .eq('service_type', serviceType).limit(1)]: the [data] of the response,
    [None] ([null]) when the request fails. *)
Definition select_id (user serviceType : string)
  : Eff.M state (option (list Z)) :=
  ok <- send (SelectId user serviceType) ;;
  st <- Eff.get ;;
  Eff.ret
    (if ok : bool
     then Some (firstn 1 (map id (filter (matches user serviceType)
                                         (service_records st))))
     else None).

(** The columns that [update] writes are the keys of [serviceData]: a key of
    [nextService] that is absent leaves its column as it is. *)
Definition write (d : service_data) (r : service_record) : service_record :=
  {| id := id r;
     user_id := data_user_id d;
     service_type_ := data_service_type d;
     service_date := data_service_date d;
     current_mileage := data_current_mileage d;
     next_service_date :=
       match next_date (data_next d) with
       | Some v => Some v
       | None => next_service_date r
       end;
     next_service_mileage :=
       match next_mileage (data_next d) with
       | Some v => Some v
       | None => next_service_mileage r
       end |}.

(** [.update(serviceData).eq('id', row)]: the [error] of the response. *)
Definition update (row : Z) (d : service_data) : Eff.M state (option string) :=
  ok <- send (Update row d) ;;
  if ok : bool then
    Eff.modify
      (fun st =>
         set_table
           (map (fun r => if id r =? row then write d r else r)
                (service_records st))
           (next_id st) st) ;;
    Eff.ret None
  else Eff.ret (Some "update failed").

(** [.insert([serviceData])]: the new row gets a fresh id. *)
Definition insert (d : service_data) : Eff.M state (option string) :=
  ok <- send (Insert d) ;;
  if ok : bool then
    Eff.modify
      (fun st =>
         set_table
           (service_records st ++
              [{| id := next_id st;
                  user_id := data_user_id d;
                  service_type_ := data_service_type d;
                  service_date := data_service_date d;
                  current_mileage := data_current_mileage d;
                  next_service_date := next_date (data_next d);
                  next_service_mileage := next_mileage (data_next d) |}])
           (next_id st + 1) st) ;;
    Eff.ret None
  else Eff.ret (Some "insert failed").

(** [loadUpcomingServices], lines 531-550: the user's rows, the most
    recently created first. *)
Definition loadUpcomingServices (user : option string) : Eff.M state unit :=
  match user with
  | None => Eff.ret tt
  | Some uid =>
      Eff.try_catch
        (ok <- send (SelectAll uid) ;;
         if ok : bool then
           st <- Eff.get ;;
           Eff.modify
             (setUpcomingServices
                (rev (filter (fun r => (user_id r =? uid)%string)
                             (service_records st))))
         else Eff.throw "select failed")
        (fun _ =>
           Eff.modify (showNotification "error" "Error al cargar los servicios"))
  end.

(** [toggleService], lines 557-563. *)
Definition toggleService (serviceKey : string) (st : state) : state :=
  setSelectedServices
    (if existsb (String.eqb serviceKey) (selectedServices st)
     then filter (fun s => negb (s =? serviceKey)%string) (selectedServices st)
     else selectedServices st ++ [serviceKey])
    st.

(** The body of the loop of lines 610-645, for one selected service. *)
Definition save_service (uid : string) (mileage : JS.number)
           (currentDate serviceType : string) : Eff.M state unit :=
  nextService <-
    Eff.lift (calculateNextService serviceType mileage currentDate) ;;
  existingService <- select_id uid serviceType ;;
  let serviceData :=
    {| data_user_id := uid;
       data_service_type := serviceType;
       data_service_date := currentDate;
       data_current_mileage := mileage;
       data_next := nextService |} in
  match existingService with
  | Some (existing :: _) =>
      error <- update existing serviceData ;;
      match error with
      | Some e => Eff.throw e
      | None => Eff.ret tt
      end
  | _ =>
      error <- insert serviceData ;;
      match error with
      | Some e => Eff.throw e
      | None => Eff.ret tt
      end
  end.

(** [handleSave], lines 596-662.  [user] is the signed-in user's id, if any,
    and [now] the time value of [new Date()]. *)
Definition handleSave (user : option string) (now : Z) : Eff.M state unit :=
  st <- Eff.get ;;
  match user with
  | Some uid =>
      if JS.truthy (currentMileage st)
         && negb (Nat.eqb (List.length (selectedServices st)) 0)
      then
        Eff.modify (setLoading true) ;;
        let mileage := JS.parseFloat (currentMileage st) in
        let currentDate := Date.split_0 "T" (Date.toISOString now) in
        Eff.finally
          (Eff.try_catch
             (Eff.for_of (selectedServices st)
                         (save_service uid mileage currentDate) ;;
              Eff.modify
                (showNotification "success"
                   "Servicios registrados correctamente") ;;
              Eff.modify (setCurrentMileage "") ;;
              Eff.modify (setSelectedServices []) ;;
              loadUpcomingServices user)
             (fun _ =>
                Eff.modify
                  (showNotification "error"
                     "No se pudieron guardar los servicios")))
          (Eff.modify (setLoading false))
      else
        Eff.modify
          (showNotification "error"
             "Por favor completa el kilometraje y selecciona al menos un servicio")
  | None =>
      Eff.modify
        (showNotification "error"
           "Por favor completa el kilometraje y selecciona al menos un servicio")
  end.

(** [deleteService], lines 669-690; [confirmed] is the answer to
    [window.confirm]. *)
Definition deleteService (user : option string) (confirmed : bool)
           (serviceId : Z) : Eff.M state unit :=
  if confirmed then
    Eff.try_catch
      (ok <- send (Delete serviceId) ;;
       if ok : bool then
         Eff.modify
           (fun st =>
              set_table
                (filter (fun r => negb (id r =? serviceId)) (service_records st))
                (next_id st) st) ;;
         Eff.modify
           (showNotification "success" "Servicio eliminado correctamente") ;;
         loadUpcomingServices user
       else Eff.throw "delete failed")
      (fun _ =>
         Eff.modify
           (showNotification "error" "No se pudo eliminar el servicio"))
  else Eff.ret tt.

End Host.

(** [Math.ceil(a / b)] for integers [a] and [b > 0] whose quotient is
    computed well within the precision of a Number. *)
Definition ceil_div (a b : Z) : Z := - ((- a) / b).

(** [isServiceDue], lines 698-715.  [now] is the time value of [new Date()]
    and [currentMileage] the content of the odometer field of the form. *)
Definition isServiceDue (now : Z) (currentMileage : string)
           (service : service_record) : bool :=
  match next_service_date service with
  | Some (String _ _ as date) =>
      match Date.parse date with
      | Some nextServiceDate =>
          let daysUntilService :=
            ceil_div (nextServiceDate - now) (1000 * 60 * 60 * 24) in
          daysUntilService <=? 30
      | None => false
      end
  | _ =>
      match next_service_mileage service with
      | Some mileage =>
          if JS.ToBoolean mileage && JS.truthy currentMileage then
            let currentKm := JS.parseFloat currentMileage in
            (mileage - 1000 <=? currentKm)%float
          else false
      | None => false
      end
  end.

End Services.

(* ================================================================== *)
(** * The trip calculator                                             *)
(* ================================================================== *)

Module Trip.

Record formData := {
  origin : string;
  destination : string;
  desiredPricePerKm : string;
  tripPrice : string;
}.

(** A coordinate pair, as the geocoder gives it. *)
Definition coords : Type := JS.number * JS.number.

Inductive tier := rentable | poco_rentable | no_rentable.

(** The object passed to [setAnalysis], lines 1139-1144. *)
Record analysis_result := {
  distance : JS.number;
  actualPricePerKm : JS.number;
  profitability : tier;
  difference : JS.number;
}.

(** A route of the directions response; [route_distance] is in metres. *)
Record route := { route_distance : JS.number }.

(** What the directions request comes back with: the promise is rejected
    (no connection, an error status), or the response carries [data.routes],
    which may be missing. *)
Inductive response :=
| Rejected
| Resolved (routes : option (list route)).

Record state := {
  form : formData;
  originCoords : option coords;
  destinationCoords : option coords;
  analysis : option analysis_result;
  loading : bool;
  shown : list notification;
  requests : list (coords * coords);
}.

Definition setLoading (b : bool) (st : state) : state :=
  {| form := form st; originCoords := originCoords st;
     destinationCoords := destinationCoords st; analysis := analysis st;
     loading := b; shown := shown st; requests := requests st |}.

Definition setAnalysis (a : analysis_result) (st : state) : state :=
  {| form := form st; originCoords := originCoords st;
     destinationCoords := destinationCoords st; analysis := Some a;
     loading := loading st; shown := shown st; requests := requests st |}.

Definition showNotification (t m : string) (st : state) : state :=
  {| form := form st; originCoords := originCoords st;
     destinationCoords := destinationCoords st; analysis := analysis st;
     loading := loading st;
     shown := shown st ++ [{| type := t; message := m |}];
     requests := requests st |}.

(** [axios.get] of the directions between two points: the request is
    recorded; a rejected promise throws at the [await]. *)
Definition get_directions (answer : response) (from to : coords)
  : Eff.M state (option (list route)) :=
  fun st =>
    let st' :=
      {| form := form st; originCoords := originCoords st;
         destinationCoords := destinationCoords st; analysis := analysis st;
         loading := loading st; shown := shown st;
         requests := requests st ++ [(from, to)] |} in
    match answer with
    | Rejected => (Eff.Throw "Network Error", st')
    | Resolved routes => (Eff.Normal routes, st')
    end.

(** The classification of lines 1126-1136. *)
Definition classify (difference : JS.number) : tier :=
  if (10 <=? difference)%float then rentable
  else if (-10 <=? difference)%float then poco_rentable
  else no_rentable.

(** Lines 1120-1144: the analysis of the first route. *)
Definition analyse (tripPrice desiredPricePerKm : JS.number) (r : route)
  : analysis_result :=
  let distanceKm := (route_distance r / 1000)%float in
  let actualPricePerKm := (tripPrice / distanceKm)%float in
  let difference :=
    ((actualPricePerKm - desiredPricePerKm) / desiredPricePerKm * 100)%float in
  {| distance := distanceKm;
     actualPricePerKm := actualPricePerKm;
     profitability := classify difference;
     difference := difference |}.

Local Open Scope eff_scope.

(** [calculateProfitability], lines 1082-1152; [answer] is what the
    directions request comes back with, should it be sent. *)
Definition calculateProfitability (answer : response) : Eff.M state unit :=
  st <- Eff.get ;;
  match originCoords st, destinationCoords st with
  | Some originCoords, Some destinationCoords =>
      let formData := form st in
      if negb (JS.truthy (desiredPricePerKm formData))
         || negb (JS.truthy (tripPrice formData))
      then
        Eff.modify
          (showNotification "error"
             "Por favor completa el precio deseado por km y el precio del viaje")
      else
        let tripPrice := JS.parseFloat (tripPrice formData) in
        let desiredPricePerKm := JS.parseFloat (desiredPricePerKm formData) in
        if JS.isNaN tripPrice || (tripPrice <=? 0)%float
           || JS.isNaN desiredPricePerKm || (desiredPricePerKm <=? 0)%float
        then
          Eff.modify (showNotification "error" "Por favor ingresa precios válidos")
        else
          Eff.modify (setLoading true) ;;
          Eff.finally
            (Eff.try_catch
               (routes <- get_directions answer originCoords destinationCoords ;;
                match routes with
                | Some (route :: _) =>
                    Eff.modify
                      (setAnalysis (analyse tripPrice desiredPricePerKm route))
                | _ =>
                    Eff.modify
                      (showNotification "error"
                         "No se pudo calcular la ruta entre los puntos seleccionados")
                end)
               (fun _ =>
                  Eff.modify
                    (showNotification "error"
                       "Error al calcular la ruta. Verifica tu conexión a internet")))
            (Eff.modify (setLoading false))
  | _, _ =>
      Eff.modify
        (showNotification "error"
           "Por favor selecciona origen y destino válidos de las sugerencias")
  end.

End Trip.

(* ================================================================== *)
(** * The trips screen around the calculator                          *)
(* ================================================================== *)

(** The rest of [TripsScreen]: the suggestions of places and the saving of
    an analysis.  The state of the calculator above is one component of
    the state of the screen.  A request to the geocoder is awaited in the
    middle of [fetchSuggestions]; what that handler does before and after
    the [await] are two steps here, so that other events can fall in
    between.  A string is a sequence of code units, all below 256 here. *)
Module Trips.

(** A feature of the geocoder's answer: the address and the coordinate pair
    of its geometry. *)
Record suggestion := { place_name : string; coordinates : Trip.coords }.

(** What a geocoding request comes back with: the promise is rejected, or
    the response carries [data.features], which may be missing. *)
Inductive geocoding :=
| Failed
| Features (features : option (list suggestion)).

(** A row of the table [trip_analysis]. *)
Record trip_row := {
  user_id : string;
  origin : string;
  destination : string;
  distance_km : JS.number;
  trip_price : JS.number;
  desired_price_per_km : JS.number;
  actual_price_per_km : JS.number;
  profitability : Trip.tier;
}.

(** The calculator, the suggestions under the two address fields, the
    queries sent to the geocoder, the table, and the outcomes of the insert
    requests still to come ([true]: the request succeeds; an empty schedule
    means success). *)
Record state := {
  calculator : Trip.state;
  originSuggestions : list suggestion;
  destinationSuggestions : list suggestion;
  showOriginSuggestions : bool;
  showDestinationSuggestions : bool;
  queries : list string;
  trip_analysis : list trip_row;
  schedule : list bool;
}.

Definition on_calculator (f : Trip.state -> Trip.state) (st : state) : state :=
  {| calculator := f (calculator st);
     originSuggestions := originSuggestions st;
     destinationSuggestions := destinationSuggestions st;
     showOriginSuggestions := showOriginSuggestions st;
     showDestinationSuggestions := showDestinationSuggestions st;
     queries := queries st; trip_analysis := trip_analysis st;
     schedule := schedule st |}.

(** [setOriginSuggestions] or [setDestinationSuggestions], by the side. *)
Definition setSuggestions (isOrigin : bool) (l : list suggestion) (st : state)
  : state :=
  {| calculator := calculator st;
     originSuggestions := if isOrigin then l else originSuggestions st;
     destinationSuggestions := if isOrigin then destinationSuggestions st else l;
     showOriginSuggestions := showOriginSuggestions st;
     showDestinationSuggestions := showDestinationSuggestions st;
     queries := queries st; trip_analysis := trip_analysis st;
     schedule := schedule st |}.

(** [setShowOriginSuggestions] or [setShowDestinationSuggestions]. *)
Definition setShowSuggestions (isOrigin : bool) (b : bool) (st : state)
  : state :=
  {| calculator := calculator st;
     originSuggestions := originSuggestions st;
     destinationSuggestions := destinationSuggestions st;
     showOriginSuggestions := if isOrigin then b else showOriginSuggestions st;
     showDestinationSuggestions :=
       if isOrigin then showDestinationSuggestions st else b;
     queries := queries st; trip_analysis := trip_analysis st;
     schedule := schedule st |}.

Definition suggestions (isOrigin : bool) (st : state) : list suggestion :=
  if isOrigin then originSuggestions st else destinationSuggestions st.

(** The list drawn under an address field, lines 1297 and 1339. *)
Definition listed (isOrigin : bool) (st : state) : list suggestion :=
  if (if isOrigin then showOriginSuggestions st
      else showDestinationSuggestions st)
     && (0 <? Z.of_nat (List.length (suggestions isOrigin st)))
  then suggestions isOrigin st
  else [].

(** [fetchSuggestions], lines 994-1030, up to the [await]: a query of fewer
    than three code units empties and hides the list; another one is sent
    to the geocoder. *)
Definition fetchSuggestions_begin (query : string) (isOrigin : bool)
           (st : state) : state :=
  if (String.length query <? 3)%nat then
    setShowSuggestions isOrigin false (setSuggestions isOrigin [] st)
  else
    {| calculator := calculator st;
       originSuggestions := originSuggestions st;
       destinationSuggestions := destinationSuggestions st;
       showOriginSuggestions := showOriginSuggestions st;
       showDestinationSuggestions := showDestinationSuggestions st;
       queries := (queries st ++ [query])%list;
       trip_analysis := trip_analysis st;
       schedule := schedule st |}.

(** [fetchSuggestions] from the [await] on: the features of the answer, or
    no feature when it has none, are listed; a rejected request is
    logged on the console and nothing else. *)
Definition fetchSuggestions_end (isOrigin : bool) (answer : geocoding)
           (st : state) : state :=
  match answer with
  | Failed => st
  | Features features =>
      let suggestions :=
        match features with
        | Some l => l
        | None => []
        end in
      setShowSuggestions isOrigin true (setSuggestions isOrigin suggestions st)
  end.

Definition set_form (fd : Trip.formData) (c : Trip.state) : Trip.state :=
  {| Trip.form := fd; Trip.originCoords := Trip.originCoords c;
     Trip.destinationCoords := Trip.destinationCoords c;
     Trip.analysis := Trip.analysis c; Trip.loading := Trip.loading c;
     Trip.shown := Trip.shown c; Trip.requests := Trip.requests c |}.

Definition setOriginCoords (v : option Trip.coords) (c : Trip.state)
  : Trip.state :=
  {| Trip.form := Trip.form c; Trip.originCoords := v;
     Trip.destinationCoords := Trip.destinationCoords c;
     Trip.analysis := Trip.analysis c; Trip.loading := Trip.loading c;
     Trip.shown := Trip.shown c; Trip.requests := Trip.requests c |}.

Definition setDestinationCoords (v : option Trip.coords) (c : Trip.state)
  : Trip.state :=
  {| Trip.form := Trip.form c; Trip.originCoords := Trip.originCoords c;
     Trip.destinationCoords := v;
     Trip.analysis := Trip.analysis c; Trip.loading := Trip.loading c;
     Trip.shown := Trip.shown c; Trip.requests := Trip.requests c |}.

(** [setAnalysis(null)] *)
Definition clearAnalysis (c : Trip.state) : Trip.state :=
  {| Trip.form := Trip.form c; Trip.originCoords := Trip.originCoords c;
     Trip.destinationCoords := Trip.destinationCoords c;
     Trip.analysis := None; Trip.loading := Trip.loading c;
     Trip.shown := Trip.shown c; Trip.requests := Trip.requests c |}.

(** [setFormData(prev => ({...prev, [name]: value}))] for the four inputs
    of the form. *)
Definition set_field (name value : string) (fd : Trip.formData)
  : Trip.formData :=
  let pick field old := if (name =? field)%string then value else old in
  {| Trip.origin := pick "origin" (Trip.origin fd);
     Trip.destination := pick "destination" (Trip.destination fd);
     Trip.desiredPricePerKm :=
       pick "desiredPricePerKm" (Trip.desiredPricePerKm fd);
     Trip.tripPrice := pick "tripPrice" (Trip.tripPrice fd) |}.

Definition blank_form : Trip.formData :=
  {| Trip.origin := ""; Trip.destination := "";
     Trip.desiredPricePerKm := ""; Trip.tripPrice := "" |}.

(** [selectSuggestion], lines 1043-1055. *)
Definition selectSuggestion (s : suggestion) (isOrigin : bool) (st : state)
  : state :=
  let choose (c : Trip.state) : Trip.state :=
    if isOrigin then
      setOriginCoords (Some (coordinates s))
        (set_form (set_field "origin" (place_name s) (Trip.form c)) c)
    else
      setDestinationCoords (Some (coordinates s))
        (set_form (set_field "destination" (place_name s) (Trip.form c)) c) in
  setShowSuggestions isOrigin false
    (setSuggestions isOrigin [] (on_calculator choose st)).

(** [handleInputChange], lines 1062-1073, with [fetchSuggestions] up to its
    [await]. *)
Definition handleInputChange (name value : string) (st : state) : state :=
  let st1 :=
    on_calculator (fun c => set_form (set_field name value (Trip.form c)) c)
                  st in
  if (name =? "origin")%string then fetchSuggestions_begin value true st1
  else if (name =? "destination")%string
       then fetchSuggestions_begin value false st1
       else st1.

(** [calculateProfitability] on the screen. *)
Definition calculateProfitability (answer : Trip.response) (st : state)
  : Eff.completion unit * state :=
  let (r, c) := Trip.calculateProfitability answer (calculator st) in
  (r, on_calculator (fun _ => c) st).

(** The data store's [insert]: the row is appended when the request
    succeeds; the result is the [error] of the response. *)
Definition insert (r : trip_row) : Eff.M state (option string) :=
  fun st =>
    match schedule st with
    | false :: later =>
        (Eff.Normal (Some "insert failed"),
         {| calculator := calculator st;
            originSuggestions := originSuggestions st;
            destinationSuggestions := destinationSuggestions st;
            showOriginSuggestions := showOriginSuggestions st;
            showDestinationSuggestions := showDestinationSuggestions st;
            queries := queries st; trip_analysis := trip_analysis st;
            schedule := later |})
    | _ =>
        (Eff.Normal None,
         {| calculator := calculator st;
            originSuggestions := originSuggestions st;
            destinationSuggestions := destinationSuggestions st;
            showOriginSuggestions := showOriginSuggestions st;
            showDestinationSuggestions := showDestinationSuggestions st;
            queries := queries st;
            trip_analysis := (trip_analysis st ++ [r])%list;
            schedule := tl (schedule st) |})
    end.

(** The object [tripData] of lines 1166-1175. *)
Definition tripData (user : string) (analysis : Trip.analysis_result)
           (formData : Trip.formData) : trip_row :=
  {| user_id := user;
     origin := Trip.origin formData;
     destination := Trip.destination formData;
     distance_km := Trip.distance analysis;
     trip_price := JS.parseFloat (Trip.tripPrice formData);
     desired_price_per_km := JS.parseFloat (Trip.desiredPricePerKm formData);
     actual_price_per_km := Trip.actualPricePerKm analysis;
     profitability := Trip.profitability analysis |}.

Local Open Scope eff_scope.

(** [handleSave], lines 1159-1205; [user] is the signed-in user's id, if
    any. *)
Definition handleSave (user : option string) : Eff.M state unit :=
  st <- Eff.get ;;
  match user, Trip.analysis (calculator st) with
  | Some uid, Some analysis =>
      Eff.modify (on_calculator (Trip.setLoading true)) ;;
      Eff.finally
        (Eff.try_catch
           (error <- insert (tripData uid analysis (Trip.form (calculator st))) ;;
            match error with
            | Some e => Eff.throw e
            | None =>
                Eff.modify
                  (on_calculator
                     (Trip.showNotification "success"
                        "Análisis guardado correctamente")) ;;
                Eff.modify (on_calculator (set_form blank_form)) ;;
                Eff.modify (on_calculator (setOriginCoords None)) ;;
                Eff.modify (on_calculator (setDestinationCoords None)) ;;
                Eff.modify (on_calculator clearAnalysis)
            end)
           (fun _ =>
              Eff.modify
                (on_calculator
                   (Trip.showNotification "error"
                      "No se pudo guardar el análisis"))))
        (Eff.modify (on_calculator (Trip.setLoading false)))
  | _, _ => Eff.ret tt
  end.

End Trips.

(* ================================================================== *)
(** * Notifications                                                   *)
(* ================================================================== *)

(** [showNotification] is the same in the three screens (lines 61-64,
    520-523 and 980-983): it puts the notification on the screen and arms a
    timer that takes whatever notification is on the screen off it three
    seconds later.  The timers are never cancelled. *)
Module Notice.

(** The notification on the screen, if any, and the number of timers that
    are armed. *)
Record state := { notification : option notification; timers : nat }.

Definition showNotification (t m : string) (st : state) : state :=
  {| notification := Some {| type := t; message := m |};
     timers := S (timers st) |}.

(** A timer goes off: [setNotification(null)]. *)
Definition timeout (st : state) : state :=
  {| notification := None; timers := pred (timers st) |}.

(** The last line of the [handleInputChange] of a screen:
    [if (notification) setNotification(null)]. *)
Definition input (st : state) : state :=
  match notification st with
  | Some _ => {| notification := None; timers := timers st |}
  | None => st
  end.

(** What happens to the notifications of a screen. *)
Inductive event :=
| Show (t m : string)
| Timeout
| Input.

(** A timer goes off only if one is armed. *)
Definition step (st : state) (e : event) : state :=
  match e with
  | Show t m => showNotification t m st
  | Timeout => if (0 <? Z.of_nat (timers st)) then timeout st else st
  | Input => input st
  end.

Definition run (events : list event) (st : state) : state :=
  fold_left step events st.

Definition mounted : state := {| notification := None; timers := O |}.

End Notice.

(* ================================================================== *)
(** * The history of earnings                                         *)
(* ================================================================== *)

(** The parts of [HistoryScreen] ([src/components/Navigation.jsx], lines
    178-689) that order the records saved by [EarningsScreen] and delete
    them.  The search by text and the sort itself, whose result the
    language leaves to the implementation for a comparator like the one
    below, are not modelled. *)
Module History.

(** A row of [earnings_records], with the id the data store gave it. *)
Record stored := { id : Z; row : Earnings.earnings_record }.

(** [records], [sortField], [sortOrder], [selectedRecord], the
    notifications shown, the table, the ids of the delete requests sent,
    and the outcomes of the requests still to come. *)
Record state := {
  records : list stored;
  sortField : string;
  sortOrder : string;
  selectedRecord : option Z;
  shown : list notification;
  earnings_records : list stored;
  deleted : list Z;
  schedule : list bool;
}.

Definition setSort (field order : string) (st : state) : state :=
  {| records := records st; sortField := field; sortOrder := order;
     selectedRecord := selectedRecord st; shown := shown st;
     earnings_records := earnings_records st; deleted := deleted st;
     schedule := schedule st |}.

Definition setRecords (l : list stored) (st : state) : state :=
  {| records := l; sortField := sortField st; sortOrder := sortOrder st;
     selectedRecord := selectedRecord st; shown := shown st;
     earnings_records := earnings_records st; deleted := deleted st;
     schedule := schedule st |}.

Definition setSelectedRecord (v : option Z) (st : state) : state :=
  {| records := records st; sortField := sortField st;
     sortOrder := sortOrder st; selectedRecord := v; shown := shown st;
     earnings_records := earnings_records st; deleted := deleted st;
     schedule := schedule st |}.

Definition showNotification (t m : string) (st : state) : state :=
  {| records := records st; sortField := sortField st;
     sortOrder := sortOrder st; selectedRecord := selectedRecord st;
     shown := (shown st ++ [{| type := t; message := m |}])%list;
     earnings_records := earnings_records st; deleted := deleted st;
     schedule := schedule st |}.

(** [handleSort], lines 372-381. *)
Definition handleSort (field : string) (st : state) : state :=
  if (sortField st =? field)%string then
    setSort (sortField st)
            (if (sortOrder st =? "asc")%string then "desc" else "asc") st
  else setSort field "desc" st.

(** [a[sortField]] as the comparator of lines 314-330 uses it, for the
    three columns the screen sorts by: the time value of the date ([NaN]
    when it is not a date) or the number of the column. *)
Definition sort_value (field : string) (r : stored) : JS.number :=
  if (field =? "date")%string then
    match Date.parse (Earnings.date (row r)) with
    | Some t => JS.of_Z t
    | None => JS.NaN
    end
  else if (field =? "net_earnings")%string then Earnings.net_earnings (row r)
  else if (field =? "trips_completed")%string
       then Earnings.trips_completed (row r)
       else JS.NaN.

(** The comparator passed to [sort], lines 314-330. *)
Definition comparator (field order : string) (a b : stored) : Z :=
  let aValue := sort_value field a in
  let bValue := sort_value field b in
  if (order =? "asc")%string
  then (if (bValue <? aValue)%float then 1 else -1)
  else (if (aValue <? bValue)%float then 1 else -1).

Local Open Scope eff_scope.

(** Sending the delete request and awaiting its outcome. *)
Definition send_delete (recordId : Z) : Eff.M state bool :=
  fun st =>
    (Eff.Normal match schedule st with
                | b :: _ => b
                | [] => true
                end,
     {| records := records st; sortField := sortField st;
        sortOrder := sortOrder st; selectedRecord := selectedRecord st;
        shown := shown st; earnings_records := earnings_records st;
        deleted := (deleted st ++ [recordId])%list;
        schedule := tl (schedule st) |}).

Definition delete_row (recordId : Z) (st : state) : state :=
  {| records := records st; sortField := sortField st;
     sortOrder := sortOrder st; selectedRecord := selectedRecord st;
     shown := shown st;
     earnings_records :=
       filter (fun r => negb (id r =? recordId)) (earnings_records st);
     deleted := deleted st; schedule := schedule st |}.

(** [deleteRecord], lines 340-365; [confirmed] is the answer to
    [window.confirm]. *)
Definition deleteRecord (confirmed : bool) (recordId : Z) : Eff.M state unit :=
  if confirmed then
    Eff.try_catch
      (ok <- send_delete recordId ;;
       if ok : bool then
         Eff.modify (delete_row recordId) ;;
         Eff.modify
           (fun st =>
              setRecords
                (filter (fun record => negb (id record =? recordId))
                        (records st))
                st) ;;
         Eff.modify (setSelectedRecord None) ;;
         Eff.modify
           (showNotification "success" "Registro eliminado correctamente")
       else Eff.throw "delete failed")
      (fun _ =>
         Eff.modify
           (showNotification "error" "Error al eliminar el registro"))
  else Eff.ret tt.

End History.

(* ================================================================== *)
(** * Vocabulary of the statements                                    *)
(* ================================================================== *)

(** The states, inputs and predicates that the lemmas and theorems below
    are stated with. *)

(** The number an input of the earnings form stands for:
    [parseFloat(field) || 0]. *)
Definition input_value (field : string) : JS.number :=
  JS.or_else (JS.parseFloat field) 0%float.

(** The inputs of the example of the specification. *)
Definition example_form : Earnings.formData :=
  {| Earnings.totalEarnings := "1000";
     Earnings.tripsCompleted := "10";
     Earnings.kilometersDriver := "100";
     Earnings.hoursWorked := "5";
     Earnings.tips := "50";
     Earnings.extras := "0";
     Earnings.fuelCost := "200";
     Earnings.otherExpenses := "0" |}.

(** A trip form with both places chosen from the suggestions. *)
Definition trip_form (desired price : string) : Trip.state :=
  {| Trip.form :=
       {| Trip.origin := "Obelisco"; Trip.destination := "Aeroparque";
          Trip.desiredPricePerKm := desired; Trip.tripPrice := price |};
     Trip.originCoords := Some ((-58.375)%float, (-34.625)%float);
     Trip.destinationCoords := Some ((-58.5)%float, (-34.5)%float);
     Trip.analysis := None;
     Trip.loading := false;
     Trip.shown := [];
     Trip.requests := [] |}.

(** The directions service answers with one route of [metres] metres. *)
Definition one_route (metres : JS.number) : Trip.response :=
  Trip.Resolved (Some [ {| Trip.route_distance := metres |} ]).

(** The offset of UTC-3 (Argentina), in milliseconds. *)
Definition utc_minus_3 : Z := - (3 * 3600000).

(** The services form with an odometer reading and a selection, over a
    given table; [outcomes] are the outcomes of the requests to come. *)
Definition services_form (mileage : string) (selected : list string)
           (rows : list Services.service_record) (fresh : Z)
           (outcomes : list bool) : Services.state :=
  {| Services.currentMileage := mileage;
     Services.selectedServices := selected;
     Services.upcomingServices := [];
     Services.loading := false;
     Services.shown := [];
     Services.service_records := rows;
     Services.next_id := fresh;
     Services.requests := [];
     Services.schedule := outcomes |}.




(** The row of the oil change registered at 50000 km. *)
Definition stored_oil_change : Services.service_record :=
  {| Services.id := 1; Services.user_id := "driver-1";
     Services.service_type_ := "oil_change";
     Services.service_date := "2025-11-02";
     Services.current_mileage := 50000%float;
     Services.next_service_date := None;
     Services.next_service_mileage := Some 60000%float |}.

(** The screen as it is mounted: a blank form and its calculations. *)
Definition earnings_mounted : Earnings.state :=
  Earnings.recalculate
    {| Earnings.form := Earnings.blank_form;
       Earnings.calcs :=
         {| Earnings.grossEarnings := 0%float; Earnings.grossPerKm := 0%float;
            Earnings.grossPerHour := 0%float; Earnings.grossPerTrip := 0%float;
            Earnings.totalExpenses := 0%float; Earnings.netEarnings := 0%float;
            Earnings.netPerKm := 0%float; Earnings.netPerHour := 0%float;
            Earnings.netPerTrip := 0%float |};
       Earnings.loading := false;
       Earnings.shown := [];
       Earnings.earnings_records := [];
       Earnings.schedule := [] |}.

(** Typing a value into each of a list of inputs, in turn. *)
Definition type_in (inputs : list (string * string)) (st : Earnings.state)
  : Earnings.state :=
  fold_left (fun s nv => Earnings.handleInputChange (fst nv) (snd nv) s)
            inputs st.

(** The states of the screen: it is mounted, values are typed, records are
    saved. *)
Inductive earnings_reachable : Earnings.state -> Prop :=
| reach_mounted : earnings_reachable earnings_mounted
| reach_input st name value :
    earnings_reachable st ->
    earnings_reachable (Earnings.handleInputChange name value st)
| reach_save st user now :
    earnings_reachable st ->
    earnings_reachable (snd (Earnings.handleSave user now st))
| reach_outcomes st outcomes :
    earnings_reachable st ->
    earnings_reachable
      {| Earnings.form := Earnings.form st; Earnings.calcs := Earnings.calcs st;
         Earnings.loading := Earnings.loading st;
         Earnings.shown := Earnings.shown st;
         Earnings.earnings_records := Earnings.earnings_records st;
         Earnings.schedule := outcomes |}.

(** The rows of a user for a service type. *)
Definition records_of (user serviceType : string)
           (rows : list Services.service_record)
  : list Services.service_record :=
  filter (Services.matches user serviceType) rows.

(** At most one row for every user and service type. *)
Definition one_record_per_type (rows : list Services.service_record) : Prop :=
  forall user serviceType,
    (List.length (records_of user serviceType rows) <= 1)%nat.

(** A table with one oil change of [driver-1]. *)
Definition one_oil_change : list Services.service_record :=
  [ {| Services.id := 1; Services.user_id := "driver-1";
       Services.service_type_ := "oil_change";
       Services.service_date := "2025-05-02";
       Services.current_mileage := 50000%float;
       Services.next_service_date := None;
       Services.next_service_mileage := Some 60000%float |} ].

(** The rows after [update] and after [insert] have succeeded. *)
Definition updated (row : Z) (d : Services.service_data)
           (rows : list Services.service_record)
  : list Services.service_record :=
  map (fun r => if Services.id r =? row then Services.write d r else r) rows.

Definition inserted (fresh : Z) (d : Services.service_data)
           (rows : list Services.service_record)
  : list Services.service_record :=
  (rows ++
  [ {| Services.id := fresh;
       Services.user_id := Services.data_user_id d;
       Services.service_type_ := Services.data_service_type d;
       Services.service_date := Services.data_service_date d;
       Services.current_mileage := Services.data_current_mileage d;
       Services.next_service_date := Services.next_date (Services.data_next d);
       Services.next_service_mileage :=
         Services.next_mileage (Services.data_next d) |} ])%list.

(** The ways an iteration of the loop of [handleSave] can go. *)
Inductive iteration (uid : string) (d : Services.service_data)
          (st : Services.state)
  : Eff.completion unit -> Services.state -> Prop :=
| it_updated existing l :
    Services.outcome st = true ->
    firstn 1 (map Services.id
                (filter (Services.matches uid (Services.data_service_type d))
                        (Services.service_records st))) = existing :: l ->
    let st1 := Services.sent (Services.SelectId uid (Services.data_service_type d)) st in
    Services.outcome st1 = true ->
    iteration uid d st (Eff.Normal tt)
      (Services.set_table (updated existing d (Services.service_records st))
         (Services.next_id st) (Services.sent (Services.Update existing d) st1))
| it_update_failed existing l :
    Services.outcome st = true ->
    firstn 1 (map Services.id
                (filter (Services.matches uid (Services.data_service_type d))
                        (Services.service_records st))) = existing :: l ->
    let st1 := Services.sent (Services.SelectId uid (Services.data_service_type d)) st in
    Services.outcome st1 = false ->
    iteration uid d st (Eff.Throw "update failed")
      (Services.sent (Services.Update existing d) st1)
| it_inserted :
    (Services.outcome st = true ->
     filter (Services.matches uid (Services.data_service_type d))
            (Services.service_records st) = []) ->
    let st1 := Services.sent (Services.SelectId uid (Services.data_service_type d)) st in
    Services.outcome st1 = true ->
    iteration uid d st (Eff.Normal tt)
      (Services.set_table
         (inserted (Services.next_id st) d (Services.service_records st))
         (Services.next_id st + 1) (Services.sent (Services.Insert d) st1))
| it_insert_failed :
    (Services.outcome st = true ->
     filter (Services.matches uid (Services.data_service_type d))
            (Services.service_records st) = []) ->
    let st1 := Services.sent (Services.SelectId uid (Services.data_service_type d)) st in
    Services.outcome st1 = false ->
    iteration uid d st (Eff.Throw "insert failed")
      (Services.sent (Services.Insert d) st1).

(** The object [serviceData] of an iteration. *)
Definition serviceData (uid : string) (mileage : JS.number)
           (currentDate serviceType : string) (n : Services.next_service)
  : Services.service_data :=
  {| Services.data_user_id := uid;
     Services.data_service_type := serviceType;
     Services.data_service_date := currentDate;
     Services.data_current_mileage := mileage;
     Services.data_next := n |}.

(** Ids are a key of the table, and the next id is fresh. *)
Definition table_ok (st : Services.state) : Prop :=
  NoDup (map Services.id (Services.service_records st))
  /\ Forall (fun r => Services.id r < Services.next_id st)
            (Services.service_records st).

(** What a handler leaves untouched in the form. *)
Definition same_form (st st' : Services.state) : Prop :=
  Services.currentMileage st' = Services.currentMileage st
  /\ Services.selectedServices st' = Services.selectedServices st
  /\ Services.upcomingServices st' = Services.upcomingServices st
  /\ Services.loading st' = Services.loading st
  /\ Services.shown st' = Services.shown st.

(** The service type a request is about. *)
Definition about (q : Services.request) : option string :=
  match q with
  | Services.SelectId _ serviceType => Some serviceType
  | Services.Update _ d => Some (Services.data_service_type d)
  | Services.Insert d => Some (Services.data_service_type d)
  | Services.SelectAll _ | Services.Delete _ => None
  end.

(** The row holds the user, type, date and odometer reading of [d]. *)
Definition saved_as (d : Services.service_data) (r : Services.service_record)
  : Prop :=
  Services.user_id r = Services.data_user_id d
  /\ Services.service_type_ r = Services.data_service_type d
  /\ Services.service_date r = Services.data_service_date d
  /\ Services.current_mileage r = Services.data_current_mileage d.

(** The table holds a row of the user for the type, with the date and the
    odometer reading of this submission. *)
Definition holds (uid : string) (mileage : JS.number)
           (currentDate serviceType : string)
           (rows : list Services.service_record) : Prop :=
  exists r, In r rows
            /\ Services.user_id r = uid
            /\ Services.service_type_ r = serviceType
            /\ Services.service_date r = currentDate
            /\ Services.current_mileage r = mileage.

(** The entry of [SERVICE_TYPES] for a key. *)
Definition service_of (serviceType : string) : option Services.service_type :=
  find (fun s => (Services.key s =? serviceType)%string) Services.SERVICE_TYPES.

(** The object holds no other output than the one of the type's rule. *)
Definition output_of_rule (serviceType : string) (n : Services.next_service)
  : Prop :=
  match service_of serviceType with
  | None => n = Services.empty_object
  | Some service =>
      match Services.rule service with
      | Services.years => Services.next_mileage n = None
      | Services.km => Services.next_date n = None
      end
  end.

(** The row holds no other output than the one of the rule of its type (a
    row of an unknown type holds at most one). *)
Definition follows_rule (r : Services.service_record) : Prop :=
  match service_of (Services.service_type_ r) with
  | None =>
      Services.next_service_date r = None
      \/ Services.next_service_mileage r = None
  | Some service =>
      match Services.rule service with
      | Services.years => Services.next_service_mileage r = None
      | Services.km => Services.next_service_date r = None
      end
  end.

(** A submission of three services whose fourth request, the insert of the
    second service, fails. *)
Definition three_services : Services.state :=
  services_form "50000" ["vtv"; "oil_change"; "brakes"] [] 1
                [true; true; true; false].

(** The state after the iteration for the first service. *)
Definition after_first : Services.state :=
  snd (Services.save_service utc_minus_3 "driver-1" 50000%float "2025-11-02"
         "vtv" (Services.setLoading true three_services)).

(** A price field that is blank, does not start with a number, or holds a
    number that is not positive. *)
Definition bad_price (field : string) : Prop :=
  field = ""
  \/ JS.isNaN (JS.parseFloat field) = true
  \/ (JS.parseFloat field <=? 0)%float = true.

(** The directions request failed, or came back without a route. *)
Definition no_route (answer : Trip.response) : Prop :=
  answer = Trip.Rejected
  \/ answer = Trip.Resolved None
  \/ answer = Trip.Resolved (Some []).

(** The outcomes at the even positions of a schedule are successes.  Every
    iteration of the loop of [handleSave] sends a lookup and then an update
    or an insert, so these are the outcomes of the lookups. *)
Fixpoint lookups_succeed (outcomes : list bool) : Prop :=
  match outcomes with
  | [] => True
  | lookup :: rest =>
      lookup = true
      /\ match rest with
         | [] => True
         | _ :: later => lookups_succeed later
         end
  end.

(** The integers [lo], [lo + 1], ..., [lo + n - 1]. *)
Fixpoint zrange (lo : Z) (n : nat) : list Z :=
  match n with
  | O => []
  | S k => lo :: zrange (lo + 1) k
  end.

(** [y]-[m]-[d] is a date of the calendar. *)
Definition valid_date (y m d : Z) : Prop :=
  1 <= m <= 12 /\ 1 <= d <= Date.DaysInMonth y m.

(** The steps of [Date.civil_from_days]: the 400-year era of a day number,
    the day of the era, the year of the era, the day of that year (years
    starting on 1 March) and the month counted from March. *)
Definition era_of (z : Z) : Z := (z + 719468) / 146097.
Definition doe_of (z : Z) : Z := z + 719468 - era_of z * 146097.
Definition year_formula (doe : Z) : Z :=
  doe - doe / 1460 + doe / 36524 - doe / 146096.
Definition yoe_of (z : Z) : Z := year_formula (doe_of z) / 365.
Definition doy_of (z : Z) : Z :=
  doe_of z - (365 * yoe_of z + yoe_of z / 4 - yoe_of z / 100).
Definition mp_of (z : Z) : Z := (5 * doy_of z + 2) / 153.

(** The first day of the month [y]-[m] has a day number that reads back as
    [y]-[m]-01, and the last day of the month falls in the same era, year
    of the era and month. *)
Definition month_round_trips (y m : Z) : bool :=
  let first := Date.days_from_civil y m 1 in
  let last := first + Date.DaysInMonth y m - 1 in
  let '(y', m', d') := Date.civil_from_days first in
  (y' =? y) && (m' =? m) && (d' =? 1)
  && (era_of first =? era_of last) && (yoe_of first =? yoe_of last)
  && (mp_of first =? mp_of last).

(** February has 28 or 29 days; another month has the length it has in
    year 0. *)
Definition month_length_regular (y m : Z) : bool :=
  if m =? 2
  then (28 <=? Date.DaysInMonth y m) && (Date.DaysInMonth y m <=? 29)
  else Date.DaysInMonth y m =? Date.DaysInMonth 0 m.

(** The text [YYYY-MM-DD] of a date. *)
Definition iso_date (y m d : Z) : string :=
  (Date.year_string y ++ "-" ++ Date.pad 2 m "" ++ "-" ++ Date.pad 2 d "")%string.

(** The four inputs that [handleSave] of the earnings screen requires. *)
Definition required_inputs (fd : Earnings.formData) : list string :=
  [Earnings.totalEarnings fd; Earnings.tripsCompleted fd;
   Earnings.kilometersDriver fd; Earnings.hoursWorked fd].

(** The calculations of a blank form. *)
Definition no_calculations : Earnings.calculations :=
  {| Earnings.grossEarnings := 0%float; Earnings.grossPerKm := 0%float;
     Earnings.grossPerHour := 0%float; Earnings.grossPerTrip := 0%float;
     Earnings.totalExpenses := 0%float; Earnings.netEarnings := 0%float;
     Earnings.netPerKm := 0%float; Earnings.netPerHour := 0%float;
     Earnings.netPerTrip := 0%float |}.

(** The outcome of the next request to the table of earnings. *)
Definition next_outcome (st : Earnings.state) : bool :=
  match Earnings.schedule st with
  | b :: _ => b
  | [] => true
  end.

(** An earnings form with the four required inputs and the tips. *)
Definition earnings_form (total trips kilometres hours tips : string)
  : Earnings.state :=
  type_in [("totalEarnings", total); ("tripsCompleted", trips);
           ("kilometersDriver", kilometres); ("hoursWorked", hours);
           ("tips", tips)]
          earnings_mounted.

(** The day whose date, in UTC, a record saved at the time value [now] is
    given, counted from the day of the host's local time: the host being
    behind UTC by less than a day, the next day from the local time at
    which UTC passes midnight. *)
Definition saved_day (tz now : Z) : Z :=
  let local := Date.LocalTime tz now in
  Date.Day local
  + (if Date.msPerDay + tz <=? Date.TimeWithinDay local then 1 else 0).

(** The text [YYYY-MM-DD] of the date of a day number. *)
Definition date_of_day (day : Z) : string :=
  let '(y, m, d) := Date.civil_from_days day in iso_date y m d.

(** Every request to come succeeds. *)
Definition all_succeed (outcomes : list bool) : Prop :=
  Forall (fun b => b = true) outcomes.

(** The rows of a user, the most recently created first: what
    [loadUpcomingServices] asks the data store for. *)
Definition own_rows (uid : string) (rows : list Services.service_record)
  : list Services.service_record :=
  rev (filter (fun r => (Services.user_id r =? uid)%string) rows).

(** The state that [loadUpcomingServices] leaves for a signed-in user: the
    request has been sent, and either the list on the screen is the answer
    or an error is shown. *)
Definition loaded (uid : string) (st : Services.state) : Services.state :=
  if Services.outcome st
  then Services.setUpcomingServices
         (own_rows uid (Services.service_records st))
         (Services.sent (Services.SelectAll uid) st)
  else Services.showNotification "error" "Error al cargar los servicios"
         (Services.sent (Services.SelectAll uid) st).

(** The same, for whoever is signed in: with nobody signed in,
    [loadUpcomingServices] does nothing. *)
Definition reloaded (user : option string) (st : Services.state)
  : Services.state :=
  match user with
  | Some uid => loaded uid st
  | None => st
  end.

(** The check at the head of [handleSave] of the services screen fails:
    nobody is signed in, the odometer field is blank or no service is
    selected. *)
Definition nothing_to_save (user : option string) (st : Services.state)
  : Prop :=
  user = None \/ Services.currentMileage st = ""
  \/ Services.selectedServices st = [].

(** The data store as other sessions and the network leave it: another
    table, other outcomes for the requests to come. *)
Definition with_store (rows : list Services.service_record) (fresh : Z)
           (outcomes : list bool) (st : Services.state) : Services.state :=
  {| Services.currentMileage := Services.currentMileage st;
     Services.selectedServices := Services.selectedServices st;
     Services.upcomingServices := Services.upcomingServices st;
     Services.loading := Services.loading st;
     Services.shown := Services.shown st;
     Services.service_records := rows;
     Services.next_id := fresh;
     Services.requests := Services.requests st;
     Services.schedule := outcomes |}.

(** The states of the services screen of the user [uid]: it is mounted
    with nothing on its list, and from then on the user types the odometer
    reading, toggles services, submits, deletes and reloads, while the data
    store changes under it. *)
Inductive services_reachable (tz : Z) (uid : string)
  : Services.state -> Prop :=
| sreach_mounted rows fresh outcomes :
    services_reachable tz uid (services_form "" [] rows fresh outcomes)
| sreach_load st :
    services_reachable tz uid st ->
    services_reachable tz uid
      (snd (Services.loadUpcomingServices (Some uid) st))
| sreach_mileage st v :
    services_reachable tz uid st ->
    services_reachable tz uid (Services.setCurrentMileage v st)
| sreach_toggle st serviceKey :
    services_reachable tz uid st ->
    services_reachable tz uid (Services.toggleService serviceKey st)
| sreach_save st now :
    services_reachable tz uid st ->
    services_reachable tz uid (snd (Services.handleSave tz (Some uid) now st))
| sreach_delete st confirmed serviceId :
    services_reachable tz uid st ->
    services_reachable tz uid
      (snd (Services.deleteService (Some uid) confirmed serviceId st))
| sreach_store st rows fresh outcomes :
    services_reachable tz uid st ->
    services_reachable tz uid (with_store rows fresh outcomes st).

(** The trips screen around a calculator: no suggestion, no query sent, an
    empty table. *)
Definition trips_screen (c : Trip.state) (outcomes : list bool) : Trips.state :=
  {| Trips.calculator := c;
     Trips.originSuggestions := [];
     Trips.destinationSuggestions := [];
     Trips.showOriginSuggestions := false;
     Trips.showDestinationSuggestions := false;
     Trips.queries := [];
     Trips.trip_analysis := [];
     Trips.schedule := outcomes |}.

(** Typing a value into each of a list of inputs of the trips form, in
    turn. *)
Definition type_in_trip (inputs : list (string * string)) (st : Trips.state)
  : Trips.state :=
  fold_left (fun s nv => Trips.handleInputChange (fst nv) (snd nv) s) inputs st.

(** The features of an answer of the geocoder: [features || []]. *)
Definition features_of (features : option (list Trips.suggestion))
  : list Trips.suggestion :=
  match features with
  | Some l => l
  | None => []
  end.

(** Two places of the geocoder. *)
Definition obelisco : Trips.suggestion :=
  {| Trips.place_name := "Obelisco, Buenos Aires";
     Trips.coordinates := ((-58.375)%float, (-34.625)%float) |}.
Definition aeroparque : Trips.suggestion :=
  {| Trips.place_name := "Aeroparque, Buenos Aires";
     Trips.coordinates := ((-58.5)%float, (-34.5)%float) |}.

(** The outcome of the next insert request of the trips screen. *)
Definition next_trip_outcome (st : Trips.state) : bool :=
  match Trips.schedule st with
  | b :: _ => b
  | [] => true
  end.

(** The columns that the buttons of the history screen sort by. *)
Definition sort_columns : list string :=
  ["date"; "net_earnings"; "trips_completed"].

(** The history screen as it is mounted: sorted by date, the latest first. *)
Definition history_mounted (rows : list History.stored) (outcomes : list bool)
  : History.state :=
  {| History.records := [];
     History.sortField := "date";
     History.sortOrder := "desc";
     History.selectedRecord := None;
     History.shown := [];
     History.earnings_records := rows;
     History.deleted := [];
     History.schedule := outcomes |}.

(** A record of 2 November 2025 with the given id. *)
Definition same_day_record (n : Z) : History.stored :=
  {| History.id := n;
     History.row :=
       Earnings.earningsData "driver-1" "2025-11-02"
         (type_in [("totalEarnings", "1000"); ("tripsCompleted", "10");
                   ("kilometersDriver", "100"); ("hoursWorked", "5")]
                  earnings_mounted) |}.

(** The list on the screen holds the rows of the user that the table
    holds. *)
Definition in_sync (uid : string) (st : History.state) : Prop :=
  forall r,
    In r (History.records st)
    <-> In r (History.earnings_records st)
        /\ Earnings.user_id (History.row r) = uid.

(* ================================================================== *)
(** * Checks of the run time                                          *)
(* ================================================================== *)

(** [parseFloat] and [parseInt] on the kinds of text a number input can
    hold, and on text it cannot. *)
Example parseFloat_checks :
  JS.parseFloat "1000" = 1000%float
  /\ JS.parseFloat "8.5" = 8.5%float
  /\ JS.parseFloat "  0.5e1x" = 5%float
  /\ JS.parseFloat "5." = 5%float
  /\ JS.parseFloat "-.5e-1" = (-0x1.999999999999ap-5)%float
  /\ JS.parseFloat "1e" = 1%float
  /\ JS.parseFloat "0.30000000000000004"
     = (0x1.999999999999ap-4 + 0x1.999999999999ap-3)%float
  /\ JS.parseFloat "4.9e-324" = 0x1p-1074%float
  /\ JS.parseFloat "1.7976931348623157e308" = 0x1.fffffffffffffp+1023%float
  /\ JS.parseFloat "1e309" = infinity
  /\ JS.parseFloat "-Infinity" = neg_infinity
  /\ JS.parseFloat "" = nan
  /\ JS.parseFloat "abc" = nan
  /\ JS.parseFloat "." = nan
  /\ JS.parseInt "2.5" = 2%float
  /\ JS.parseInt "1e3" = 1%float
  /\ JS.parseInt "0x1F" = 31%float
  /\ JS.parseInt "" = nan.
Proof. vm_compute. repeat split; reflexivity. Qed.

(** Dates: parsing a date-only string, printing, and moving the year in UTC
    and three hours behind it. *)
Example date_checks :
  Date.parse "2026-03-01" = Some 1772323200000
  /\ Date.parse "2024-02-29" = Some 1709164800000
  /\ Date.parse "2026-02-29" = None
  /\ Date.toISOString 1772323200000 = "2026-03-01T00:00:00.000Z"
  /\ Date.toISOString 1762124645123 = "2025-11-02T23:04:05.123Z"
  /\ Date.toISOString (-1) = "1969-12-31T23:59:59.999Z"
  /\ Date.getFullYear utc_minus_3 1767225600000 = 2025
  /\ Date.getFullYear 0 1767225600000 = 2026
  /\ Date.toISOString (Date.setFullYear 0 1709164800000 2026)
     = "2026-03-01T00:00:00.000Z"
  /\ Date.toISOString (Date.setFullYear utc_minus_3 1772323200000 2028)
     = "2028-02-29T00:00:00.000Z".
Proof. vm_compute. repeat split; reflexivity. Qed.

(** Runs of [calculateProfitability] that end in an error: no place chosen,
    a price of 0, a request that fails, a response without routes. *)
Example calculateProfitability_runs :
  let unplaced :=
    {| Trip.form := Trip.form (trip_form "750" "5000");
       Trip.originCoords := None;
       Trip.destinationCoords := None;
       Trip.analysis := None; Trip.loading := false; Trip.shown := [];
       Trip.requests := [] |} in
  let summary (run : Eff.completion unit * Trip.state) :=
    (fst run, List.length (Trip.requests (snd run)),
     map type (Trip.shown (snd run)), Trip.analysis (snd run),
     Trip.loading (snd run)) in
  summary (Trip.calculateProfitability (one_route 5880%float) unplaced)
  = (Eff.Normal tt, 0%nat, ["error"], None, false)
  /\ summary (Trip.calculateProfitability (one_route 5880%float)
                (trip_form "750" "0"))
     = (Eff.Normal tt, 0%nat, ["error"], None, false)
  /\ summary (Trip.calculateProfitability Trip.Rejected
                (trip_form "750" "5000"))
     = (Eff.Normal tt, 1%nat, ["error"], None, false)
  /\ summary (Trip.calculateProfitability (Trip.Resolved (Some []))
                (trip_form "750" "5000"))
     = (Eff.Normal tt, 1%nat, ["error"], None, false).
Proof. vm_compute. repeat split; reflexivity. Qed.

(* ================================================================== *)
(** * Facts about numbers                                             *)
(* ================================================================== *)

(** Comparing in the other direction gives the opposite answer. *)
Lemma SFcompare_antisym (x y : spec_float) :
  SFcompare y x = option_map CompOpp (SFcompare x y).
Proof.
  destruct x as [sx|sx| |sx mx ex], y as [sy|sy| |sy my ey]; simpl;
    try reflexivity;
    try (destruct sx; reflexivity); try (destruct sy; reflexivity);
    try (destruct sx, sy; reflexivity).
  destruct sx, sy; simpl; try reflexivity;
    rewrite (Z.compare_antisym ex ey);
    destruct (ex ?= ey)%Z; simpl; try reflexivity;
    rewrite (Pos.compare_cont_antisym mx my Eq); simpl;
    destruct (Pos.compare_cont Eq my mx); reflexivity.
Qed.

Lemma ltb_not_leb (x y : float) :
  (x <? y)%float = true -> (y <=? x)%float = false.
Proof.
  rewrite ltb_spec, leb_spec. unfold SFltb, SFleb.
  rewrite (SFcompare_antisym (Prim2SF x) (Prim2SF y)).
  destruct (SFcompare (Prim2SF x) (Prim2SF y)) as [[ | | ]|]; simpl; congruence.
Qed.

Lemma leb_not_ltb (x y : float) :
  (x <=? y)%float = true -> (y <? x)%float = false.
Proof.
  rewrite ltb_spec, leb_spec. unfold SFltb, SFleb.
  rewrite (SFcompare_antisym (Prim2SF x) (Prim2SF y)).
  destruct (SFcompare (Prim2SF x) (Prim2SF y)) as [[ | | ]|]; simpl; congruence.
Qed.

Lemma float_eqb_sym (x y : float) : (x =? y)%float = (y =? x)%float.
Proof.
  rewrite !eqb_spec. unfold SFeqb.
  rewrite (SFcompare_antisym (Prim2SF x) (Prim2SF y)).
  destruct (SFcompare (Prim2SF x) (Prim2SF y)) as [[ | | ]|]; reflexivity.
Qed.

(** A number below [-10] is not at or above [10]. *)
Lemma below_minus_ten_not_above_ten (d : float) :
  (d <? -10)%float = true -> (10 <=? d)%float = false.
Proof.
  rewrite ltb_spec, leb_spec.
  change (Prim2SF 10) with (S754_finite false 5629499534213120 (-49)).
  change (Prim2SF (-10)) with (S754_finite true 5629499534213120 (-49)).
  destruct (Prim2SF d) as [s|s| |s m e]; try destruct s; simpl;
    try reflexivity; try discriminate.
Qed.

(** ** [x || 0] *)

Lemma or_else_NaN (x : JS.number) :
  JS.isNaN x = true -> JS.or_else x 0%float = 0%float.
Proof.
  intros H. unfold JS.or_else, JS.ToBoolean. rewrite H. reflexivity.
Qed.

Lemma or_else_number (x : JS.number) :
  JS.isNaN x = false -> (JS.or_else x 0 =? x)%float = true.
Proof.
  intros H. unfold JS.or_else, JS.ToBoolean. rewrite H. simpl.
  destruct (x =? 0)%float eqn:E; simpl.
  - rewrite float_eqb_sym. exact E.
  - unfold JS.isNaN in H. destruct (x =? x)%float; [reflexivity|discriminate].
Qed.

(** The order of the numbers is transitive. *)
Lemma SFleb_trans (x y z : spec_float) :
  SFleb x y = true -> SFleb y z = true -> SFleb x z = true.
Proof.
  unfold SFleb.
  destruct x as [sx|sx| |sx mx ex], y as [sy|sy| |sy my ey],
           z as [sz|sz| |sz mz ez];
    cbn [SFcompare];
    try discriminate; try reflexivity;
    try (destruct sx; discriminate); try (destruct sy; discriminate);
    try (destruct sx, sy; discriminate); try (destruct sy, sz; discriminate);
    try (destruct sx, sy, sz; (discriminate || reflexivity)).
  all: try (destruct sx, sz; try reflexivity; try discriminate;
            destruct sy; discriminate).
  destruct sx, sy, sz; try discriminate; try reflexivity;
    change (Pos.compare_cont Eq) with Pos.compare;
    destruct (Z.compare_spec ex ey), (Z.compare_spec ey ez),
             (Z.compare_spec ex ez);
    try discriminate; try reflexivity; try lia; subst;
    destruct (Pos.compare_spec mx my), (Pos.compare_spec my mz),
             (Pos.compare_spec mx mz);
    cbn [CompOpp]; try discriminate; try reflexivity; lia.
Qed.

Lemma float_leb_trans (x y z : float) :
  (x <=? y)%float = true -> (y <=? z)%float = true -> (x <=? z)%float = true.
Proof. rewrite !leb_spec. apply SFleb_trans. Qed.

(* ================================================================== *)
(** * Facts about dates                                               *)
(* ================================================================== *)

(** ** Calendar dates *)

Lemma zrange_In lo n x : In x (zrange lo n) <-> lo <= x < lo + Z.of_nat n.
Proof.
  revert lo. induction n as [|n IH]; intros lo; cbn [zrange In].
  - lia.
  - rewrite IH. lia.
Qed.

Lemma forallb_zrange (f : Z -> bool) lo n :
  forallb f (zrange lo n) = true ->
  forall x, lo <= x < lo + Z.of_nat n -> f x = true.
Proof.
  intros H x Hx. rewrite forallb_forall in H. apply H. apply zrange_In.
  exact Hx.
Qed.

(** The Gregorian calendar repeats every 400 years, which are 146097
    days. *)
Lemma days_from_civil_cycle q y m d :
  Date.days_from_civil (400 * q + y) m d
  = Date.days_from_civil y m d + 146097 * q.
Proof.
  unfold Date.days_from_civil. cbv zeta.
  replace (if m <=? 2 then 400 * q + y - 1 else 400 * q + y)
    with ((if m <=? 2 then y - 1 else y) + q * 400)
    by (destruct (m <=? 2); ring).
  set (a := if m <=? 2 then y - 1 else y).
  rewrite Z.div_add by lia.
  replace (a + q * 400 - (a / 400 + q) * 400) with (a - a / 400 * 400) by ring.
  ring.
Qed.

Lemma civil_from_days_cycle q z :
  Date.civil_from_days (z + 146097 * q)
  = let '(y, m, d) := Date.civil_from_days z in (400 * q + y, m, d).
Proof.
  unfold Date.civil_from_days. cbv zeta.
  replace (z + 146097 * q + 719468) with (z + 719468 + q * 146097) by ring.
  set (a := z + 719468).
  rewrite Z.div_add by lia.
  replace (a + q * 146097 - (a / 146097 + q) * 146097)
    with (a - a / 146097 * 146097) by ring.
  f_equal. f_equal. ring.
Qed.

Lemma DaysInMonth_cycle q y m :
  Date.DaysInMonth (400 * q + y) m = Date.DaysInMonth y m.
Proof.
  unfold Date.DaysInMonth, Date.MakeDay.
  replace (400 * q + y + m / 12) with (400 * q + (y + m / 12)) by ring.
  replace (400 * q + y + (m - 1) / 12) with (400 * q + (y + (m - 1) / 12))
    by ring.
  rewrite !days_from_civil_cycle. ring.
Qed.

Lemma year_in_cycle y : y = 400 * (y / 400) + y mod 400 /\ 0 <= y mod 400 < 400.
Proof. split; [apply Z.div_mod; lia|apply Z.mod_pos_bound; lia]. Qed.

(** Day numbers run with the day of the month. *)
Lemma days_from_civil_day y m d :
  Date.days_from_civil y m d = Date.days_from_civil y m 1 + (d - 1).
Proof. unfold Date.days_from_civil. ring. Qed.

(** [Date.civil_from_days] in terms of its steps. *)
Lemma civil_from_days_steps z :
  Date.civil_from_days z
  = let m := if mp_of z <? 10 then mp_of z + 3 else mp_of z - 9 in
    (yoe_of z + era_of z * 400 + (if m <=? 2 then 1 else 0), m,
     doy_of z - (153 * mp_of z + 2) / 5 + 1).
Proof. reflexivity. Qed.

Lemma doe_of_bounds z : 0 <= doe_of z <= 146096.
Proof.
  unfold doe_of, era_of.
  pose proof (Z.mod_pos_bound (z + 719468) 146097 ltac:(lia)) as H.
  rewrite Z.mod_eq in H by lia. lia.
Qed.

Lemma year_formula_mono a b :
  0 <= a <= b -> b <= 146096 -> year_formula a <= year_formula b.
Proof. unfold year_formula. intros H K. Z.div_mod_to_equations. lia. Qed.

(** The steps do not decrease with the day number, so between two days with
    the same era, year and month every day has that era, year and month. *)
Lemma steps_between z1 z z2 :
  z1 <= z <= z2 ->
  era_of z1 = era_of z2 -> yoe_of z1 = yoe_of z2 -> mp_of z1 = mp_of z2 ->
  era_of z = era_of z1 /\ yoe_of z = yoe_of z1 /\ mp_of z = mp_of z1.
Proof.
  intros Hz He Hy Hm.
  assert (era_of z = era_of z1) as Ee.
  { unfold era_of in *.
    pose proof (Z.div_le_mono (z1 + 719468) (z + 719468) 146097) as A.
    pose proof (Z.div_le_mono (z + 719468) (z2 + 719468) 146097) as B.
    lia. }
  assert (doe_of z1 <= doe_of z <= doe_of z2) as Hd
      by (unfold doe_of; rewrite Ee, <- He; lia).
  assert (yoe_of z = yoe_of z1) as Ey.
  { pose proof (doe_of_bounds z1). pose proof (doe_of_bounds z).
    pose proof (doe_of_bounds z2). unfold yoe_of in *.
    pose proof (year_formula_mono (doe_of z1) (doe_of z)) as A.
    pose proof (year_formula_mono (doe_of z) (doe_of z2)) as B.
    pose proof (Z.div_le_mono (year_formula (doe_of z1))
                  (year_formula (doe_of z)) 365) as A'.
    pose proof (Z.div_le_mono (year_formula (doe_of z))
                  (year_formula (doe_of z2)) 365) as B'.
    lia. }
  split; [exact Ee|]. split; [exact Ey|].
  unfold mp_of, doy_of in *. rewrite Ey in *. rewrite <- Hy in Hm.
  pose proof (Z.div_le_mono
                (5 * (doe_of z1 - (365 * yoe_of z1 + yoe_of z1 / 4
                                   - yoe_of z1 / 100)) + 2)
                (5 * (doe_of z - (365 * yoe_of z1 + yoe_of z1 / 4
                                  - yoe_of z1 / 100)) + 2) 153) as A.
  pose proof (Z.div_le_mono
                (5 * (doe_of z - (365 * yoe_of z1 + yoe_of z1 / 4
                                  - yoe_of z1 / 100)) + 2)
                (5 * (doe_of z2 - (365 * yoe_of z1 + yoe_of z1 / 4
                                   - yoe_of z1 / 100)) + 2) 153) as B.
  lia.
Qed.

(** The months of the years 0 to 399, one by one. *)
Lemma cycle_round_trips :
  forallb (fun y => forallb (month_round_trips y) (zrange 1 12)) (zrange 0 400)
  = true.
Proof. vm_cast_no_check (eq_refl true). Qed.

Lemma cycle_lengths_regular :
  forallb (fun y => forallb (month_length_regular y) (zrange 1 12))
          (zrange 0 400)
  = true.
Proof. vm_cast_no_check (eq_refl true). Qed.

Lemma month_round_trips_spec y m :
  month_round_trips y m = true ->
  Date.civil_from_days (Date.days_from_civil y m 1) = (y, m, 1)
  /\ era_of (Date.days_from_civil y m 1)
     = era_of (Date.days_from_civil y m 1 + Date.DaysInMonth y m - 1)
  /\ yoe_of (Date.days_from_civil y m 1)
     = yoe_of (Date.days_from_civil y m 1 + Date.DaysInMonth y m - 1)
  /\ mp_of (Date.days_from_civil y m 1)
     = mp_of (Date.days_from_civil y m 1 + Date.DaysInMonth y m - 1).
Proof.
  unfold month_round_trips. cbv zeta.
  generalize (Date.civil_from_days (Date.days_from_civil y m 1)).
  intros [[y' m'] d'] H.
  repeat (apply andb_true_iff in H; destruct H as [H ?]).
  repeat match goal with K : (_ =? _) = true |- _ => apply Z.eqb_eq in K end.
  subst. auto.
Qed.

Lemma doy_of_between z1 z :
  era_of z = era_of z1 -> yoe_of z = yoe_of z1 ->
  doy_of z = doy_of z1 + (z - z1).
Proof. intros Ee Ey. unfold doy_of, doe_of. rewrite Ey, Ee. lia. Qed.

(** A day that has the era, year and month of the first of a month is a
    day of that month. *)
Lemma civil_from_days_same_month z1 z y m :
  Date.civil_from_days z1 = (y, m, 1) ->
  era_of z = era_of z1 -> yoe_of z = yoe_of z1 -> mp_of z = mp_of z1 ->
  Date.civil_from_days z = (y, m, 1 + (z - z1)).
Proof.
  intros H Ee Ey Em. rewrite civil_from_days_steps in H |- *.
  cbv zeta in H |- *. rewrite (doy_of_between z1 z Ee Ey), Em, Ey, Ee.
  apply pair_equal_spec in H. destruct H as [H Kd].
  apply pair_equal_spec in H. destruct H as [Ky Km].
  rewrite Ky, Km. f_equal. lia.
Qed.

(** The day number of a date of the years 0 to 399 gives the date back. *)
Lemma civil_from_days_from_civil_in_cycle r m d :
  0 <= r < 400 -> 1 <= m <= 12 -> 1 <= d <= Date.DaysInMonth r m ->
  Date.civil_from_days (Date.days_from_civil r m d) = (r, m, d).
Proof.
  intros Hr Hm Hd.
  pose proof (forallb_zrange _ _ _ cycle_round_trips r ltac:(lia)) as H1.
  pose proof (forallb_zrange _ _ _ H1 m ltac:(lia)) as H2.
  apply month_round_trips_spec in H2.
  destruct H2 as (Hfirst & He & Hy & Hmp).
  rewrite (days_from_civil_day r m d).
  generalize dependent (Date.days_from_civil r m 1). intros first Hfirst He Hy Hmp.
  destruct (steps_between first (first + (d - 1))
              (first + Date.DaysInMonth r m - 1) ltac:(lia) He Hy Hmp)
    as (Ee & Ey & Em).
  rewrite (civil_from_days_same_month first _ r m Hfirst Ee Ey Em).
  f_equal. lia.
Qed.

(** The day number of a date gives the date back. *)
Lemma civil_from_days_from_civil y m d :
  valid_date y m d ->
  Date.civil_from_days (Date.days_from_civil y m d) = (y, m, d).
Proof.
  intros [Hm Hd].
  destruct (year_in_cycle y) as [Ey Hr].
  rewrite Ey in Hd. rewrite DaysInMonth_cycle in Hd.
  pose proof (civil_from_days_from_civil_in_cycle _ _ _ Hr Hm Hd) as H.
  rewrite Ey at 1. rewrite days_from_civil_cycle, civil_from_days_cycle, H.
  rewrite <- Ey. reflexivity.
Qed.

Lemma month_length y m :
  1 <= m <= 12 ->
  if m =? 2 then 28 <= Date.DaysInMonth y m <= 29
  else Date.DaysInMonth y m = Date.DaysInMonth 0 m.
Proof.
  intros Hm. destruct (year_in_cycle y) as [Ey Hr]. rewrite Ey.
  rewrite DaysInMonth_cycle.
  pose proof (forallb_zrange _ _ _ cycle_lengths_regular (y mod 400)
                ltac:(lia)) as H1.
  pose proof (forallb_zrange _ _ _ H1 m ltac:(lia)) as H2.
  unfold month_length_regular in H2.
  destruct (m =? 2).
  - apply andb_true_iff in H2. destruct H2 as [K1 K2].
    apply Z.leb_le in K1, K2. lia.
  - apply Z.eqb_eq in H2. exact H2.
Qed.


Lemma MakeDay_civil y m d :
  1 <= m <= 12 -> Date.MakeDay y (m - 1) d = Date.days_from_civil y m d.
Proof.
  intros Hm. unfold Date.MakeDay. cbv zeta.
  rewrite (Z.div_small (m - 1) 12), (Z.mod_small (m - 1) 12) by lia.
  replace (y + 0) with y by ring. replace (m - 1 + 1) with m by ring.
  unfold Date.days_from_civil. ring.
Qed.


(** ** The date part of [toISOString] *)

Lemma split_0_app sep a b :
  Date.split_0 sep a = a ->
  Date.split_0 sep (a ++ b) = (a ++ Date.split_0 sep b)%string.
Proof.
  induction a as [|c a IH]; cbn; [reflexivity|].
  destruct (c =? sep)%char; [discriminate|].
  intros H. f_equal. apply IH. congruence.
Qed.

Lemma digit_char_not_T n : (Date.digit_char n =? "T")%char = false.
Proof.
  unfold Date.digit_char.
  assert (0 <= n mod 10 < 10) as H by (apply Z.mod_pos_bound; lia).
  assert (n mod 10 = 0 \/ n mod 10 = 1 \/ n mod 10 = 2 \/ n mod 10 = 3
          \/ n mod 10 = 4 \/ n mod 10 = 5 \/ n mod 10 = 6 \/ n mod 10 = 7
          \/ n mod 10 = 8 \/ n mod 10 = 9) as K by lia.
  repeat (destruct K as [K|K]; [rewrite K; reflexivity|]).
  rewrite K. reflexivity.
Qed.

Lemma pad_no_T width n acc :
  Date.split_0 "T" acc = acc ->
  Date.split_0 "T" (Date.pad width n acc) = Date.pad width n acc.
Proof.
  revert n acc. induction width as [|w IH]; intros n acc H; cbn [Date.pad].
  - exact H.
  - apply IH. cbn [Date.split_0]. rewrite digit_char_not_T, H. reflexivity.
Qed.

Lemma year_string_no_T y :
  Date.split_0 "T" (Date.year_string y) = Date.year_string y.
Proof.
  unfold Date.year_string. destruct ((0 <=? y) && (y <=? 9999)).
  - apply pad_no_T. reflexivity.
  - destruct (y <? 0); cbn [String.append Date.split_0];
      (rewrite pad_no_T; reflexivity).
Qed.

(** The date part of the text of a time value is the text of its UTC
    date. *)
Lemma toISOString_date t y m d :
  Date.civil_from_days (Date.Day t) = (y, m, d) ->
  Date.split_0 "T" (Date.toISOString t) = iso_date y m d.
Proof.
  intros H. unfold Date.toISOString, iso_date. rewrite H. cbv zeta.
  rewrite split_0_app by apply year_string_no_T.
  rewrite (split_0_app "T" "-") by reflexivity.
  rewrite split_0_app by (apply pad_no_T; reflexivity).
  rewrite (split_0_app "T" "-") by reflexivity.
  rewrite split_0_app by (apply pad_no_T; reflexivity).
  cbn [String.append Date.split_0]. rewrite Ascii.eqb_refl.
  repeat f_equal.
Qed.

(** ** Day numbers and dates, both ways *)

Lemma steps_bounds z :
  0 <= yoe_of z < 400 /\ 0 <= doy_of z <= 365 /\ 0 <= mp_of z <= 11.
Proof.
  pose proof (doe_of_bounds z) as H. unfold mp_of, doy_of, yoe_of, year_formula.
  generalize dependent (doe_of z). intros doe H. Z.div_mod_to_equations. lia.
Qed.

(** A month has 28 to 31 days. *)
Lemma DaysInMonth_bounds y m :
  1 <= m <= 12 -> 28 <= Date.DaysInMonth y m <= 31.
Proof.
  intros Hm. pose proof (month_length y m Hm) as H.
  destruct (m =? 2); [lia|]. rewrite H.
  assert (m = 1 \/ m = 2 \/ m = 3 \/ m = 4 \/ m = 5 \/ m = 6 \/ m = 7
          \/ m = 8 \/ m = 9 \/ m = 10 \/ m = 11 \/ m = 12) as K by lia.
  repeat (destruct K as [K|K]; [rewrite K; vm_compute; split; discriminate|]).
  rewrite K. vm_compute. split; discriminate.
Qed.

(** The date of a day number has that day number. *)
Lemma days_from_civil_from_days z y m d :
  Date.civil_from_days z = (y, m, d) -> Date.days_from_civil y m d = z.
Proof.
  rewrite civil_from_days_steps. cbv zeta.
  destruct (steps_bounds z) as (Hy & Hd & Hm).
  intros H. apply pair_equal_spec in H. destruct H as [H Ed].
  apply pair_equal_spec in H. destruct H as [Ey Em].
  assert ((if m <=? 2 then y - 1 else y) = yoe_of z + era_of z * 400
          /\ (if 2 <? m then m - 3 else m + 9) = mp_of z) as [Ky Kmp].
  { subst y m. destruct (Z.ltb_spec (mp_of z) 10).
    - destruct (Z.leb_spec (mp_of z + 3) 2); [lia|].
      destruct (Z.ltb_spec 2 (mp_of z + 3)); [|lia]. split; ring.
    - destruct (Z.leb_spec (mp_of z - 9) 2); [|lia].
      destruct (Z.ltb_spec 2 (mp_of z - 9)); [lia|]. split; ring. }
  unfold Date.days_from_civil. cbv zeta. rewrite Ky, Kmp.
  rewrite Z.div_add by lia. rewrite (Z.div_small (yoe_of z) 400) by lia.
  replace (yoe_of z + era_of z * 400 - (0 + era_of z) * 400) with (yoe_of z)
    by ring.
  subst d. unfold doy_of, doe_of. ring.
Qed.

(** The date of a day number is a date of the calendar. *)
Lemma civil_from_days_valid z y m d :
  Date.civil_from_days z = (y, m, d) -> valid_date y m d.
Proof.
  intros H. pose proof (days_from_civil_from_days z y m d H) as Einv.
  revert H. rewrite civil_from_days_steps. cbv zeta.
  destruct (steps_bounds z) as (Hy & Hd & Hmp).
  intros H. apply pair_equal_spec in H. destruct H as [H Ed].
  apply pair_equal_spec in H. destruct H as [Ey Em].
  assert (1 <= m <= 12) as Hm.
  { subst m. destruct (Z.ltb_spec (mp_of z) 10); lia. }
  assert (1 <= d) as Hd1.
  { subst d. revert Hd. unfold mp_of. intros Hd. Z.div_mod_to_equations. lia. }
  split; [exact Hm|]. split; [exact Hd1|].
  (* the first of the month, and the first of the next one *)
  set (first := Date.days_from_civil y m 1).
  assert (z = first + (d - 1)) as Ez
      by (rewrite <- Einv; apply days_from_civil_day).
  pose proof (DaysInMonth_bounds y m Hm) as Hpos.
  destruct (Z.le_gt_cases d (Date.DaysInMonth y m)) as [|Hgt]; [assumption|].
  exfalso.
  assert (valid_date y m 1) as V1 by (split; lia).
  pose proof (civil_from_days_from_civil y m 1 V1) as Cfirst.
  fold first in Cfirst.
  assert (valid_date y m (Date.DaysInMonth y m)) as Vlast by (split; lia).
  pose proof (civil_from_days_from_civil y m _ Vlast) as Clast.
  rewrite days_from_civil_day in Clast. fold first in Clast.
  (* [z] has the era, year and month of [first] *)
  assert (forall a ya ma da b db,
             Date.civil_from_days a = (ya, ma, da) ->
             Date.civil_from_days b = (ya, ma, db) ->
             era_of a = era_of b /\ yoe_of a = yoe_of b /\ mp_of a = mp_of b)
    as Same.
  { clear. intros a ya ma da b db. rewrite !civil_from_days_steps. cbv zeta.
    destruct (steps_bounds a) as (Ha & _ & Hma).
    destruct (steps_bounds b) as (Hb & _ & Hmb).
    intros A B.
    apply pair_equal_spec in A. destruct A as [A _].
    apply pair_equal_spec in A. destruct A as [Ay Am].
    apply pair_equal_spec in B. destruct B as [B _].
    apply pair_equal_spec in B. destruct B as [By Bm].
    assert (mp_of a = mp_of b) as Emp.
    { destruct (Z.ltb_spec (mp_of a) 10); destruct (Z.ltb_spec (mp_of b) 10);
        lia. }
    rewrite Emp in Ay.
    set (c := if (if mp_of b <? 10 then mp_of b + 3 else mp_of b - 9) <=? 2
              then 1 else 0) in *.
    lia. }
  assert (Date.civil_from_days z = (y, m, d)) as Cz.
  { rewrite civil_from_days_steps. cbv zeta. rewrite Ey, Em, Ed. reflexivity. }
  destruct (Same _ _ _ _ _ _ Cfirst Cz) as (S1 & S2 & S3).
  destruct (Same _ _ _ _ _ _ Cfirst Clast) as (L1 & L2 & L3).
  (* so does the day after the last of the month, which is not a day of
     the month *)
  set (next := first + Date.DaysInMonth y m) in *.
  destruct (steps_between first next z ltac:(lia) S1 S2 S3) as (N1 & N2 & N3).
  pose proof (civil_from_days_same_month first next y m Cfirst N1 N2 N3) as Cn.
  (* the day number of that date is [next], and it is the first of the
     next month as well *)
  pose proof (days_from_civil_from_days next _ _ _ Cn) as Inv.
  rewrite days_from_civil_day in Inv. fold first in Inv.
  unfold next in Cn.
  assert (next = Date.MakeDay y m 1) as Enext.
  { unfold next, first, Date.DaysInMonth. rewrite <- (MakeDay_civil y m 1 Hm).
    ring. }
  assert (exists y' m', 1 <= m' <= 12 /\ (y', m') <> (y, m)
                        /\ next = Date.days_from_civil y' m' 1)
    as (y' & m' & Hm' & Hne & En').
  { rewrite Enext. unfold Date.MakeDay. cbv zeta.
    exists (y + m / 12), (m mod 12 + 1).
    split; [pose proof (Z.mod_pos_bound m 12); lia|].
    split; [|ring].
    intros K. apply pair_equal_spec in K. destruct K as [K1 K2].
    revert K1 K2. Z.div_mod_to_equations. lia. }
  assert (valid_date y' m' 1) as V'.
  { split; [exact Hm'|]. pose proof (DaysInMonth_bounds y' m' Hm'). lia. }
  pose proof (civil_from_days_from_civil y' m' 1 V') as Cn'.
  rewrite <- En' in Cn'. unfold next in Cn'. rewrite Cn in Cn'.
  apply pair_equal_spec in Cn'. destruct Cn' as [Cn' _].
  apply Hne. symmetry. exact Cn'.
Qed.

(** ** Reading back the date part of [toISOString] *)

Lemma decimal_digit_digit_char n :
  JS.decimal_digit (Date.digit_char n) = Some (n mod 10).
Proof.
  unfold Date.digit_char.
  assert (0 <= n mod 10 < 10) as H by (apply Z.mod_pos_bound; lia).
  assert (n mod 10 = 0 \/ n mod 10 = 1 \/ n mod 10 = 2 \/ n mod 10 = 3
          \/ n mod 10 = 4 \/ n mod 10 = 5 \/ n mod 10 = 6 \/ n mod 10 = 7
          \/ n mod 10 = 8 \/ n mod 10 = 9) as K by lia.
  repeat (destruct K as [K|K]; [rewrite K; reflexivity|]).
  rewrite K. reflexivity.
Qed.

Lemma digits_value_pad_2 n :
  0 <= n <= 99 -> Date.digits_value (Date.pad 2 n "") = Some n.
Proof.
  intros H. unfold Date.digits_value. cbn [Date.pad JS.scan_digits].
  rewrite !decimal_digit_digit_char.
  cbn [JS.rest JS.count JS.value].
  change (0 <? 0 + 1 + 1) with true. cbv iota. f_equal.
  Z.div_mod_to_equations. lia.
Qed.

Lemma digits_value_pad_4 n :
  0 <= n <= 9999 -> Date.digits_value (Date.pad 4 n "") = Some n.
Proof.
  intros H. unfold Date.digits_value. cbn [Date.pad JS.scan_digits].
  rewrite !decimal_digit_digit_char.
  cbn [JS.rest JS.count JS.value].
  change (0 <? 0 + 1 + 1 + 1 + 1) with true. cbv iota. f_equal.
  Z.div_mod_to_equations. lia.
Qed.

(** The text of a date of the years 0 to 9999 reads back as midnight UTC of
    that date. *)
Lemma parse_iso_date y m d :
  0 <= y <= 9999 -> valid_date y m d ->
  Date.parse (iso_date y m d)
  = Some (Date.MakeDate (Date.MakeDay y (m - 1) d) 0).
Proof.
  intros Hy [Hm Hd]. pose proof (DaysInMonth_bounds y m Hm) as Hlen.
  pose proof (digits_value_pad_4 y Hy) as Ey.
  pose proof (digits_value_pad_2 m ltac:(lia)) as Em.
  pose proof (digits_value_pad_2 d ltac:(lia)) as Ed.
  unfold iso_date, Date.year_string.
  replace ((0 <=? y) && (y <=? 9999)) with true
    by (symmetry; apply andb_true_iff; split; apply Z.leb_le; lia).
  revert Ey Em Ed. cbn [Date.pad String.append]. intros Ey Em Ed.
  unfold Date.parse. cbn [substring String.length].
  rewrite Ey, Em, Ed.
  change ((10 =? 10)%nat && ("-" =? "-")%string && ("-" =? "-")%string)
    with true.
  cbn [andb].
  replace ((1 <=? m) && (m <=? 12) && (1 <=? d) && (d <=? Date.DaysInMonth y m))
    with true; [reflexivity|].
  symmetry. repeat (apply andb_true_iff; split); apply Z.leb_le; lia.
Qed.

(** The date part of the text of a time value of the years 0 to 9999 reads
    back as the midnight UTC that begins its day. *)
Lemma parse_toISOString t :
  0 <= Date.YearFromTime t <= 9999 ->
  Date.parse (Date.split_0 "T" (Date.toISOString t))
  = Some (Date.MakeDate (Date.Day t) 0).
Proof.
  unfold Date.YearFromTime.
  destruct (Date.civil_from_days (Date.Day t)) as [[y m] d] eqn:E.
  intros Hy. rewrite (toISOString_date t y m d E).
  pose proof (civil_from_days_valid _ _ _ _ E) as V.
  rewrite (parse_iso_date y m d Hy V).
  destruct V as [Hm _]. rewrite MakeDay_civil by exact Hm.
  rewrite (days_from_civil_from_days _ _ _ _ E). reflexivity.
Qed.

(** The date part of the text of a time value is the text of the date of
    its day, in UTC. *)
Lemma toISOString_date_of_day t :
  Date.split_0 "T" (Date.toISOString t) = date_of_day (Date.Day t).
Proof.
  unfold date_of_day.
  destruct (Date.civil_from_days (Date.Day t)) as [[y m] d] eqn:C.
  apply toISOString_date. exact C.
Qed.

(* ================================================================== *)
(** * The earnings calculator                                         *)
(* ================================================================== *)

(** C1.  For every content of the eight inputs, each input standing for
    [parseFloat(field) || 0] (so 0 when the field is blank or does not start
    with a number), [calculateValues] yields
    gross = total + tips + extras, expenses = fuel + other,
    net = gross - expenses, and every rate whose denominator is positive is
    the gross (or net) amount divided by that denominator.  On the inputs
    1000, 50, 0, 200, 0, 10 trips, 100 km, 5 hours it yields gross 1050,
    net 850, net per km 8.5, net per trip 85 and net per hour 170. *)
Theorem calculateValues_spec :
  (forall fd : Earnings.formData,
     let c := Earnings.calculateValues fd in
     let total := input_value (Earnings.totalEarnings fd) in
     let trips := input_value (Earnings.tripsCompleted fd) in
     let kilometres := input_value (Earnings.kilometersDriver fd) in
     let hours := input_value (Earnings.hoursWorked fd) in
     let tips := input_value (Earnings.tips fd) in
     let extras := input_value (Earnings.extras fd) in
     let fuel := input_value (Earnings.fuelCost fd) in
     let other := input_value (Earnings.otherExpenses fd) in
     Earnings.grossEarnings c = (total + tips + extras)%float
     /\ Earnings.totalExpenses c = (fuel + other)%float
     /\ Earnings.netEarnings c
        = (Earnings.grossEarnings c - Earnings.totalExpenses c)%float
     /\ ((0 <? kilometres)%float = true ->
         Earnings.grossPerKm c = (Earnings.grossEarnings c / kilometres)%float
         /\ Earnings.netPerKm c = (Earnings.netEarnings c / kilometres)%float)
     /\ ((0 <? hours)%float = true ->
         Earnings.grossPerHour c = (Earnings.grossEarnings c / hours)%float
         /\ Earnings.netPerHour c = (Earnings.netEarnings c / hours)%float)
     /\ ((0 <? trips)%float = true ->
         Earnings.grossPerTrip c = (Earnings.grossEarnings c / trips)%float
         /\ Earnings.netPerTrip c = (Earnings.netEarnings c / trips)%float))
  /\ input_value "" = 0%float
  /\ (forall field, JS.isNaN (JS.parseFloat field) = true ->
                    input_value field = 0%float)
  /\ (forall field, JS.isNaN (JS.parseFloat field) = false ->
                    (input_value field =? JS.parseFloat field)%float = true)
  /\ (let c := Earnings.calculateValues example_form in
      Earnings.grossEarnings c = 1050%float
      /\ Earnings.netEarnings c = 850%float
      /\ Earnings.netPerKm c = 8.5%float
      /\ Earnings.netPerTrip c = 85%float
      /\ Earnings.netPerHour c = 170%float).
Proof.
  split; [|split; [|split; [|split]]].
  - intros fd c total trips kilometres hours tips extras fuel other.
    subst c. unfold Earnings.calculateValues. cbn [Earnings.grossEarnings
      Earnings.totalExpenses Earnings.netEarnings Earnings.grossPerKm
      Earnings.netPerKm Earnings.grossPerHour Earnings.netPerHour
      Earnings.grossPerTrip Earnings.netPerTrip].
    fold (input_value (Earnings.totalEarnings fd)).
    fold (input_value (Earnings.tripsCompleted fd)).
    fold (input_value (Earnings.kilometersDriver fd)).
    fold (input_value (Earnings.hoursWorked fd)).
    fold (input_value (Earnings.tips fd)).
    fold (input_value (Earnings.extras fd)).
    fold (input_value (Earnings.fuelCost fd)).
    fold (input_value (Earnings.otherExpenses fd)).
    fold total trips kilometres hours tips extras fuel other.
    repeat split; try reflexivity.
    all: match goal with H : _ = true |- _ => rewrite H; reflexivity end.
  - vm_compute. reflexivity.
  - intros field H. apply or_else_NaN. exact H.
  - intros field H. apply or_else_number. exact H.
  - vm_compute. repeat split; reflexivity.
Qed.

(** X2.  In the earnings calculator every division is guarded: a rate whose
    denominator is not positive is 0. *)
Lemma earnings_rate_of_no_denominator (fd : Earnings.formData) :
  let c := Earnings.calculateValues fd in
  ((input_value (Earnings.kilometersDriver fd) <=? 0)%float = true ->
   Earnings.grossPerKm c = 0%float /\ Earnings.netPerKm c = 0%float)
  /\ ((input_value (Earnings.hoursWorked fd) <=? 0)%float = true ->
      Earnings.grossPerHour c = 0%float /\ Earnings.netPerHour c = 0%float)
  /\ ((input_value (Earnings.tripsCompleted fd) <=? 0)%float = true ->
      Earnings.grossPerTrip c = 0%float /\ Earnings.netPerTrip c = 0%float).
Proof.
  unfold input_value, Earnings.calculateValues; cbn.
  repeat split;
    match goal with H : _ = true |- _ => rewrite (leb_not_ltb _ _ H) end;
    reflexivity.
Qed.

(** ** Saving an earnings record *)

(** The calculations on the screen are always those of the form on the
    screen. *)
Lemma calculations_follow_form st :
  earnings_reachable st ->
  Earnings.calcs st = Earnings.calculateValues (Earnings.form st).
Proof.
  induction 1 as [|st name value _ _|st user now _ IH|st outcomes _ IH].
  - reflexivity.
  - reflexivity.
  - unfold Earnings.handleSave. destruct user as [uid|]; [|exact IH].
    unfold Eff.bind, Eff.get, Eff.modify, Eff.finally, Eff.try_catch,
      Eff.throw, Earnings.insert.
    destruct (0 <? _); [exact IH|].
    cbn [Earnings.schedule Earnings.setLoading].
    destruct (Earnings.schedule st) as [|[|] later]; cbn; try reflexivity;
      exact IH.
  - exact IH.
Qed.

(** C7.  A form with 2.5 in the trips input: the rate is computed with
    [parseFloat] of the input, 2.5, and the record is saved with [parseInt]
    of it, 2.  The saved [gross_per_trip] is 40 while the saved
    [gross_earnings] divided by the saved [trips_completed] is 50, and
    likewise for the net amount. *)
Theorem saved_rate_per_trip :
  let st :=
    type_in [("totalEarnings", "100"); ("tripsCompleted", "2.5");
             ("kilometersDriver", "10"); ("hoursWorked", "1")]
            earnings_mounted in
  let '(_, saved) := Earnings.handleSave (Some "driver-1") 1762124645123 st in
  exists r,
    Earnings.earnings_records saved = [r]
    /\ Earnings.trips_completed r = 2%float
    /\ Earnings.gross_earnings r = 100%float
    /\ Earnings.gross_per_trip r = 40%float
    /\ (Earnings.gross_earnings r / Earnings.trips_completed r)%float = 50%float
    /\ Earnings.net_earnings r = 100%float
    /\ Earnings.net_per_trip r = 40%float
    /\ (Earnings.net_earnings r / Earnings.trips_completed r)%float = 50%float.
Proof. vm_compute. eexists. repeat split; reflexivity. Qed.

(** ** Rates of a saved record *)

Lemma SFcompare_refl (x : spec_float) :
  x <> S754_nan -> SFcompare x x = Some Eq.
Proof.
  destruct x as [s|s| |s m e]; cbn; try congruence; intros _.
  - destruct s; reflexivity.
  - destruct s; rewrite Z.compare_refl, Pos.compare_cont_refl; reflexivity.
Qed.

(** A positive number is truthy. *)
Lemma positive_is_truthy (x : JS.number) :
  (0 <? x)%float = true -> JS.or_else x 0%float = x.
Proof.
  intros H. unfold JS.or_else, JS.ToBoolean, JS.isNaN.
  assert ((x =? 0)%float = false) as E0.
  { rewrite float_eqb_sym. revert H. rewrite ltb_spec, eqb_spec.
    unfold SFltb, SFeqb. destruct (SFcompare _ _) as [[| |]|]; congruence. }
  assert ((x =? x)%float = true) as Ex.
  { rewrite eqb_spec. unfold SFeqb. rewrite SFcompare_refl; [reflexivity|].
    intros K. rewrite ltb_spec, K in H.
    change (Prim2SF 0) with (S754_zero false) in H. discriminate H. }
  rewrite E0, Ex. reflexivity.
Qed.

(** X4.  When the trips input reads the same with [parseInt] and [parseFloat] (a
    whole number) and is positive, the saved rates per trip are the saved
    amounts divided by the saved number of trips. *)
Theorem saved_rate_of_whole_trips (st : Earnings.state) (uid today : string) :
  earnings_reachable st ->
  let r := Earnings.earningsData uid today st in
  JS.parseInt (Earnings.tripsCompleted (Earnings.form st))
  = JS.parseFloat (Earnings.tripsCompleted (Earnings.form st)) ->
  (0 <? Earnings.trips_completed r)%float = true ->
  Earnings.gross_per_trip r
  = (Earnings.gross_earnings r / Earnings.trips_completed r)%float
  /\ Earnings.net_per_trip r
     = (Earnings.net_earnings r / Earnings.trips_completed r)%float.
Proof.
  intros Hreach r Hwhole Hpos. subst r.
  unfold Earnings.earningsData in *.
  cbn [Earnings.trips_completed Earnings.gross_per_trip Earnings.net_per_trip
       Earnings.gross_earnings Earnings.net_earnings] in *.
  rewrite (calculations_follow_form st Hreach). rewrite Hwhole in *.
  unfold Earnings.calculateValues.
  cbn [Earnings.grossPerTrip Earnings.netPerTrip Earnings.grossEarnings
       Earnings.netEarnings].
  rewrite (positive_is_truthy _ Hpos), Hpos. split; reflexivity.
Qed.

(** The theorem at a form with 4 trips. *)
Lemma saved_rate_of_whole_trips_witness :
  let st := type_in [("totalEarnings", "100"); ("tripsCompleted", "4");
                     ("kilometersDriver", "10"); ("hoursWorked", "1")]
                    earnings_mounted in
  let r := Earnings.earningsData "driver-1" "2025-11-02" st in
  Earnings.gross_per_trip r
  = (Earnings.gross_earnings r / Earnings.trips_completed r)%float
  /\ Earnings.net_per_trip r
     = (Earnings.net_earnings r / Earnings.trips_completed r)%float.
Proof.
  apply (saved_rate_of_whole_trips
           (type_in [("totalEarnings", "100"); ("tripsCompleted", "4");
                     ("kilometersDriver", "10"); ("hoursWorked", "1")]
                    earnings_mounted) "driver-1" "2025-11-02").
  - unfold type_in. cbn [fold_left fst snd]. repeat apply reach_input.
    apply reach_mounted.
  - vm_compute. reflexivity.
  - vm_compute. reflexivity.
Defined.

(** ** What [handleSave] does *)

Lemma missing_fields (a b c d : string) :
  (0 <? Z.of_nat
          (List.length
             (filter (fun field => negb (JS.truthy field)) [a; b; c; d])))
  = negb (JS.truthy a && JS.truthy b && JS.truthy c && JS.truthy d).
Proof. destruct a, b, c, d; reflexivity. Qed.

(** X7.  With nobody signed in, [handleSave] of the earnings screen does
    nothing.  With one of the four required inputs blank, all it does is
    show the error: no request is made and no row is inserted. *)
Theorem earnings_handleSave_required_fields (now : Z) (st : Earnings.state) :
  Earnings.handleSave None now st = (Eff.Normal tt, st)
  /\ forall uid,
       In "" (required_inputs (Earnings.form st)) ->
       Earnings.handleSave (Some uid) now st
       = (Eff.Normal tt,
          Earnings.showNotification "error"
            "Por favor completa todos los campos obligatorios" st).
Proof.
  split; [reflexivity|]. intros uid H.
  unfold Earnings.handleSave, Eff.bind at 1, Eff.get. cbv beta iota zeta.
  rewrite missing_fields.
  replace (JS.truthy (Earnings.totalEarnings (Earnings.form st))
           && JS.truthy (Earnings.tripsCompleted (Earnings.form st))
           && JS.truthy (Earnings.kilometersDriver (Earnings.form st))
           && JS.truthy (Earnings.hoursWorked (Earnings.form st)))
    with false; [reflexivity|].
  unfold required_inputs in H. cbn [In] in H.
  destruct H as [H|[H|[H|[H|[]]]]]; rewrite H; cbn [JS.truthy andb];
    rewrite ?andb_false_r; reflexivity.
Qed.

(** The theorem at the form as it is mounted. *)
Lemma earnings_handleSave_required_fields_witness :
  Earnings.handleSave (Some "driver-1") 1762124645123 earnings_mounted
  = (Eff.Normal tt,
     Earnings.showNotification "error"
       "Por favor completa todos los campos obligatorios" earnings_mounted).
Proof.
  apply (proj2 (earnings_handleSave_required_fields 1762124645123
                  earnings_mounted) "driver-1").
  left. reflexivity.
Defined.

(** A filled form passes the check of the required inputs. *)
Lemma required_inputs_filled (fd : Earnings.formData) :
  ~ In "" (required_inputs fd) ->
  JS.truthy (Earnings.totalEarnings fd) && JS.truthy (Earnings.tripsCompleted fd)
  && JS.truthy (Earnings.kilometersDriver fd) && JS.truthy (Earnings.hoursWorked fd)
  = true.
Proof.
  unfold required_inputs. cbn [In]. intros H.
  destruct (Earnings.totalEarnings _); [tauto|].
  destruct (Earnings.tripsCompleted _); [tauto|].
  destruct (Earnings.kilometersDriver _); [tauto|].
  destruct (Earnings.hoursWorked _); [tauto|]. reflexivity.
Qed.

(** [handleSave] on a filled form, when the insert request succeeds. *)
Lemma earnings_handleSave_inserts uid now st :
  ~ In "" (required_inputs (Earnings.form st)) ->
  next_outcome st = true ->
  exists final,
    Earnings.handleSave (Some uid) now st = (Eff.Normal tt, final)
    /\ Earnings.earnings_records final
       = (Earnings.earnings_records st
          ++ [Earnings.earningsData uid
                (Date.split_0 "T" (Date.toISOString now)) st])%list.
Proof.
  intros H Hok.
  unfold Earnings.handleSave, Eff.bind at 1, Eff.get. cbv beta iota zeta.
  rewrite missing_fields, (required_inputs_filled _ H). cbn [negb].
  generalize (Earnings.earningsData uid
                (Date.split_0 "T" (Date.toISOString now)) st).
  intros row. revert Hok.
  unfold Eff.bind, Eff.modify, Eff.finally, Eff.try_catch, Eff.throw,
    Earnings.insert, next_outcome.
  cbn [Earnings.schedule Earnings.setLoading].
  destruct (Earnings.schedule st) as [|[|] later]; intros Hok;
    try discriminate Hok; eexists; split; reflexivity.
Qed.

(** X8.  With a user signed in and the four required inputs filled,
    [handleSave] makes one insert request and completes with the loading
    flag down.  When the request succeeds the table has one more row, the
    one built from the form and the calculations, the form is blank again,
    the calculations are back to 0 and the success is shown.  When it fails
    the table, the form and the calculations are as they were and the error
    is shown. *)
Theorem earnings_handleSave_outcome
        (uid : string) (now : Z) (st : Earnings.state) :
  ~ In "" (required_inputs (Earnings.form st)) ->
  exists final,
    Earnings.handleSave (Some uid) now st = (Eff.Normal tt, final)
    /\ Earnings.loading final = false
    /\ Earnings.schedule final = tl (Earnings.schedule st)
    /\ if next_outcome st then
         Earnings.earnings_records final
         = (Earnings.earnings_records st
            ++ [Earnings.earningsData uid
                  (Date.split_0 "T" (Date.toISOString now)) st])%list
         /\ Earnings.form final = Earnings.blank_form
         /\ Earnings.calcs final = no_calculations
         /\ Earnings.shown final
            = (Earnings.shown st
               ++ [{| type := "success";
                      message := "Registro guardado correctamente" |}])%list
       else
         Earnings.earnings_records final = Earnings.earnings_records st
         /\ Earnings.form final = Earnings.form st
         /\ Earnings.calcs final = Earnings.calcs st
         /\ Earnings.shown final
            = (Earnings.shown st
               ++ [{| type := "error";
                      message := "No se pudo guardar el registro" |}])%list.
Proof.
  intros H.
  unfold Earnings.handleSave, Eff.bind at 1, Eff.get. cbv beta iota zeta.
  rewrite missing_fields, (required_inputs_filled _ H). cbn [negb].
  generalize (Earnings.earningsData uid
                (Date.split_0 "T" (Date.toISOString now)) st).
  intros row.
  unfold Eff.bind, Eff.modify, Eff.finally, Eff.try_catch, Eff.throw,
    Earnings.insert, next_outcome.
  cbn [Earnings.schedule Earnings.setLoading].
  destruct (Earnings.schedule st) as [|[|] later];
    eexists; (split; [reflexivity|]); repeat split.
Qed.

(** The theorem at a filled form whose insert request succeeds. *)
Lemma earnings_handleSave_outcome_witness :
  exists final,
    Earnings.handleSave (Some "driver-1") 1762124645123
      (earnings_form "1000" "10" "100" "5" "50")
    = (Eff.Normal tt, final)
    /\ Earnings.loading final = false
    /\ Earnings.earnings_records final
       = [Earnings.earningsData "driver-1" "2025-11-02"
            (earnings_form "1000" "10" "100" "5" "50")]
    /\ Earnings.form final = Earnings.blank_form.
Proof.
  destruct (earnings_handleSave_outcome "driver-1" 1762124645123
              (earnings_form "1000" "10" "100" "5" "50"))
    as (final & E & L & _ & R & F & _).
  - vm_compute. intros [H|[H|[H|[H|[]]]]]; discriminate H.
  - exists final. repeat split; assumption.
Defined.

(** ** The columns of a saved record *)

(** An input that reads as a zero counts as 0: the sum is the same. *)
Lemma or_else_add (x p : JS.number) :
  JS.isNaN x = false ->
  (JS.or_else x 0 + JS.or_else p 0 = x + JS.or_else p 0)%float.
Proof.
  intros Hx. unfold JS.or_else at 1.
  destruct (JS.ToBoolean x) eqn:Tx; [reflexivity|].
  unfold JS.ToBoolean in Tx. rewrite Hx in Tx. cbn [negb andb] in Tx.
  apply negb_false_iff in Tx. rewrite eqb_spec in Tx.
  change (Prim2SF 0) with (S754_zero false) in Tx.
  assert (exists s, Prim2SF x = S754_zero s) as [s Px].
  { revert Tx. unfold SFeqb. destruct (Prim2SF x) as [s|s| |s m e]; cbn.
    - exists s. reflexivity.
    - destruct s; discriminate.
    - discriminate.
    - destruct s; discriminate. }
  apply Prim2SF_inj. rewrite !add_spec, Px.
  change (Prim2SF 0) with (S754_zero false).
  unfold JS.or_else.
  destruct (JS.ToBoolean p) eqn:Tp.
  - unfold JS.ToBoolean, JS.isNaN in Tp. rewrite negb_involutive in Tp.
    apply andb_true_iff in Tp. destruct Tp as [Tn Tz].
    apply negb_true_iff in Tz. rewrite !eqb_spec in *.
    change (Prim2SF 0) with (S754_zero false) in Tz.
    revert Tn Tz. unfold SFeqb.
    destruct (Prim2SF p) as [sp|sp| |sp mp ep]; cbn.
    + destruct sp; discriminate.
    + reflexivity.
    + discriminate.
    + reflexivity.
  - change (Prim2SF 0) with (S754_zero false). destruct s; reflexivity.
Qed.

(** A rate of the calculator in terms of the number read off its input
    alone. *)
Lemma guarded_rate (amount x : JS.number) :
  (if (0 <? JS.or_else x 0)%float then (amount / JS.or_else x 0)%float
   else 0%float)
  = (if (0 <? x)%float then (amount / x)%float else 0%float).
Proof.
  destruct (0 <? x)%float eqn:E.
  - rewrite (positive_is_truthy x E), E. reflexivity.
  - unfold JS.or_else. destruct (JS.ToBoolean x); [rewrite E|]; reflexivity.
Qed.

(** X9.  In a record built from the form and the calculations on the
    screen, the stored columns agree with one another: the expenses are the
    fuel plus the other expenses, the net earnings are the gross earnings
    less the expenses, the gross earnings are the total plus the tips and
    the extras when the total input reads as a number (when it does not, a
    NaN total is stored beside gross earnings that count it as 0), and the
    rates per kilometre and per hour are the amounts divided by the stored
    kilometres and hours when these are positive, and 0 otherwise. *)
Theorem saved_columns_agree (st : Earnings.state) (uid today : string) :
  earnings_reachable st ->
  let r := Earnings.earningsData uid today st in
  Earnings.total_expenses r
  = (Earnings.fuel_cost r + Earnings.other_expenses r)%float
  /\ Earnings.net_earnings r
     = (Earnings.gross_earnings r - Earnings.total_expenses r)%float
  /\ (JS.isNaN (Earnings.total_earnings r) = false ->
      Earnings.gross_earnings r
      = (Earnings.total_earnings r + Earnings.tips_ r + Earnings.extras_ r)%float)
  /\ (JS.isNaN (Earnings.total_earnings r) = true ->
      Earnings.gross_earnings r
      = (0 + Earnings.tips_ r + Earnings.extras_ r)%float)
  /\ Earnings.gross_per_km r
     = (if (0 <? Earnings.kilometers_driven r)%float
        then (Earnings.gross_earnings r / Earnings.kilometers_driven r)%float
        else 0%float)
  /\ Earnings.net_per_km r
     = (if (0 <? Earnings.kilometers_driven r)%float
        then (Earnings.net_earnings r / Earnings.kilometers_driven r)%float
        else 0%float)
  /\ Earnings.gross_per_hour r
     = (if (0 <? Earnings.hours_worked r)%float
        then (Earnings.gross_earnings r / Earnings.hours_worked r)%float
        else 0%float)
  /\ Earnings.net_per_hour r
     = (if (0 <? Earnings.hours_worked r)%float
        then (Earnings.net_earnings r / Earnings.hours_worked r)%float
        else 0%float).
Proof.
  intros Hreach r. subst r. unfold Earnings.earningsData.
  cbn [Earnings.total_expenses Earnings.fuel_cost Earnings.other_expenses
       Earnings.net_earnings Earnings.gross_earnings Earnings.total_earnings
       Earnings.tips_ Earnings.extras_ Earnings.gross_per_km
       Earnings.net_per_km Earnings.gross_per_hour Earnings.net_per_hour
       Earnings.kilometers_driven Earnings.hours_worked].
  rewrite (calculations_follow_form st Hreach).
  unfold Earnings.calculateValues.
  cbn [Earnings.totalExpenses Earnings.netEarnings Earnings.grossEarnings
       Earnings.grossPerKm Earnings.netPerKm Earnings.grossPerHour
       Earnings.netPerHour].
  split; [reflexivity|]. split; [reflexivity|].
  split; [intros H; rewrite (or_else_add _ _ H); reflexivity|].
  split; [intros H; rewrite (or_else_NaN _ H); reflexivity|].
  repeat split; apply guarded_rate.
Qed.

(** The theorem at the form of the example. *)
Lemma saved_columns_agree_witness :
  let r := Earnings.earningsData "driver-1" "2025-11-02"
             (earnings_form "1000" "10" "100" "5" "50") in
  Earnings.net_earnings r
  = (Earnings.gross_earnings r - Earnings.total_expenses r)%float
  /\ Earnings.gross_earnings r
     = (Earnings.total_earnings r + Earnings.tips_ r + Earnings.extras_ r)%float.
Proof.
  destruct (saved_columns_agree (earnings_form "1000" "10" "100" "5" "50")
              "driver-1" "2025-11-02")
    as (_ & N & G & _).
  - unfold earnings_form, type_in. cbn [fold_left fst snd].
    repeat apply reach_input. apply reach_mounted.
  - split; [exact N|]. apply G. vm_compute. reflexivity.
Defined.

(** ** The date of a saved record *)

(** X10.  The date of a record is the UTC date of the moment it is saved,
    whatever the host's time zone.  In a host behind UTC by less than a day
    (the Americas) that is the local date until UTC passes midnight, and the
    date of the next day from then on: from 21:00 in UTC-3. *)
Theorem earnings_saved_date
        (tz : Z) (uid : string) (now : Z) (st : Earnings.state) :
  - Date.msPerDay < tz <= 0 ->
  ~ In "" (required_inputs (Earnings.form st)) ->
  next_outcome st = true ->
  exists r final,
    Earnings.handleSave (Some uid) now st = (Eff.Normal tt, final)
    /\ Earnings.earnings_records final
       = (Earnings.earnings_records st ++ [r])%list
    /\ Earnings.date r = date_of_day (Date.Day now)
    /\ Earnings.date r = date_of_day (saved_day tz now).
Proof.
  intros Htz H Hok.
  destruct (earnings_handleSave_inserts uid now st H Hok) as (final & E & R).
  eexists. exists final. split; [exact E|]. split; [exact R|].
  cbn [Earnings.earningsData Earnings.date].
  pose proof (toISOString_date_of_day now) as D.
  split; [exact D|]. rewrite D. f_equal.
  unfold saved_day, Date.LocalTime, Date.Day, Date.TimeWithinDay,
    Date.msPerDay in *.
  cbv zeta. destruct (Z.leb_spec (86400000 + tz) ((now + tz) mod 86400000));
    Z.div_mod_to_equations; lia.
Qed.

(** The theorem in UTC-3 on 2 November 2025 at 22:04, local time: the
    record is dated 3 November. *)
Lemma earnings_saved_date_witness :
  exists r final,
    Earnings.handleSave (Some "driver-1") 1762131845123
      (earnings_form "1000" "10" "100" "5" "50")
    = (Eff.Normal tt, final)
    /\ Earnings.earnings_records final = [r]
    /\ Date.civil_from_days
         (Date.Day (Date.LocalTime utc_minus_3 1762131845123)) = (2025, 11, 2)
    /\ Earnings.date r = "2025-11-03".
Proof.
  destruct (earnings_saved_date utc_minus_3 "driver-1" 1762131845123
              (earnings_form "1000" "10" "100" "5" "50"))
    as (r & final & E & R & _ & D).
  - unfold utc_minus_3, Date.msPerDay. lia.
  - vm_compute. intros [H|[H|[H|[H|[]]]]]; discriminate H.
  - reflexivity.
  - exists r, final. split; [exact E|]. split; [exact R|].
    split; [reflexivity|]. exact D.
Defined.

(** ** Filling the form *)

Lemma set_field_commute n1 v1 n2 v2 fd :
  n1 <> n2 ->
  Earnings.set_field n1 v1 (Earnings.set_field n2 v2 fd)
  = Earnings.set_field n2 v2 (Earnings.set_field n1 v1 fd).
Proof.
  intros H. unfold Earnings.set_field.
  cbn [Earnings.totalEarnings Earnings.tripsCompleted Earnings.kilometersDriver
       Earnings.hoursWorked Earnings.tips Earnings.extras Earnings.fuelCost
       Earnings.otherExpenses].
  f_equal;
    match goal with
    | |- context [(n1 =? ?f)%string] =>
        destruct (String.eqb_spec n1 f); destruct (String.eqb_spec n2 f);
        congruence
    end.
Qed.

Lemma set_field_again n v1 v2 fd :
  Earnings.set_field n v1 (Earnings.set_field n v2 fd)
  = Earnings.set_field n v1 fd.
Proof.
  unfold Earnings.set_field.
  cbn [Earnings.totalEarnings Earnings.tripsCompleted Earnings.kilometersDriver
       Earnings.hoursWorked Earnings.tips Earnings.extras Earnings.fuelCost
       Earnings.otherExpenses].
  f_equal;
    match goal with
    | |- context [(n =? ?f)%string] => destruct (n =? f)%string; reflexivity
    end.
Qed.

(** X11.  Typing into two different inputs gives the same screen in either
    order, and typing twice into the same input leaves what was typed last;
    in both cases the calculations shown are those of the resulting form. *)
Theorem earnings_inputs_commute
        (n1 v1 n2 v2 : string) (st : Earnings.state) :
  (n1 <> n2 ->
   Earnings.handleInputChange n1 v1 (Earnings.handleInputChange n2 v2 st)
   = Earnings.handleInputChange n2 v2 (Earnings.handleInputChange n1 v1 st))
  /\ Earnings.handleInputChange n1 v1 (Earnings.handleInputChange n1 v2 st)
     = Earnings.handleInputChange n1 v1 st
  /\ Earnings.calcs (Earnings.handleInputChange n1 v1 st)
     = Earnings.calculateValues
         (Earnings.form (Earnings.handleInputChange n1 v1 st)).
Proof.
  unfold Earnings.handleInputChange, Earnings.recalculate, Earnings.set_form.
  cbn [Earnings.form Earnings.calcs Earnings.loading Earnings.shown
       Earnings.earnings_records Earnings.schedule].
  split; [intros H; rewrite (set_field_commute n1 v1 n2 v2 _ H); reflexivity|].
  split; [rewrite set_field_again; reflexivity|reflexivity].
Qed.

(* ================================================================== *)
(** * The trip calculator                                             *)
(* ================================================================== *)

(** The example of the specification: 750 per km wanted, 5000 for a trip of
    5.88 km, is about 13.4 % above and classified [rentable]. *)
Example profitability_example :
  let '(_, st) := Trip.calculateProfitability (one_route 5880%float) (trip_form "750" "5000") in
  option_map Trip.profitability (Trip.analysis st) = Some Trip.rentable
  /\ match Trip.analysis st with
     | Some a =>
         (13.375 <? Trip.difference a)%float = true
         /\ (Trip.difference a <? 13.5)%float = true
     | None => False
     end.
Proof. vm_compute. repeat split; reflexivity. Qed.

(** C2.  The tier is a function of the percentage difference [d] alone: the
    analysis stored by the calculator carries [classify] of the difference it
    carries, so two analyses with the same difference have the same tier; and
    [d >= 10] gives [rentable], [-10 <= d < 10] gives [poco_rentable],
    [d < -10] gives [no_rentable]. *)
Theorem classify_tiers :
  (forall tripPrice desiredPricePerKm route,
     let a := Trip.analyse tripPrice desiredPricePerKm route in
     Trip.profitability a = Trip.classify (Trip.difference a))
  /\ (forall p1 q1 r1 p2 q2 r2,
        Trip.difference (Trip.analyse p1 q1 r1)
        = Trip.difference (Trip.analyse p2 q2 r2) ->
        Trip.profitability (Trip.analyse p1 q1 r1)
        = Trip.profitability (Trip.analyse p2 q2 r2))
  /\ (forall d : JS.number,
        ((10 <=? d)%float = true -> Trip.classify d = Trip.rentable)
        /\ ((-10 <=? d)%float = true /\ (d <? 10)%float = true ->
            Trip.classify d = Trip.poco_rentable)
        /\ ((d <? -10)%float = true -> Trip.classify d = Trip.no_rentable)).
Proof.
  split; [|split].
  - reflexivity.
  - intros p1 q1 r1 p2 q2 r2 H.
    change (Trip.classify (Trip.difference (Trip.analyse p1 q1 r1))
            = Trip.classify (Trip.difference (Trip.analyse p2 q2 r2))).
    rewrite H. reflexivity.
  - intros d. unfold Trip.classify. repeat split.
    + intros H. rewrite H. reflexivity.
    + intros [Hlow Hhigh]. rewrite (ltb_not_leb _ _ Hhigh), Hlow. reflexivity.
    + intros H. rewrite (below_minus_ten_not_above_ten _ H).
      rewrite (ltb_not_leb _ _ H). reflexivity.
Qed.

(** C3.  A difference of exactly 10 % is classified [rentable], not
    [poco_rentable]; a difference of exactly -10 % is classified
    [poco_rentable].  A trip of 10 km for 1100 with 100 per km wanted is
    exactly 10 % above. *)
Theorem classify_at_the_boundaries :
  Trip.classify 10%float = Trip.rentable
  /\ Trip.classify (-10)%float = Trip.poco_rentable
  /\ (let '(_, st) := Trip.calculateProfitability (one_route 10000%float)
                        (trip_form "100" "1100") in
      option_map Trip.difference (Trip.analysis st) = Some 10%float
      /\ option_map Trip.profitability (Trip.analysis st) = Some Trip.rentable).
Proof. vm_compute. repeat split; reflexivity. Qed.

(** C4.  The trip calculator divides the price by the distance without
    looking at the distance: for a route of 0 metres (the two places are the
    same) the price per km is [Infinity], not 0, the difference is
    [Infinity] and the trip is classified [rentable]. *)
Theorem actualPricePerKm_of_no_distance :
  let '(r, st) := Trip.calculateProfitability (one_route 0%float)
                    (trip_form "750" "5000") in
  r = Eff.Normal tt
  /\ option_map Trip.distance (Trip.analysis st) = Some 0%float
  /\ option_map Trip.actualPricePerKm (Trip.analysis st) = Some infinity
  /\ option_map Trip.difference (Trip.analysis st) = Some infinity
  /\ option_map Trip.profitability (Trip.analysis st) = Some Trip.rentable.
Proof. vm_compute. repeat split; reflexivity. Qed.

(** ** Failures of the trip analysis *)

Lemma truthy_spec (s : string) : JS.truthy s = false <-> s = "".
Proof. destruct s; cbn; split; intros H; congruence. Qed.

Lemma good_price (field : string) :
  ~ bad_price field ->
  JS.truthy field = true
  /\ JS.isNaN (JS.parseFloat field) = false
  /\ (JS.parseFloat field <=? 0)%float = false.
Proof.
  unfold bad_price. intros H. repeat split.
  - destruct (JS.truthy field) eqn:E; [reflexivity|].
    apply truthy_spec in E. tauto.
  - destruct (JS.isNaN _); [tauto|reflexivity].
  - destruct (_ <=? _)%float; [tauto|reflexivity].
Qed.

(** C9.  [calculateProfitability] never throws.  When a place has not been
    chosen or a price is blank, not a number or not positive, all it does is
    show an error: no request is sent.  When both places and both prices are
    given and the directions request fails or brings no route, that one
    request has been sent, an error is shown, and the analysis is left as it
    was. *)
Theorem calculateProfitability_failures :
  (forall answer st, exists st',
      Trip.calculateProfitability answer st = (Eff.Normal tt, st'))
  /\ (forall answer st,
        Trip.originCoords st = None \/ Trip.destinationCoords st = None
        \/ bad_price (Trip.desiredPricePerKm (Trip.form st))
        \/ bad_price (Trip.tripPrice (Trip.form st)) ->
        exists text,
          Trip.calculateProfitability answer st
          = (Eff.Normal tt, Trip.showNotification "error" text st))
  /\ (forall answer st from to,
        Trip.originCoords st = Some from ->
        Trip.destinationCoords st = Some to ->
        ~ bad_price (Trip.desiredPricePerKm (Trip.form st)) ->
        ~ bad_price (Trip.tripPrice (Trip.form st)) ->
        no_route answer ->
        exists st' text,
          Trip.calculateProfitability answer st = (Eff.Normal tt, st')
          /\ Trip.requests st' = (Trip.requests st ++ [(from, to)])%list
          /\ Trip.analysis st' = Trip.analysis st
          /\ Trip.shown st'
             = (Trip.shown st ++ [{| type := "error"; message := text |}])%list
          /\ Trip.loading st' = false).
Proof.
  split; [|split].
  - intros answer st.
    unfold Trip.calculateProfitability, Eff.bind at 1, Eff.get. cbv beta iota.
    destruct (Trip.originCoords st) as [from|];
      [|eexists; reflexivity].
    destruct (Trip.destinationCoords st) as [to|];
      [|eexists; reflexivity].
    destruct (negb _ || negb _); [eexists; reflexivity|].
    destruct (_ || _ || _ || _); [eexists; reflexivity|].
    unfold Eff.bind at 1, Eff.modify at 1, Eff.finally, Eff.try_catch,
      Eff.bind, Trip.get_directions. cbv beta iota.
    destruct answer as [|[[|route routes]|]]; eexists; reflexivity.
  - intros answer st H.
    unfold Trip.calculateProfitability, Eff.bind at 1, Eff.get. cbv beta iota.
    destruct (Trip.originCoords st) as [from|];
      [|eexists; reflexivity].
    destruct (Trip.destinationCoords st) as [to|];
      [|eexists; reflexivity].
    destruct H as [H|[H|H]]; try discriminate H.
    destruct (JS.truthy (Trip.desiredPricePerKm (Trip.form st))) eqn:Ed;
      [|eexists; reflexivity].
    destruct (JS.truthy (Trip.tripPrice (Trip.form st))) eqn:Et;
      [|eexists; reflexivity].
    cbv beta iota delta [negb orb].
    destruct H as [[H|[H|H]]|[H|[H|H]]];
      try (apply truthy_spec in H; congruence);
      rewrite H; rewrite ?orb_true_r; cbv beta iota delta [orb];
      try (eexists; reflexivity).
    + destruct (JS.isNaN (JS.parseFloat (Trip.tripPrice (Trip.form st))));
        [eexists; reflexivity|].
      destruct (JS.parseFloat (Trip.tripPrice (Trip.form st)) <=? 0)%float;
        eexists; reflexivity.
    + destruct (JS.isNaN (JS.parseFloat (Trip.tripPrice (Trip.form st))));
        [eexists; reflexivity|].
      destruct (JS.parseFloat (Trip.tripPrice (Trip.form st)) <=? 0)%float;
        [eexists; reflexivity|].
      destruct (JS.isNaN (JS.parseFloat (Trip.desiredPricePerKm (Trip.form st))));
        eexists; reflexivity.
    + destruct (JS.isNaN (JS.parseFloat (Trip.tripPrice (Trip.form st))));
        eexists; reflexivity.
  - intros answer st from to Ho Hd Hdesired Hprice Hroute.
    apply good_price in Hdesired. destruct Hdesired as (D1 & D2 & D3).
    apply good_price in Hprice. destruct Hprice as (P1 & P2 & P3).
    unfold Trip.calculateProfitability, Eff.bind at 1, Eff.get. cbv beta iota.
    rewrite Ho, Hd, D1, P1, D2, D3, P2, P3.
    cbv beta iota delta [negb orb].
    unfold Eff.bind at 1, Eff.modify at 1, Eff.finally, Eff.try_catch,
      Eff.bind, Trip.get_directions. cbv beta iota.
    destruct Hroute as [->|[->| ->]];
      eexists; eexists; (split; [reflexivity|]); repeat split.
Qed.

(** ** A trip that is analysed *)

(** The analysis of the first route that the directions request brings. *)
Lemma calculateProfitability_route st from to route others :
  Trip.originCoords st = Some from ->
  Trip.destinationCoords st = Some to ->
  ~ bad_price (Trip.desiredPricePerKm (Trip.form st)) ->
  ~ bad_price (Trip.tripPrice (Trip.form st)) ->
  Trip.calculateProfitability (Trip.Resolved (Some (route :: others))) st
  = (Eff.Normal tt,
     Trip.setLoading false
       (Trip.setAnalysis
          (Trip.analyse (JS.parseFloat (Trip.tripPrice (Trip.form st)))
             (JS.parseFloat (Trip.desiredPricePerKm (Trip.form st))) route)
          (snd (Trip.get_directions (Trip.Resolved (Some (route :: others)))
                  from to (Trip.setLoading true st))))).
Proof.
  intros Hfrom Hto Hdesired Hprice.
  destruct (good_price _ Hdesired) as (D1 & D2 & D3).
  destruct (good_price _ Hprice) as (P1 & P2 & P3).
  unfold Trip.calculateProfitability, Eff.bind at 1, Eff.get. cbv beta iota.
  rewrite Hfrom, Hto, D1, P1. cbv beta iota delta [negb orb].
  rewrite D2, D3, P2, P3. cbv beta iota.
  unfold Eff.bind, Eff.modify, Eff.finally, Eff.try_catch, Trip.get_directions.
  reflexivity.
Qed.

(** X18.  With both places chosen and both prices positive numbers, when
    the directions request brings routes, [calculateProfitability] sends
    that one request, for the coordinates chosen, and stores the analysis
    of the first route (its distance in km, the price per km, the
    difference and the tier), whatever the other routes; nothing is shown,
    the form and the coordinates stay and the loading flag is down. *)
Theorem calculateProfitability_success
        (st : Trip.state) (from to : Trip.coords)
        (route : Trip.route) (others : list Trip.route) :
  Trip.originCoords st = Some from ->
  Trip.destinationCoords st = Some to ->
  ~ bad_price (Trip.desiredPricePerKm (Trip.form st)) ->
  ~ bad_price (Trip.tripPrice (Trip.form st)) ->
  exists st',
    Trip.calculateProfitability (Trip.Resolved (Some (route :: others))) st
    = (Eff.Normal tt, st')
    /\ Trip.analysis st'
       = Some (Trip.analyse (JS.parseFloat (Trip.tripPrice (Trip.form st)))
                 (JS.parseFloat (Trip.desiredPricePerKm (Trip.form st)))
                 route)
    /\ Trip.requests st' = (Trip.requests st ++ [(from, to)])%list
    /\ Trip.shown st' = Trip.shown st
    /\ Trip.form st' = Trip.form st
    /\ Trip.originCoords st' = Some from
    /\ Trip.destinationCoords st' = Some to
    /\ Trip.loading st' = false.
Proof.
  intros Hfrom Hto Hdesired Hprice.
  rewrite (calculateProfitability_route st from to route others
             Hfrom Hto Hdesired Hprice).
  eexists. split; [reflexivity|].
  cbn [Trip.analysis Trip.requests Trip.shown Trip.form Trip.originCoords
       Trip.destinationCoords Trip.loading Trip.setLoading Trip.setAnalysis
       Trip.get_directions snd].
  repeat split; assumption.
Qed.

(** The theorem at the trip of the example, with a second route. *)
Lemma calculateProfitability_success_witness :
  exists st',
    Trip.calculateProfitability
      (Trip.Resolved (Some [ {| Trip.route_distance := 5880%float |};
                             {| Trip.route_distance := 7000%float |} ]))
      (trip_form "750" "5000")
    = (Eff.Normal tt, st')
    /\ option_map Trip.distance (Trip.analysis st') = Some (5880 / 1000)%float.
Proof.
  destruct (calculateProfitability_success (trip_form "750" "5000")
              ((-58.375)%float, (-34.625)%float) ((-58.5)%float, (-34.5)%float)
              {| Trip.route_distance := 5880%float |}
              [ {| Trip.route_distance := 7000%float |} ])
    as (st' & E & A & _).
  - reflexivity.
  - reflexivity.
  - vm_compute. intros [H|[H|H]]; discriminate H.
  - vm_compute. intros [H|[H|H]]; discriminate H.
  - exists st'. split; [exact E|]. rewrite A. vm_compute. reflexivity.
Defined.

(* ================================================================== *)
(** * The next service                                                *)
(* ================================================================== *)

(** C5.  In a host three hours behind UTC, the next inspection for a service
    dated 2026-03-01 is computed as 2028-02-29, a day short of two years:
    [new Date("2026-03-01")] is midnight UTC, that is 21:00 of 28 February
    local time; [setFullYear] moves the local date to 28 February 2028, 21:00,
    which [toISOString] prints in UTC.  With local time equal to UTC the
    result is 2028-03-01. *)
Theorem calculateNextService_local_time :
  Services.calculateNextService utc_minus_3 "vtv" 50000%float "2026-03-01"
  = Eff.Normal {| Services.next_date := Some "2028-02-29";
                  Services.next_mileage := None |}
  /\ Services.calculateNextService 0 "vtv" 50000%float "2026-03-01"
     = Eff.Normal {| Services.next_date := Some "2028-03-01";
                     Services.next_mileage := None |}.
Proof. vm_compute. split; reflexivity. Qed.

Lemma Normal_inj {A : Type} (x y : A) : Eff.Normal x = Eff.Normal y -> x = y.
Proof. intros H. injection H. auto. Qed.

(** The other parts of [calculateNextService]: a type that is not in
    [SERVICE_TYPES] gives the empty object, a type with a [km] rule gives the
    mileage alone, and a type with a [years] rule gives the date alone. *)
Lemma calculateNextService_unknown tz serviceType mileage serviceDate :
  find (fun s => (Services.key s =? serviceType)%string) Services.SERVICE_TYPES
  = None ->
  Services.calculateNextService tz serviceType mileage serviceDate
  = Eff.Normal Services.empty_object.
Proof. intros H. unfold Services.calculateNextService. rewrite H. reflexivity. Qed.

Lemma calculateNextService_km tz serviceType mileage serviceDate service :
  find (fun s => (Services.key s =? serviceType)%string) Services.SERVICE_TYPES
  = Some service ->
  Services.rule service = Services.km ->
  Services.calculateNextService tz serviceType mileage serviceDate
  = Eff.Normal
      {| Services.next_date := None;
         Services.next_mileage :=
           Some (mileage + JS.of_Z (Services.value service))%float |}.
Proof.
  intros H K. unfold Services.calculateNextService. rewrite H, K. reflexivity.
Qed.

Lemma calculateNextService_years tz serviceType mileage serviceDate service n :
  find (fun s => (Services.key s =? serviceType)%string) Services.SERVICE_TYPES
  = Some service ->
  Services.rule service = Services.years ->
  Services.calculateNextService tz serviceType mileage serviceDate
  = Eff.Normal n ->
  Services.next_mileage n = None /\ exists d, Services.next_date n = Some d.
Proof.
  intros H K. unfold Services.calculateNextService. rewrite H, K.
  generalize (Date.parse serviceDate); intros [t|] E; [|discriminate E].
  apply Normal_inj in E. subst n. split; [reflexivity|].
  eexists. reflexivity.
Qed.

(** ** The outputs of [calculateNextService] *)

(** X3.  Whatever the host's time zone: a type outside [SERVICE_TYPES] gives the
    empty object; a type with a [km] rule gives the next mileage alone, the
    reading plus the interval; a type with a [years] rule gives a next date
    alone (or throws, when the service date is not a date). *)
Theorem calculateNextService_outputs
        (tz : Z) (serviceType : string) (mileage : JS.number)
        (serviceDate : string) :
  match find (fun s => (Services.key s =? serviceType)%string)
             Services.SERVICE_TYPES with
  | None =>
      Services.calculateNextService tz serviceType mileage serviceDate
      = Eff.Normal Services.empty_object
  | Some service =>
      match Services.rule service with
      | Services.km =>
          Services.calculateNextService tz serviceType mileage serviceDate
          = Eff.Normal
              {| Services.next_date := None;
                 Services.next_mileage :=
                   Some (mileage + JS.of_Z (Services.value service))%float |}
      | Services.years =>
          match Services.calculateNextService tz serviceType mileage
                                              serviceDate with
          | Eff.Normal n =>
              Services.next_mileage n = None
              /\ exists d, Services.next_date n = Some d
          | Eff.Throw _ => Date.parse serviceDate = None
          end
      end
  end.
Proof.
  destruct (find _ _) as [service|] eqn:E.
  - destruct (Services.rule service) eqn:K.
    + destruct (Services.calculateNextService _ _ _ _) as [n|e] eqn:R.
      * eapply calculateNextService_years; eassumption.
      * revert R. unfold Services.calculateNextService. rewrite E, K.
        generalize (Date.parse serviceDate). intros [t|] R;
          [discriminate R|reflexivity].
    + apply calculateNextService_km; assumption.
  - apply calculateNextService_unknown. exact E.
Qed.

(** ** The years rule to the east of Greenwich *)



(* ================================================================== *)
(** * Services that are due                                           *)
(* ================================================================== *)

Lemma ceil_div_le (a b k : Z) :
  0 < b -> (Services.ceil_div a b <= k <-> a <= k * b).
Proof.
  intros Hb. unfold Services.ceil_div. split; intros H.
  - assert (- k <= (- a) / b) by lia.
    assert (b * (- k) <= - a).
    { etransitivity; [apply Z.mul_le_mono_nonneg_l; [lia|eassumption]|].
      apply Z.mul_div_le. exact Hb. }
    lia.
  - assert (- k <= (- a) / b); [|lia].
    apply Z.div_le_lower_bound; lia.
Qed.



(** ** Once due, always due *)

Lemma ceil_div_mono (a a' b : Z) :
  0 < b -> a' <= a -> Services.ceil_div a' b <= Services.ceil_div a b.
Proof.
  intros Hb H. apply (ceil_div_le a' b _ Hb).
  pose proof (proj1 (ceil_div_le a b (Services.ceil_div a b) Hb)
                    (Z.le_refl _)). lia.
Qed.

(** A reading that is at least a number is given in a field that is not
    blank. *)
Lemma reading_given (x : float) (reading : string) :
  (x <=? JS.parseFloat reading)%float = true -> JS.truthy reading = true.
Proof.
  destruct reading; [|reflexivity].
  change (JS.parseFloat "") with nan. rewrite leb_spec.
  change (Prim2SF nan) with S754_nan. unfold SFleb.
  destruct (Prim2SF x); cbn; discriminate.
Qed.

(** X17.  A service that is due stays due: at any later moment, and with
    any reading of the odometer that is at least the one given.  With no
    next date and a blank odometer field a service is not due, and with
    neither a next date nor a next mileage it is never due. *)
Theorem isServiceDue_monotone
        (now now' : Z) (reading reading' : string)
        (service : Services.service_record) :
  (Services.isServiceDue now reading service = true ->
   now <= now' ->
   reading' = reading
   \/ (JS.parseFloat reading <=? JS.parseFloat reading')%float = true ->
   Services.isServiceDue now' reading' service = true)
  /\ (Services.next_service_date service = None ->
      Services.isServiceDue now "" service = false)
  /\ (Services.next_service_date service = None ->
      Services.next_service_mileage service = None ->
      Services.isServiceDue now reading service = false).
Proof.
  unfold Services.isServiceDue.
  split; [|split; [|intros -> ->; reflexivity]].
  2:{ intros ->. destruct (Services.next_service_mileage service);
      [cbn [JS.truthy]; rewrite andb_false_r|]; reflexivity. }
  intros Hdue Hnow Hreading. revert Hdue.
  assert (match Services.next_service_mileage service with
          | Some mileage =>
              if JS.ToBoolean mileage && JS.truthy reading
              then (mileage - 1000 <=? JS.parseFloat reading)%float
              else false
          | None => false
          end = true ->
          match Services.next_service_mileage service with
          | Some mileage =>
              if JS.ToBoolean mileage && JS.truthy reading'
              then (mileage - 1000 <=? JS.parseFloat reading')%float
              else false
          | None => false
          end = true) as Hkm.
  { destruct Hreading as [->|Hle]; [auto|].
    destruct (Services.next_service_mileage service) as [mileage|]; [|auto].
    rewrite (reading_given _ _ Hle).
    destruct (JS.ToBoolean mileage); [|discriminate].
    destruct (JS.truthy reading); [|discriminate]. cbn [andb].
    intros H. exact (float_leb_trans _ _ _ H Hle). }
  destruct (Services.next_service_date service) as [[|c date]|];
    [exact Hkm| |exact Hkm].
  destruct (Date.parse (String c date)) as [t|]; [|discriminate].
  rewrite !Z.leb_le. intros H.
  pose proof (ceil_div_mono (t - now) (t - now') (1000 * 60 * 60 * 24)
                ltac:(lia) ltac:(lia)).
  lia.
Qed.

(** The theorem at the oil change registered at 50000 km, read at 59200 km
    and then at 59300 km a day later. *)
Lemma isServiceDue_monotone_witness :
  Services.isServiceDue 1762211045123 "59300" stored_oil_change = true.
Proof.
  apply (proj1 (isServiceDue_monotone 1762124645123 1762211045123
                  "59200" "59300" stored_oil_change)).
  - vm_compute. reflexivity.
  - lia.
  - right. vm_compute. reflexivity.
Defined.

(** ** The next date in any time zone *)






(** ** Registered today, due in two years *)





(* ================================================================== *)
(** * Saving services                                                 *)
(* ================================================================== *)

(** C8.  [handleSave] looks for the row of the type and does not look at the
    [error] of that request.  When the request fails ([data] is [null]) and
    the insert that follows succeeds, a type that already has a row gets a
    second one: from a table with one oil change of the user, saving an oil
    change leaves two, and reports success. *)
Theorem handleSave_lookup_failure :
  let st := services_form "60000" ["oil_change"] one_oil_change 2
              [false; true] in
  let '(r, saved) :=
    Services.handleSave utc_minus_3 (Some "driver-1") 1762124645123 st in
  one_record_per_type (Services.service_records st)
  /\ r = Eff.Normal tt
  /\ map Services.id
         (records_of "driver-1" "oil_change" (Services.service_records saved))
     = [1; 2]
  /\ ~ one_record_per_type (Services.service_records saved)
  /\ map type (Services.shown saved) = ["success"].
Proof.
  cbv zeta.
  destruct (Services.handleSave _ _ _ _) as [r saved] eqn:E.
  vm_compute in E. apply pair_equal_spec in E. destruct E as [<- <-].
  split; [|split; [reflexivity|split; [vm_compute; reflexivity|split]]].
  - intros user serviceType. unfold records_of. cbn [filter Services.service_records services_form one_oil_change].
    destruct (Services.matches _ _ _); cbn; lia.
  - intros H. specialize (H "driver-1" "oil_change").
    vm_compute in H. lia.
  - vm_compute. reflexivity.
Qed.

(** ** The requests of one selected service *)

Lemma for_of_app {S A : Type} (l1 l2 : list A) (body : A -> Eff.M S unit) s :
  Eff.for_of (l1 ++ l2) body s
  = match Eff.for_of l1 body s with
    | (Eff.Normal _, s1) => Eff.for_of l2 body s1
    | (Eff.Throw e, s1) => (Eff.Throw e, s1)
    end.
Proof.
  revert s. induction l1 as [|x l1 IH]; intros s; cbn.
  - reflexivity.
  - unfold Eff.bind. destruct (body x s) as [[[]|e] s1]; [apply IH|reflexivity].
Qed.

Lemma select_id_eq user serviceType st :
  Services.select_id user serviceType st
  = (Eff.Normal
       (if Services.outcome st
        then Some (firstn 1 (map Services.id
                       (filter (Services.matches user serviceType)
                               (Services.service_records st))))
        else None),
     Services.sent (Services.SelectId user serviceType) st).
Proof. reflexivity. Qed.

Lemma update_eq row d st :
  Services.update row d st
  = if Services.outcome st
    then (Eff.Normal None,
          Services.set_table (updated row d (Services.service_records st))
            (Services.next_id st) (Services.sent (Services.Update row d) st))
    else (Eff.Normal (Some "update failed"),
          Services.sent (Services.Update row d) st).
Proof.
  unfold Services.update, Services.send, Eff.bind.
  destruct (Services.outcome st); reflexivity.
Qed.

Lemma insert_eq d st :
  Services.insert d st
  = if Services.outcome st
    then (Eff.Normal None,
          Services.set_table
            (inserted (Services.next_id st) d (Services.service_records st))
            (Services.next_id st + 1) (Services.sent (Services.Insert d) st))
    else (Eff.Normal (Some "insert failed"),
          Services.sent (Services.Insert d) st).
Proof.
  unfold Services.insert, Services.send, Eff.bind.
  destruct (Services.outcome st); reflexivity.
Qed.

Lemma firstn_1_nil {A : Type} (l : list A) : firstn 1 l = [] -> l = [].
Proof. destruct l; [reflexivity|discriminate]. Qed.

Section OneService.

Variable tz : Z.
Variable uid : string.
Variable mileage : JS.number.
Variable currentDate : string.

(** Either [calculateNextService] throws and nothing is sent, or the
    iteration goes one of the four ways above. *)
Lemma save_service_cases serviceType st r st' :
  Services.save_service tz uid mileage currentDate serviceType st = (r, st') ->
  (exists e, r = Eff.Throw e /\ st' = st)
  \/ (exists n,
        Services.calculateNextService tz serviceType mileage currentDate
        = Eff.Normal n
        /\ iteration uid (serviceData uid mileage currentDate serviceType n)
                     st r st').
Proof.
  unfold Services.save_service, Eff.bind, Eff.lift.
  destruct (Services.calculateNextService tz serviceType mileage currentDate)
    as [n|e0].
  2:{ intros E. apply pair_equal_spec in E. destruct E as [<- <-].
      left. exists e0. split; reflexivity. }
  rewrite select_id_eq. fold (serviceData uid mileage currentDate serviceType n).
  intros E. right. exists n. split; [reflexivity|]. revert E.
  destruct (Services.outcome st) eqn:Eo.
  - destruct (firstn 1 _) as [|existing l] eqn:Ef.
    + rewrite insert_eq.
      destruct (Services.outcome (Services.sent _ st)) eqn:Eo2;
        unfold Eff.throw, Eff.ret;
        intros E; apply pair_equal_spec in E; destruct E as [<- <-];
        cbn [Services.sent Services.next_id Services.service_records].
      * apply it_inserted; [|exact Eo2].
        intros _. apply firstn_1_nil in Ef.
        destruct (filter _ _); [reflexivity|discriminate].
      * apply it_insert_failed; [|exact Eo2].
        intros _. apply firstn_1_nil in Ef.
        destruct (filter _ _); [reflexivity|discriminate].
    + rewrite update_eq.
      destruct (Services.outcome (Services.sent _ st)) eqn:Eo2;
        unfold Eff.throw, Eff.ret;
        intros E; apply pair_equal_spec in E; destruct E as [<- <-];
        cbn [Services.sent Services.next_id Services.service_records].
      * eapply it_updated; eassumption.
      * eapply it_update_failed; eassumption.
  - rewrite insert_eq.
    destruct (Services.outcome (Services.sent _ st)) eqn:Eo2;
      unfold Eff.throw, Eff.ret;
      intros E; apply pair_equal_spec in E; destruct E as [<- <-];
      cbn [Services.sent Services.next_id Services.service_records].
    * apply it_inserted; [|exact Eo2]. intros K; rewrite Eo in K; discriminate K.
    * apply it_insert_failed; [|exact Eo2]. intros K; rewrite Eo in K; discriminate K.
Qed.

End OneService.

(** ** The table *)

Lemma updated_ids row d rows :
  map Services.id (updated row d rows) = map Services.id rows.
Proof.
  unfold updated. rewrite map_map. apply map_ext.
  intros r. destruct (Services.id r =? row); reflexivity.
Qed.

Lemma inserted_ids fresh d rows :
  map Services.id (inserted fresh d rows) = (map Services.id rows ++ [fresh])%list.
Proof. unfold inserted. rewrite map_app. reflexivity. Qed.

Lemma same_id_same_row (rows : list Services.service_record) r1 r2 :
  NoDup (map Services.id rows) -> In r1 rows -> In r2 rows ->
  Services.id r1 = Services.id r2 -> r1 = r2.
Proof.
  induction rows as [|r rows IH]; cbn; [tauto|].
  intros N [->|H1] [->|H2] E; inversion N as [|? ? Hnot N']; subst.
  - reflexivity.
  - exfalso. apply Hnot. rewrite E. apply in_map. exact H2.
  - exfalso. apply Hnot. rewrite <- E. apply in_map. exact H1.
  - apply IH; assumption.
Qed.

(** The row that the lookup finds is a row of the user and the type. *)
Lemma lookup_finds user serviceType rows existing l :
  firstn 1 (map Services.id (filter (Services.matches user serviceType) rows))
  = existing :: l ->
  exists r, In r rows /\ Services.id r = existing
            /\ Services.matches user serviceType r = true.
Proof.
  destruct (filter _ rows) as [|r tl] eqn:E; [discriminate|].
  cbn. intros H. inversion H; subst.
  assert (In r (filter (Services.matches user serviceType) rows)) as Hin
      by (rewrite E; left; reflexivity).
  apply filter_In in Hin. exists r. tauto.
Qed.

Lemma matches_spec user serviceType r :
  Services.matches user serviceType r = true
  <-> Services.user_id r = user /\ Services.service_type_ r = serviceType.
Proof.
  unfold Services.matches. rewrite andb_true_iff, !String.eqb_eq. tauto.
Qed.

Lemma filter_length_ext {A : Type} (f g : A -> bool) (l : list A) :
  (forall x, In x l -> f x = g x) ->
  List.length (filter f l) = List.length (filter g l).
Proof.
  induction l as [|x l IH]; cbn; [reflexivity|].
  intros H. rewrite (H x (or_introl eq_refl)).
  destruct (g x); cbn; rewrite IH; auto.
Qed.

Lemma filter_map_length {A B : Type} (f : B -> bool) (g : A -> B) (l : list A) :
  List.length (filter f (map g l)) = List.length (filter (fun x => f (g x)) l).
Proof.
  induction l as [|x l IH]; cbn; [reflexivity|].
  destruct (f (g x)); cbn; rewrite IH; reflexivity.
Qed.

(** Updating the row that the lookup found changes no count. *)
Lemma updated_counts uid d rows existing l user serviceType :
  NoDup (map Services.id rows) ->
  Services.data_user_id d = uid ->
  firstn 1 (map Services.id
              (filter (Services.matches uid (Services.data_service_type d)) rows))
  = existing :: l ->
  List.length (records_of user serviceType (updated existing d rows))
  = List.length (records_of user serviceType rows).
Proof.
  intros N Hu Hf. unfold records_of, updated.
  rewrite filter_map_length. apply filter_length_ext.
  intros r Hr. destruct (Services.id r =? existing) eqn:Eid; [|reflexivity].
  apply Z.eqb_eq in Eid.
  destruct (lookup_finds _ _ _ _ _ Hf) as (r0 & Hr0 & Hid & Hm).
  assert (r = r0) by (apply (same_id_same_row rows); congruence). subst r0.
  apply matches_spec in Hm. destruct Hm as [Hm1 Hm2].
  unfold Services.matches. cbn [Services.write Services.user_id Services.service_type_].
  rewrite Hu, Hm1, Hm2. reflexivity.
Qed.

(** Inserting a row for a user and type that have none keeps every count at
    most 1. *)
Lemma inserted_counts uid d rows fresh :
  Services.data_user_id d = uid ->
  filter (Services.matches uid (Services.data_service_type d)) rows = [] ->
  one_record_per_type rows ->
  one_record_per_type (inserted fresh d rows).
Proof.
  intros Hu Hnone H user serviceType. specialize (H user serviceType).
  unfold records_of, inserted in *. rewrite filter_app, length_app. cbn [filter].
  destruct (Services.matches user serviceType _) eqn:Em; cbn [List.length]; [|lia].
  apply matches_spec in Em. cbn [Services.user_id Services.service_type_] in Em.
  destruct Em as [<- <-]. rewrite Hu, Hnone. cbn. lia.
Qed.

(** ** What an iteration does *)

Lemma same_form_refl st : same_form st st.
Proof. repeat split. Qed.

Lemma same_form_trans st1 st2 st3 :
  same_form st1 st2 -> same_form st2 st3 -> same_form st1 st3.
Proof.
  unfold same_form. intros (a1 & a2 & a3 & a4 & a5) (b1 & b2 & b3 & b4 & b5).
  repeat split; congruence.
Qed.

Section Iteration.

Variable uid : string.
Variable d : Services.service_data.
Variable st : Services.state.
Variable res : Eff.completion unit.
Variable st' : Services.state.
Hypothesis Hit : iteration uid d st res st'.

Lemma iteration_frame : same_form st st'.
Proof. destruct Hit; repeat split. Qed.

Lemma iteration_throw e :
  res = Eff.Throw e ->
  Services.service_records st' = Services.service_records st.
Proof. destruct Hit; intros E; try discriminate E; reflexivity. Qed.

Lemma iteration_requests :
  exists extra,
    Services.requests st' = (Services.requests st ++ extra)%list
    /\ Forall (fun q => about q = Some (Services.data_service_type d)) extra.
Proof.
  destruct Hit; subst st1;
    cbn [Services.requests Services.set_table Services.sent];
    rewrite <- app_assoc; eexists; (split; [reflexivity|]);
    repeat constructor.
Qed.

Lemma iteration_table_ok : table_ok st -> table_ok st'.
Proof.
  unfold table_ok. intros [N F].
  destruct Hit;
    cbn [Services.service_records Services.next_id Services.set_table
         Services.sent].
  - rewrite updated_ids. split; [exact N|].
    unfold updated. rewrite Forall_map. eapply Forall_impl; [|exact F].
    intros r Hr. cbn beta. destruct (Services.id r =? existing); exact Hr.
  - split; assumption.
  - rewrite inserted_ids. split.
    + apply NoDup_app; [exact N|repeat constructor; intros []|].
      intros x Hx [<-|[]]. apply in_map_iff in Hx. destruct Hx as (r & E & Hr).
      rewrite Forall_forall in F. specialize (F r Hr). lia.
    + unfold inserted. apply Forall_app. split.
      * eapply Forall_impl; [|exact F]. intros r Hr. cbn beta in *. lia.
      * repeat constructor. cbn. lia.
  - split; assumption.
Qed.

(** When the lookup has succeeded, the iteration keeps at most one row for
    every user and type. *)
Lemma iteration_one_record :
  Services.data_user_id d = uid ->
  table_ok st ->
  Services.outcome st = true ->
  one_record_per_type (Services.service_records st) ->
  one_record_per_type (Services.service_records st').
Proof.
  intros Hu [N _] Hok H.
  destruct Hit;
    cbn [Services.service_records Services.next_id Services.set_table
         Services.sent]; try exact H.
  - intros user serviceType.
    erewrite updated_counts; [apply H|exact N|exact Hu|eassumption].
  - apply (inserted_counts uid); auto.
Qed.

(** An iteration that completes leaves a row with the data it was given. *)
Lemma iteration_saves :
  res = Eff.Normal tt ->
  exists r, In r (Services.service_records st') /\ saved_as d r.
Proof.
  destruct Hit as [existing l Hok Hf st1 Hok2| | |]; intros E; try discriminate E;
    cbn [Services.service_records Services.next_id Services.set_table
         Services.sent].
  - destruct (lookup_finds _ _ _ _ _ Hf) as (r0 & Hr0 & Hid & _).
    exists (Services.write d r0). split.
    + unfold updated. apply in_map_iff. exists r0. split; [|exact Hr0].
      rewrite Hid, Z.eqb_refl. reflexivity.
    + repeat split.
  - eexists. split.
    + unfold inserted. apply in_or_app. right. left. reflexivity.
    + repeat split.
Qed.

(** A row of the user with the date and reading of [d] is still there, as
    it was or rewritten with the same data. *)
Lemma iteration_keeps_saved r :
  Services.data_user_id d = uid ->
  table_ok st ->
  In r (Services.service_records st) ->
  Services.user_id r = uid ->
  Services.service_date r = Services.data_service_date d ->
  Services.current_mileage r = Services.data_current_mileage d ->
  exists r', In r' (Services.service_records st')
             /\ Services.user_id r' = uid
             /\ Services.service_type_ r' = Services.service_type_ r
             /\ Services.service_date r' = Services.service_date r
             /\ Services.current_mileage r' = Services.current_mileage r.
Proof.
  intros Hu [N _] Hr H1 H2 H3.
  destruct Hit as [existing l Hok Hf st1 Hok2| | |];
    cbn [Services.service_records Services.next_id Services.set_table
         Services.sent];
    try (exists r; repeat split; assumption).
  - destruct (Services.id r =? existing) eqn:Eid.
    + apply Z.eqb_eq in Eid.
      destruct (lookup_finds _ _ _ _ _ Hf) as (r0 & Hr0 & Hid & Hm).
      assert (r = r0) by (apply (same_id_same_row _ _ _ N); congruence).
      subst r0. apply matches_spec in Hm. destruct Hm as [_ Hm].
      exists (Services.write d r). split.
      * unfold updated. apply in_map_iff. exists r. split; [|exact Hr].
        rewrite Eid, Z.eqb_refl. reflexivity.
      * cbn [Services.write Services.user_id Services.service_type_
             Services.service_date Services.current_mileage].
        repeat split; congruence.
    + exists r. split; [|repeat split; assumption].
      unfold updated. apply in_map_iff. exists r. split; [|exact Hr].
      rewrite Eid. reflexivity.
  - exists r. split; [|repeat split; assumption].
    unfold inserted. apply in_or_app. left. exact Hr.
Qed.

End Iteration.

(** ** The loop of [handleSave] *)

Section Loop.

Variable tz : Z.
Variable uid : string.
Variable mileage : JS.number.
Variable currentDate : string.

Let save := Services.save_service tz uid mileage currentDate.
Let holds := holds uid mileage currentDate.

Lemma save_frame serviceType st r st' :
  save serviceType st = (r, st') ->
  same_form st st'
  /\ (table_ok st -> table_ok st')
  /\ (forall e, r = Eff.Throw e ->
                Services.service_records st' = Services.service_records st)
  /\ exists extra,
       Services.requests st' = (Services.requests st ++ extra)%list
       /\ Forall (fun q => about q = Some serviceType) extra.
Proof.
  intros E. apply save_service_cases in E.
  destruct E as [(e & -> & ->)|(n & _ & Hit)].
  - split; [apply same_form_refl|]. split; [auto|]. split; [reflexivity|].
    exists []. rewrite app_nil_r. split; [reflexivity|constructor].
  - split; [exact (iteration_frame _ _ _ _ _ Hit)|].
    split; [exact (iteration_table_ok _ _ _ _ _ Hit)|].
    split; [exact (iteration_throw _ _ _ _ _ Hit)|].
    exact (iteration_requests _ _ _ _ _ Hit).
Qed.

Lemma save_holds serviceType st st' :
  save serviceType st = (Eff.Normal tt, st') ->
  holds serviceType (Services.service_records st').
Proof.
  intros E. apply save_service_cases in E.
  destruct E as [(e & E & _)|(n & _ & Hit)]; [discriminate E|].
  destruct (iteration_saves _ _ _ _ _ Hit eq_refl) as (r & Hr & H1 & H2 & H3 & H4).
  exists r. repeat split; assumption.
Qed.

Lemma save_keeps serviceType st r st' other :
  save serviceType st = (r, st') ->
  table_ok st ->
  holds other (Services.service_records st) ->
  holds other (Services.service_records st').
Proof.
  intros E Hok (row & Hrow & H1 & H2 & H3 & H4). apply save_service_cases in E.
  destruct E as [(e & _ & ->)|(n & _ & Hit)].
  - exists row. repeat split; assumption.
  - destruct (iteration_keeps_saved _ _ _ _ _ Hit row eq_refl Hok Hrow H1 H3 H4)
      as (r' & Hr' & K1 & K2 & K3 & K4).
    exists r'. repeat split; congruence.
Qed.

(** A loop that completes has left a row for each of its services. *)
Lemma loop_completes l st st' :
  Eff.for_of l save st = (Eff.Normal tt, st') ->
  table_ok st ->
  table_ok st'
  /\ same_form st st'
  /\ (forall t, holds t (Services.service_records st) ->
                holds t (Services.service_records st'))
  /\ (forall t, In t l -> holds t (Services.service_records st')).
Proof.
  revert st. induction l as [|x l IH]; intros st; cbn [Eff.for_of].
  - intros E Hok. apply pair_equal_spec in E. destruct E as [_ <-].
    split; [exact Hok|]. split; [apply same_form_refl|].
    split; [auto|intros t []].
  - unfold Eff.bind. destruct (save x st) as [[[]|e] s1] eqn:Ex;
      [|intros E; discriminate E].
    intros E Hok.
    pose proof (save_frame _ _ _ _ Ex) as (F & T & _).
    destruct (IH s1 E (T Hok)) as (T' & F' & K & H).
    split; [exact T'|]. split; [eapply same_form_trans; eassumption|].
    split.
    + intros t Ht. apply K. eapply save_keeps; eassumption.
    + intros t [<-|Ht]; [|apply H; exact Ht].
      apply K. eapply save_holds. exact Ex.
Qed.

End Loop.

(** ** A submission that fails part of the way *)

(** C10.  Saving the selection [before ++ failed :: after]: when the
    iterations for [before] complete and the iteration for [failed] throws
    (its update or insert request fails), [handleSave] completes with the
    table as the iterations for [before] left it, holding a row with the
    date and odometer reading of this submission for each service of
    [before]; the requests sent after theirs are all about [failed], so none
    is sent for [after]; exactly one notification has been shown, the error
    one; the odometer field and the selection are as they were, and the
    loading flag is down. *)
Theorem handleSave_not_atomic
        (tz : Z) (uid : string) (now : Z) (st : Services.state)
        (before : list string) (failed : string) (after : list string)
        (e : string) (st1 st2 : Services.state) :
  let mileage := JS.parseFloat (Services.currentMileage st) in
  let currentDate := Date.split_0 "T" (Date.toISOString now) in
  let save := Services.save_service tz uid mileage currentDate in
  JS.truthy (Services.currentMileage st) = true ->
  Services.selectedServices st = (before ++ failed :: after)%list ->
  table_ok st ->
  Eff.for_of before save (Services.setLoading true st) = (Eff.Normal tt, st1) ->
  save failed st1 = (Eff.Throw e, st2) ->
  exists final,
    Services.handleSave tz (Some uid) now st = (Eff.Normal tt, final)
    /\ Services.service_records final = Services.service_records st1
    /\ (forall t, In t before ->
                  holds uid mileage currentDate t
                        (Services.service_records final))
    /\ (exists extra,
          Services.requests final = (Services.requests st1 ++ extra)%list
          /\ Forall (fun q => about q = Some failed) extra)
    /\ Services.shown final
       = (Services.shown st
          ++ [{| type := "error";
                 message := "No se pudieron guardar los servicios" |}])%list
    /\ Services.currentMileage final = Services.currentMileage st
    /\ Services.selectedServices final = Services.selectedServices st
    /\ Services.loading final = false.
Proof.
  intros mileage currentDate save Hmileage Hsel Hok Hloop Hfail.
  exists (Services.setLoading false
            (Services.showNotification "error"
               "No se pudieron guardar los servicios" st2)).
  assert (table_ok (Services.setLoading true st)) as Hok' by exact Hok.
  destruct (loop_completes _ _ _ _ _ _ _ Hloop Hok') as (T1 & F1 & _ & H1).
  destruct (save_frame _ _ _ _ _ _ _ _ Hfail) as (F2 & _ & R2 & Q2).
  split; [|split; [|split; [|split; [|split; [|split; [|split]]]]]].
  - unfold Services.handleSave, Eff.bind at 1, Eff.get. cbv beta iota.
    rewrite Hmileage, Hsel.
    replace (Nat.eqb (List.length (before ++ failed :: after)) 0) with false
      by (rewrite length_app, Nat.add_comm; reflexivity).
    cbv beta iota delta [andb negb].
    unfold Eff.bind at 1, Eff.modify at 1, Eff.finally. cbv beta iota.
    unfold Eff.try_catch, Eff.bind at 1.
    fold mileage currentDate save.
    rewrite for_of_app, Hloop. cbn [Eff.for_of]. unfold Eff.bind at 1.
    rewrite Hfail. reflexivity.
  - cbn [Services.service_records Services.setLoading Services.showNotification].
    apply (R2 e eq_refl).
  - intros t Ht.
    cbn [Services.service_records Services.setLoading Services.showNotification].
    rewrite (R2 e eq_refl). apply H1. exact Ht.
  - exact Q2.
  - cbn [Services.shown Services.setLoading Services.showNotification].
    destruct F1 as (_ & _ & _ & _ & S1). destruct F2 as (_ & _ & _ & _ & S2).
    rewrite S2, S1. reflexivity.
  - cbn [Services.currentMileage Services.setLoading Services.showNotification].
    destruct F1 as (S1 & _). destruct F2 as (S2 & _). rewrite S2, S1.
    reflexivity.
  - cbn [Services.selectedServices Services.setLoading Services.showNotification].
    destruct F1 as (_ & S1 & _). destruct F2 as (_ & S2 & _). rewrite S2, S1.
    reflexivity.
  - reflexivity.
Qed.

(** The theorem at that submission: the inspection stays saved, the oil
    change fails, nothing is sent for the brakes. *)
Lemma handleSave_not_atomic_witness :
  exists final,
    Services.handleSave utc_minus_3 (Some "driver-1") 1762124645123
                        three_services = (Eff.Normal tt, final)
    /\ Services.service_records final = Services.service_records after_first
    /\ (forall t, In t ["vtv"] ->
                  holds "driver-1" (JS.parseFloat "50000")
                        (Date.split_0 "T" (Date.toISOString 1762124645123)) t
                        (Services.service_records final))
    /\ (exists extra,
          Services.requests final = (Services.requests after_first ++ extra)%list
          /\ Forall (fun q => about q = Some "oil_change") extra)
    /\ Services.shown final
       = [{| type := "error";
             message := "No se pudieron guardar los servicios" |}]
    /\ Services.currentMileage final = "50000"
    /\ Services.selectedServices final = ["vtv"; "oil_change"; "brakes"]
    /\ Services.loading final = false.
Proof.
  apply (handleSave_not_atomic utc_minus_3 "driver-1" 1762124645123
           three_services ["vtv"] "oil_change" ["brakes"] "insert failed"
           after_first
           (snd (Services.save_service utc_minus_3 "driver-1" 50000%float
                   "2025-11-02" "oil_change" after_first))).
  - reflexivity.
  - reflexivity.
  - split; [constructor|constructor].
  - vm_compute. reflexivity.
  - vm_compute. reflexivity.
Defined.

(** ** Submissions whose lookups succeed *)

Lemma lookups_succeed_outcome st :
  lookups_succeed (Services.schedule st) -> Services.outcome st = true.
Proof.
  unfold Services.outcome. destruct (Services.schedule st); cbn; tauto.
Qed.

Lemma lookups_succeed_next outcomes :
  lookups_succeed outcomes -> lookups_succeed (tl (tl outcomes)).
Proof.
  destruct outcomes as [|a [|b later]]; cbn; tauto.
Qed.

Lemma iteration_schedule uid d st res st' :
  iteration uid d st res st' ->
  Services.schedule st' = tl (tl (Services.schedule st)).
Proof. destruct 1; reflexivity. Qed.

Section LoopInvariant.

Variable tz : Z.
Variable uid : string.
Variable mileage : JS.number.
Variable currentDate : string.

Let save := Services.save_service tz uid mileage currentDate.

Lemma loop_one_record l st r st' :
  Eff.for_of l save st = (r, st') ->
  table_ok st ->
  lookups_succeed (Services.schedule st) ->
  one_record_per_type (Services.service_records st) ->
  table_ok st' /\ one_record_per_type (Services.service_records st').
Proof.
  revert st. induction l as [|x l IH]; intros st; cbn [Eff.for_of].
  - intros E. apply pair_equal_spec in E. destruct E as [_ <-]. auto.
  - unfold Eff.bind. destruct (save x st) as [res s1] eqn:Ex.
    intros E Hok Hl H.
    assert (table_ok s1 /\ one_record_per_type (Services.service_records s1)
            /\ (res = Eff.Normal tt -> lookups_succeed (Services.schedule s1)))
      as (T1 & H1 & L1).
    { apply save_service_cases in Ex.
      destruct Ex as [(e & -> & ->)|(n & _ & Hit)].
      - split; [exact Hok|]. split; [exact H|]. intros K; discriminate K.
      - split; [exact (iteration_table_ok _ _ _ _ _ Hit Hok)|]. split.
        + apply (iteration_one_record _ _ _ _ _ Hit eq_refl Hok); auto.
          apply lookups_succeed_outcome. exact Hl.
        + intros _. rewrite (iteration_schedule _ _ _ _ _ Hit).
          apply lookups_succeed_next. exact Hl. }
    destruct res as [[]|e].
    + apply (IH s1 E T1 (L1 eq_refl) H1).
    + apply pair_equal_spec in E. destruct E as [_ <-]. auto.
Qed.

End LoopInvariant.

(** [loadUpcomingServices] reads the table and does not write it. *)
Lemma loadUpcomingServices_table user st :
  let '(_, st') := Services.loadUpcomingServices user st in
  Services.service_records st' = Services.service_records st
  /\ Services.next_id st' = Services.next_id st.
Proof.
  unfold Services.loadUpcomingServices. destruct user as [uid|];
    [|split; reflexivity].
  unfold Eff.try_catch, Eff.bind, Services.send, Eff.get, Eff.modify, Eff.throw.
  destruct (Services.outcome st); split; reflexivity.
Qed.

(** X1.  When the lookups succeed, a submission keeps at most one row for every
    user and service type, whatever happens to its updates and inserts. *)
Theorem handleSave_one_record
        (tz : Z) (user : option string) (now : Z) (st : Services.state) :
  table_ok st ->
  lookups_succeed (Services.schedule st) ->
  one_record_per_type (Services.service_records st) ->
  let '(_, st') := Services.handleSave tz user now st in
  table_ok st' /\ one_record_per_type (Services.service_records st').
Proof.
  intros Hok Hl H.
  unfold Services.handleSave, Eff.bind at 1, Eff.get. cbv beta iota.
  destruct user as [uid|]; [|split; assumption].
  destruct (JS.truthy _ && negb _); [|split; assumption].
  unfold Eff.bind at 1, Eff.modify at 1, Eff.finally, Eff.try_catch.
  cbv beta iota. unfold Eff.bind at 1.
  destruct (Eff.for_of _ _ _) as [res s1] eqn:Eloop.
  apply loop_one_record in Eloop; [|exact Hok|exact Hl|exact H].
  destruct Eloop as [T1 H1].
  destruct res as [[]|e].
  - unfold Eff.bind, Eff.modify. cbv beta iota.
    pose proof (loadUpcomingServices_table (Some uid)
                  (Services.setSelectedServices []
                     (Services.setCurrentMileage ""
                        (Services.showNotification "success"
                           "Servicios registrados correctamente" s1)))) as L.
    destruct (Services.loadUpcomingServices _ _) as [[[]|e] s2];
      destruct L as [L1 L2];
      unfold table_ok;
      cbn [Services.service_records Services.next_id Services.setLoading
           Services.showNotification];
      rewrite L1, L2; split; assumption.
  - split; assumption.
Qed.

(** The theorem at a submission of two services, one of which has a row. *)
Lemma handleSave_one_record_witness :
  let '(_, st') :=
    Services.handleSave utc_minus_3 (Some "driver-1") 1762124645123
      (services_form "61000" ["oil_change"; "brakes"] one_oil_change 2 []) in
  table_ok st' /\ one_record_per_type (Services.service_records st').
Proof.
  apply (handleSave_one_record utc_minus_3 (Some "driver-1") 1762124645123
           (services_form "61000" ["oil_change"; "brakes"] one_oil_change 2 [])).
  - split.
    + repeat constructor. intros [].
    + repeat constructor.
  - exact I.
  - intros user serviceType. unfold records_of.
    cbn [filter Services.service_records services_form one_oil_change].
    destruct (Services.matches _ _ _); cbn; lia.
Defined.

(** ** The outputs stored in the table *)

Lemma follows_rule_one_output r :
  follows_rule r ->
  Services.next_service_date r = None \/ Services.next_service_mileage r = None.
Proof.
  unfold follows_rule. destruct (service_of _) as [service|]; [|tauto].
  destruct (Services.rule service); tauto.
Qed.

Lemma calculateNextService_rule tz serviceType mileage serviceDate n :
  Services.calculateNextService tz serviceType mileage serviceDate
  = Eff.Normal n ->
  output_of_rule serviceType n.
Proof.
  unfold Services.calculateNextService, output_of_rule, service_of.
  destruct (find _ _) as [service|].
  - destruct (Services.rule service).
    + generalize (Date.parse serviceDate). intros [t|] E; [|discriminate E].
      apply Normal_inj in E. subst n. reflexivity.
    + intros E. apply Normal_inj in E. subst n. reflexivity.
  - intros E. apply Normal_inj in E. subst n. reflexivity.
Qed.

(** A row rewritten with the output of its own type still follows the
    rule. *)
Lemma write_follows_rule d r :
  Services.service_type_ r = Services.data_service_type d ->
  output_of_rule (Services.data_service_type d) (Services.data_next d) ->
  follows_rule r ->
  follows_rule (Services.write d r).
Proof.
  unfold follows_rule, output_of_rule.
  cbn [Services.write Services.service_type_ Services.next_service_date
       Services.next_service_mileage].
  intros ->. destruct (service_of _) as [service|].
  - destruct (Services.rule service); intros -> H; exact H.
  - intros -> H. exact H.
Qed.

Lemma iteration_follows_rule uid d st res st' :
  iteration uid d st res st' ->
  table_ok st ->
  output_of_rule (Services.data_service_type d) (Services.data_next d) ->
  Forall follows_rule (Services.service_records st) ->
  Forall follows_rule (Services.service_records st').
Proof.
  intros Hit [N _] Hn H.
  destruct Hit as [existing l Hok Hf st1 Hok2| | |];
    cbn [Services.service_records Services.set_table Services.sent];
    try exact H.
  - unfold updated. rewrite Forall_map. rewrite Forall_forall in *.
    intros r Hr. destruct (Services.id r =? existing) eqn:Eid; [|auto].
    apply Z.eqb_eq in Eid.
    destruct (lookup_finds _ _ _ _ _ Hf) as (r0 & Hr0 & Hid & Hm).
    assert (r = r0) by (apply (same_id_same_row _ _ _ N); congruence).
    subst r0. apply matches_spec in Hm. destruct Hm as [_ Hm].
    apply write_follows_rule; auto.
  - unfold inserted. apply Forall_app. split; [exact H|].
    repeat constructor. revert Hn. unfold follows_rule, output_of_rule.
    cbn [Services.service_type_ Services.next_service_date
         Services.next_service_mileage].
    destruct (service_of _) as [service|].
    + destruct (Services.rule service); auto.
    + intros ->. left. reflexivity.
Qed.

Lemma loop_follows_rule tz uid mileage currentDate l st r st' :
  Eff.for_of l (Services.save_service tz uid mileage currentDate) st = (r, st') ->
  table_ok st ->
  Forall follows_rule (Services.service_records st) ->
  table_ok st' /\ Forall follows_rule (Services.service_records st').
Proof.
  revert st. induction l as [|x l IH]; intros st; cbn [Eff.for_of].
  - intros E. apply pair_equal_spec in E. destruct E as [_ <-]. auto.
  - unfold Eff.bind.
    destruct (Services.save_service tz uid mileage currentDate x st)
      as [res s1] eqn:Ex.
    intros E Hok H.
    assert (table_ok s1 /\ Forall follows_rule (Services.service_records s1))
      as [T1 H1].
    { apply save_service_cases in Ex.
      destruct Ex as [(e & -> & ->)|(n & Hn & Hit)]; [auto|].
      split; [exact (iteration_table_ok _ _ _ _ _ Hit Hok)|].
      apply (iteration_follows_rule _ _ _ _ _ Hit Hok); [|exact H].
      apply calculateNextService_rule in Hn. exact Hn. }
    destruct res as [[]|e].
    + apply (IH s1 E T1 H1).
    + apply pair_equal_spec in E. destruct E as [_ <-]. auto.
Qed.

(** X6.  Whatever the outcomes of its requests, a submission leaves every
    row with no other output than the one of the rule of its type: a next
    date and no next mileage for a [years] rule, a next mileage and no next
    date for a [km] rule; so no row holds both. *)
Theorem handleSave_follows_rule
        (tz : Z) (user : option string) (now : Z) (st : Services.state) :
  table_ok st ->
  Forall follows_rule (Services.service_records st) ->
  let '(_, st') := Services.handleSave tz user now st in
  Forall follows_rule (Services.service_records st')
  /\ forall r, In r (Services.service_records st') ->
               Services.next_service_date r = None
               \/ Services.next_service_mileage r = None.
Proof.
  intros Hok H.
  assert (let '(_, st') := Services.handleSave tz user now st in
          Forall follows_rule (Services.service_records st')) as K.
  { unfold Services.handleSave, Eff.bind at 1, Eff.get. cbv beta iota.
    destruct user as [uid|]; [|exact H].
    destruct (JS.truthy _ && negb _); [|exact H].
    unfold Eff.bind at 1, Eff.modify at 1, Eff.finally, Eff.try_catch.
    cbv beta iota. unfold Eff.bind at 1.
    destruct (Eff.for_of _ _ _) as [res s1] eqn:Eloop.
    apply loop_follows_rule in Eloop; [|exact Hok|exact H].
    destruct Eloop as [T1 H1].
    destruct res as [[]|e]; [|exact H1].
    unfold Eff.bind, Eff.modify. cbv beta iota.
    pose proof (loadUpcomingServices_table (Some uid)
                  (Services.setSelectedServices []
                     (Services.setCurrentMileage ""
                        (Services.showNotification "success"
                           "Servicios registrados correctamente" s1)))) as L.
    destruct (Services.loadUpcomingServices _ _) as [[[]|e] s2];
      destruct L as [L1 _];
      cbn [Services.service_records Services.setLoading
           Services.showNotification];
      rewrite L1; exact H1. }
  destruct (Services.handleSave tz user now st) as [res st'].
  split; [exact K|].
  intros r Hr. apply follows_rule_one_output.
  rewrite Forall_forall in K. apply K. exact Hr.
Qed.

(** The theorem at the submission of three services whose fourth request
    fails. *)
Lemma handleSave_follows_rule_witness :
  let '(_, st') :=
    Services.handleSave utc_minus_3 (Some "driver-1") 1762124645123
                        three_services in
  Forall follows_rule (Services.service_records st')
  /\ forall r, In r (Services.service_records st') ->
               Services.next_service_date r = None
               \/ Services.next_service_mileage r = None.
Proof.
  apply (handleSave_follows_rule utc_minus_3 (Some "driver-1") 1762124645123
           three_services).
  - split; constructor.
  - constructor.
Defined.

(** ** The selection and the deletion of services *)

(** Toggling services keeps the selection free of repetitions, so the loop
    of [handleSave] meets every service type at most once. *)
Lemma toggleService_NoDup serviceKey st :
  NoDup (Services.selectedServices st) ->
  NoDup (Services.selectedServices (Services.toggleService serviceKey st)).
Proof.
  intros H. unfold Services.toggleService.
  cbn [Services.selectedServices Services.setSelectedServices].
  destruct (existsb _ _) eqn:E.
  - apply NoDup_filter. exact H.
  - apply NoDup_app; [exact H|repeat constructor; intros []|].
    intros x Hx [Ex|[]]. subst x.
    assert (existsb (String.eqb serviceKey) (Services.selectedServices st)
            = true) as K.
    { apply existsb_exists. exists serviceKey.
      split; [exact Hx|apply String.eqb_refl]. }
    congruence.
Qed.

(** Deleting a service keeps at most one row for every user and type. *)
Lemma deleteService_one_record user confirmed serviceId st :
  one_record_per_type (Services.service_records st) ->
  one_record_per_type
    (Services.service_records
       (snd (Services.deleteService user confirmed serviceId st))).
Proof.
  intros H. unfold Services.deleteService.
  destruct confirmed; [|exact H].
  unfold Eff.try_catch, Eff.bind at 1, Services.send. cbv beta iota.
  destruct (Services.outcome st); [|exact H].
  unfold Eff.bind, Eff.modify. cbv beta iota.
  pose proof (loadUpcomingServices_table user
                (Services.showNotification "success"
                   "Servicio eliminado correctamente"
                   (Services.set_table
                      (filter (fun r => negb (Services.id r =? serviceId))
                              (Services.service_records
                                 (Services.sent (Services.Delete serviceId) st)))
                      (Services.next_id
                         (Services.sent (Services.Delete serviceId) st))
                      (Services.sent (Services.Delete serviceId) st)))) as L.
  destruct (Services.loadUpcomingServices _ _) as [[[]|e] s2];
    destruct L as [L _]; cbn [snd Services.service_records
                                Services.showNotification] in *;
    rewrite ?L;
    cbn [Services.service_records Services.set_table Services.sent
         Services.showNotification];
    intros u t; specialize (H u t); unfold records_of in *.
  all: try (etransitivity; [|exact H]).
  all: try (clear; induction (Services.service_records st) as [|r l IH];
            cbn [filter]; [lia|];
            destruct (negb (Services.id r =? serviceId)); cbn [filter];
            destruct (Services.matches u t r); cbn [List.length]; lia).
Qed.

(** ** The handlers of the services screen, step by step *)

Lemma loadUpcomingServices_eq user st :
  Services.loadUpcomingServices user st = (Eff.Normal tt, reloaded user st).
Proof.
  destruct user as [uid|]; [|reflexivity].
  unfold Services.loadUpcomingServices, Eff.try_catch, Eff.bind, Services.send,
    Eff.get, Eff.modify, Eff.throw, reloaded, loaded.
  destruct (Services.outcome st); reflexivity.
Qed.

Lemma handleSave_invalid tz user now st :
  nothing_to_save user st ->
  Services.handleSave tz user now st
  = (Eff.Normal tt,
     Services.showNotification "error"
       "Por favor completa el kilometraje y selecciona al menos un servicio"
       st).
Proof.
  unfold Services.handleSave, Eff.bind at 1, Eff.get. cbv beta iota.
  intros [->|[H|H]]; [reflexivity| |]; destruct user as [uid|];
    try reflexivity; rewrite H; [reflexivity|].
  rewrite andb_false_r. reflexivity.
Qed.

Lemma handleSave_valid tz uid now st :
  ~ nothing_to_save (Some uid) st ->
  Services.handleSave tz (Some uid) now st
  = (Eff.Normal tt,
     match Eff.for_of (Services.selectedServices st)
             (Services.save_service tz uid
                (JS.parseFloat (Services.currentMileage st))
                (Date.split_0 "T" (Date.toISOString now)))
             (Services.setLoading true st) with
     | (Eff.Normal _, s1) =>
         Services.setLoading false
           (loaded uid
              (Services.setSelectedServices []
                 (Services.setCurrentMileage ""
                    (Services.showNotification "success"
                       "Servicios registrados correctamente" s1))))
     | (Eff.Throw _, s1) =>
         Services.setLoading false
           (Services.showNotification "error"
              "No se pudieron guardar los servicios" s1)
     end).
Proof.
  unfold nothing_to_save. intros H.
  assert (JS.truthy (Services.currentMileage st)
          && negb (Nat.eqb (List.length (Services.selectedServices st)) 0)
          = true) as K.
  { destruct (Services.currentMileage st); [tauto|].
    destruct (Services.selectedServices st); [tauto|reflexivity]. }
  unfold Services.handleSave, Eff.bind at 1, Eff.get. cbv beta iota.
  rewrite K.
  unfold Eff.bind at 1, Eff.modify at 1, Eff.finally, Eff.try_catch.
  cbv beta iota. unfold Eff.bind at 1.
  destruct (Eff.for_of _ _ _) as [[[]|e] s1]; [|reflexivity].
  unfold Eff.bind, Eff.modify. cbv beta iota.
  rewrite loadUpcomingServices_eq. reflexivity.
Qed.

Lemma deleteService_eq user serviceId st :
  Services.deleteService user true serviceId st
  = (Eff.Normal tt,
     if Services.outcome st
     then
       reloaded user
         (Services.showNotification "success"
            "Servicio eliminado correctamente"
            (Services.set_table
               (filter (fun r => negb (Services.id r =? serviceId))
                       (Services.service_records st))
               (Services.next_id st)
               (Services.sent (Services.Delete serviceId) st)))
     else Services.showNotification "error" "No se pudo eliminar el servicio"
            (Services.sent (Services.Delete serviceId) st)).
Proof.
  unfold Services.deleteService, Eff.try_catch, Eff.bind at 1, Services.send.
  cbv beta iota.
  destruct (Services.outcome st); [|reflexivity].
  unfold Eff.bind, Eff.modify. cbv beta iota.
  rewrite loadUpcomingServices_eq. reflexivity.
Qed.

(** ** A submission whose requests all succeed *)

Lemma all_succeed_outcome st :
  all_succeed (Services.schedule st) -> Services.outcome st = true.
Proof.
  unfold all_succeed, Services.outcome.
  destruct (Services.schedule st); [reflexivity|]. intros H.
  apply Forall_inv in H. exact H.
Qed.

Lemma all_succeed_tl outcomes : all_succeed outcomes -> all_succeed (tl outcomes).
Proof.
  unfold all_succeed. destruct outcomes; [auto|]. apply Forall_inv_tail.
Qed.

Lemma iteration_sends uid d st res st' :
  iteration uid d st res st' ->
  List.length (Services.requests st')
  = (List.length (Services.requests st) + 2)%nat
  /\ (all_succeed (Services.schedule st) -> res = Eff.Normal tt).
Proof.
  intros Hit. split.
  - destruct Hit; subst st1;
      cbn [Services.requests Services.set_table Services.sent];
      rewrite !length_app; cbn [List.length]; lia.
  - intros H.
    assert (Services.outcome
              (Services.sent
                 (Services.SelectId uid (Services.data_service_type d)) st)
            = true) as K.
    { apply all_succeed_outcome. cbn [Services.schedule Services.sent].
      apply all_succeed_tl. exact H. }
    destruct Hit; subst st1; try reflexivity; congruence.
Qed.

Section LoopSucceeds.

Variable tz : Z.
Variable uid : string.
Variable mileage : JS.number.
Variable currentDate : string.
Hypothesis Hdate : Date.parse currentDate <> None.

Let save := Services.save_service tz uid mileage currentDate.

(** With a service date that is a date, [calculateNextService] returns. *)
Lemma calculateNextService_returns serviceType :
  exists n,
    Services.calculateNextService tz serviceType mileage currentDate
    = Eff.Normal n.
Proof.
  unfold Services.calculateNextService.
  destruct (find _ _) as [service|]; [|eexists; reflexivity].
  destruct (Services.rule service); [|eexists; reflexivity].
  revert Hdate. generalize (Date.parse currentDate).
  intros [t|] H; [eexists; reflexivity|congruence].
Qed.

(** So an iteration always gets to its requests. *)
Lemma save_service_iteration serviceType st r st' :
  save serviceType st = (r, st') ->
  exists n,
    iteration uid (serviceData uid mileage currentDate serviceType n) st r st'.
Proof.
  destruct (calculateNextService_returns serviceType) as [n Hn].
  intros E. exists n. revert E.
  unfold save, Services.save_service, Eff.bind, Eff.lift.
  rewrite Hn, select_id_eq.
  fold (serviceData uid mileage currentDate serviceType n).
  destruct (Services.outcome st) eqn:Eo.
  - destruct (firstn 1 _) as [|existing l] eqn:Ef.
    + rewrite insert_eq.
      destruct (Services.outcome (Services.sent _ st)) eqn:Eo2;
        unfold Eff.throw, Eff.ret;
        intros E; apply pair_equal_spec in E; destruct E as [<- <-];
        cbn [Services.sent Services.next_id Services.service_records].
      * apply it_inserted; [|exact Eo2].
        intros _. apply firstn_1_nil in Ef.
        destruct (filter _ _); [reflexivity|discriminate].
      * apply it_insert_failed; [|exact Eo2].
        intros _. apply firstn_1_nil in Ef.
        destruct (filter _ _); [reflexivity|discriminate].
    + rewrite update_eq.
      destruct (Services.outcome (Services.sent _ st)) eqn:Eo2;
        unfold Eff.throw, Eff.ret;
        intros E; apply pair_equal_spec in E; destruct E as [<- <-];
        cbn [Services.sent Services.next_id Services.service_records].
      * eapply it_updated; eassumption.
      * eapply it_update_failed; eassumption.
  - rewrite insert_eq.
    destruct (Services.outcome (Services.sent _ st)) eqn:Eo2;
      unfold Eff.throw, Eff.ret;
      intros E; apply pair_equal_spec in E; destruct E as [<- <-];
      cbn [Services.sent Services.next_id Services.service_records].
    * apply it_inserted; [|exact Eo2]. intros K; rewrite Eo in K; discriminate K.
    * apply it_insert_failed; [|exact Eo2]. intros K; rewrite Eo in K; discriminate K.
Qed.

Lemma save_sends serviceType st r st' :
  save serviceType st = (r, st') ->
  List.length (Services.requests st')
  = (List.length (Services.requests st) + 2)%nat
  /\ Services.schedule st' = tl (tl (Services.schedule st))
  /\ (all_succeed (Services.schedule st) -> r = Eff.Normal tt).
Proof.
  intros E. apply save_service_iteration in E. destruct E as [n Hit].
  destruct (iteration_sends _ _ _ _ _ Hit) as [L S].
  split; [exact L|]. split; [exact (iteration_schedule _ _ _ _ _ Hit)|exact S].
Qed.

(** A loop sends two requests for every service it gets to. *)
Lemma loop_sends l st r st' :
  Eff.for_of l save st = (r, st') ->
  (List.length (Services.requests st) <= List.length (Services.requests st'))%nat
  /\ (l <> [] ->
      (List.length (Services.requests st) + 2
       <= List.length (Services.requests st'))%nat).
Proof.
  revert st. induction l as [|x l IH]; intros st; cbn [Eff.for_of].
  - intros E. apply pair_equal_spec in E. destruct E as [_ <-].
    split; [lia|congruence].
  - unfold Eff.bind. destruct (save x st) as [res s1] eqn:Ex.
    destruct (save_sends _ _ _ _ Ex) as (L & _ & _).
    destruct res as [[]|e]; intros E.
    + destruct (IH s1 E) as [K _]. split; intros; lia.
    + apply pair_equal_spec in E. destruct E as [_ <-]. split; intros; lia.
Qed.

(** When every request succeeds the loop completes. *)
Lemma loop_succeeds l st :
  all_succeed (Services.schedule st) ->
  exists st',
    Eff.for_of l save st = (Eff.Normal tt, st')
    /\ all_succeed (Services.schedule st')
    /\ List.length (Services.requests st')
       = (List.length (Services.requests st) + 2 * List.length l)%nat.
Proof.
  revert st. induction l as [|x l IH]; intros st H; cbn [Eff.for_of].
  - exists st. split; [reflexivity|]. split; [exact H|cbn; lia].
  - unfold Eff.bind. destruct (save x st) as [res s1] eqn:Ex.
    destruct (save_sends _ _ _ _ Ex) as (L & S & N).
    rewrite (N H).
    assert (all_succeed (Services.schedule s1)) as H1.
    { rewrite S. apply all_succeed_tl, all_succeed_tl. exact H. }
    destruct (IH s1 H1) as (st' & E & H' & L').
    exists st'. split; [exact E|]. split; [exact H'|].
    rewrite L', L. cbn [List.length]. lia.
Qed.

End LoopSucceeds.

Lemma nothing_to_save_dec user st :
  nothing_to_save user st \/ ~ nothing_to_save user st.
Proof.
  unfold nothing_to_save. destruct user as [uid|]; [|tauto].
  destruct (Services.currentMileage st); [tauto|].
  destruct (Services.selectedServices st); [tauto|].
  right. intros [H|[H|H]]; discriminate H.
Qed.

Lemma own_rows_In uid rows r :
  In r (own_rows uid rows) <-> In r rows /\ Services.user_id r = uid.
Proof.
  unfold own_rows. rewrite <- in_rev, filter_In, String.eqb_eq. tauto.
Qed.

Lemma holds_own_rows uid mileage currentDate t rows :
  holds uid mileage currentDate t rows ->
  holds uid mileage currentDate t (own_rows uid rows).
Proof.
  intros (r & Hr & H1 & H2). exists r. split; [|auto].
  apply own_rows_In. auto.
Qed.

(** X12.  A submission at a moment of the years 0 to 9999, with a user
    signed in, an odometer reading and a selection, on a table whose ids
    are distinct and below the next id, all of whose requests succeed:
    [handleSave] completes; the table and the list on the screen hold, for
    every selected service, a row of the user with today's date (the UTC
    date) and the reading; the list on the screen is the user's rows of the
    table; the odometer field and the selection are cleared, the loading
    flag is down, the success is shown; two requests have been sent for
    every selected service and one for the list. *)
Theorem handleSave_all_succeed
        (tz : Z) (uid : string) (now : Z) (st : Services.state) :
  ~ nothing_to_save (Some uid) st ->
  table_ok st ->
  all_succeed (Services.schedule st) ->
  0 <= Date.YearFromTime now <= 9999 ->
  let mileage := JS.parseFloat (Services.currentMileage st) in
  let currentDate := date_of_day (Date.Day now) in
  exists final,
    Services.handleSave tz (Some uid) now st = (Eff.Normal tt, final)
    /\ (forall t, In t (Services.selectedServices st) ->
          holds uid mileage currentDate t (Services.service_records final)
          /\ holds uid mileage currentDate t (Services.upcomingServices final))
    /\ Services.upcomingServices final
       = own_rows uid (Services.service_records final)
    /\ Services.currentMileage final = ""
    /\ Services.selectedServices final = []
    /\ Services.loading final = false
    /\ Services.shown final
       = (Services.shown st
          ++ [{| type := "success";
                 message := "Servicios registrados correctamente" |}])%list
    /\ List.length (Services.requests final)
       = (List.length (Services.requests st)
          + 2 * List.length (Services.selectedServices st) + 1)%nat.
Proof.
  intros Hvalid Hok Hall Hyear mileage currentDate.
  rewrite (handleSave_valid tz uid now st Hvalid).
  rewrite toISOString_date_of_day. fold mileage currentDate.
  assert (Date.parse currentDate <> None) as Hdate.
  { unfold currentDate. rewrite <- toISOString_date_of_day.
    rewrite (parse_toISOString now Hyear). discriminate. }
  destruct (loop_succeeds tz uid mileage currentDate Hdate
              (Services.selectedServices st) (Services.setLoading true st) Hall)
    as (s1 & Eloop & Hall1 & Hlen).
  rewrite Eloop.
  destruct (loop_completes tz uid mileage currentDate _ _ _ Eloop Hok)
    as (_ & (F1 & F2 & F3 & F4 & F5) & _ & Hholds).
  eexists. split; [reflexivity|].
  unfold loaded.
  change (Services.outcome
            (Services.setSelectedServices []
               (Services.setCurrentMileage ""
                  (Services.showNotification "success"
                     "Servicios registrados correctamente" s1))))
    with (Services.outcome s1).
  rewrite (all_succeed_outcome s1 Hall1).
  cbn [Services.service_records Services.upcomingServices
       Services.currentMileage Services.selectedServices Services.loading
       Services.shown Services.requests Services.setLoading
       Services.setUpcomingServices Services.sent Services.setSelectedServices
       Services.setCurrentMileage Services.showNotification].
  split.
  { intros t Ht. specialize (Hholds t Ht). split; [exact Hholds|].
    apply holds_own_rows. exact Hholds. }
  split; [reflexivity|]. split; [reflexivity|]. split; [reflexivity|].
  split; [reflexivity|]. split.
  - rewrite F5. reflexivity.
  - rewrite length_app, Hlen. cbn [List.length Services.requests
                                   Services.setLoading]. lia.
Qed.

(** The theorem at the submission of an inspection and an oil change by a
    user who has a row for the oil change. *)
Lemma handleSave_all_succeed_witness :
  exists final,
    Services.handleSave utc_minus_3 (Some "driver-1") 1762124645123
      (services_form "61000" ["vtv"; "oil_change"] one_oil_change 2 [])
    = (Eff.Normal tt, final)
    /\ holds "driver-1" 61000%float "2025-11-02" "vtv"
             (Services.upcomingServices final)
    /\ Services.currentMileage final = ""
    /\ List.length (Services.requests final) = 5%nat.
Proof.
  destruct (handleSave_all_succeed utc_minus_3 "driver-1" 1762124645123
              (services_form "61000" ["vtv"; "oil_change"] one_oil_change 2 []))
    as (final & E & H & _ & M & _ & _ & _ & L).
  - intros [H|[H|H]]; discriminate H.
  - split; [repeat constructor; intros []|repeat constructor].
  - constructor.
  - vm_compute. split; discriminate.
  - exists final. split; [exact E|]. split; [|split; [exact M|exact L]].
    apply (H "vtv"). left. reflexivity.
Defined.

(** ** What a submission needs *)

Lemma loop_frame tz uid mileage currentDate l st r st' :
  Eff.for_of l (Services.save_service tz uid mileage currentDate) st = (r, st') ->
  same_form st st'.
Proof.
  revert st. induction l as [|x l IH]; intros st; cbn [Eff.for_of].
  - intros E. apply pair_equal_spec in E. destruct E as [_ <-].
    apply same_form_refl.
  - unfold Eff.bind.
    destruct (Services.save_service tz uid mileage currentDate x st)
      as [res s1] eqn:Ex.
    destruct (save_frame _ _ _ _ _ _ _ _ Ex) as (F & _).
    destruct res as [[]|e]; intros E.
    + eapply same_form_trans; [exact F|]. apply IH. exact E.
    + apply pair_equal_spec in E. destruct E as [_ <-]. exact F.
Qed.

(** X13.  At a moment of the years 0 to 9999, [handleSave] of the services
    screen never throws.  When nobody is signed in, the odometer field is
    blank or no service is selected, all it does is show the error; and it
    is only then that it sends no request to the data store. *)
Theorem services_handleSave_validation
        (tz : Z) (user : option string) (now : Z) (st : Services.state) :
  0 <= Date.YearFromTime now <= 9999 ->
  exists final,
    Services.handleSave tz user now st = (Eff.Normal tt, final)
    /\ (nothing_to_save user st ->
        final
        = Services.showNotification "error"
            "Por favor completa el kilometraje y selecciona al menos un servicio"
            st)
    /\ (Services.requests final = Services.requests st
        <-> nothing_to_save user st).
Proof.
  intros Hyear. destruct (nothing_to_save_dec user st) as [H|H].
  - rewrite (handleSave_invalid tz user now st H). eexists.
    split; [reflexivity|]. split; [reflexivity|]. split; [auto|reflexivity].
  - destruct user as [uid|]; [|exfalso; apply H; left; reflexivity].
    rewrite (handleSave_valid tz uid now st H). eexists.
    split; [reflexivity|]. split; [tauto|]. split; [|tauto].
    intros E. exfalso. apply (f_equal (@List.length _)) in E. revert E.
    assert (Date.parse (Date.split_0 "T" (Date.toISOString now)) <> None)
      as Hdate by (rewrite (parse_toISOString now Hyear); discriminate).
    assert (Services.selectedServices st <> []) as Hsel
        by (intros K; apply H; right; right; exact K).
    destruct (Eff.for_of _ _ _) as [res s1] eqn:Eloop.
    destruct (loop_sends _ _ _ _ Hdate _ _ _ _ Eloop) as [_ L].
    specialize (L Hsel). cbn [Services.requests Services.setLoading] in L.
    destruct res as [[]|e]; unfold loaded;
      try destruct (Services.outcome _);
      cbn [Services.requests Services.setLoading Services.setUpcomingServices
           Services.sent Services.setSelectedServices
           Services.setCurrentMileage Services.showNotification];
      rewrite ?length_app; cbn [List.length]; lia.
Qed.

(** The theorem at a form with a reading and no service selected. *)
Lemma services_handleSave_validation_witness :
  exists final,
    Services.handleSave utc_minus_3 (Some "driver-1") 1762124645123
      (services_form "61000" [] one_oil_change 2 [])
    = (Eff.Normal tt, final)
    /\ Services.requests final = [].
Proof.
  destruct (services_handleSave_validation utc_minus_3 (Some "driver-1")
              1762124645123 (services_form "61000" [] one_oil_change 2 []))
    as (final & E & _ & R).
  - vm_compute. split; discriminate.
  - exists final. split; [exact E|]. apply R. right. right. reflexivity.
Defined.

(** ** Selecting services *)

(** X14.  [toggleService] flips the membership of the service in the
    selection and of no other; a selection without repetitions stays so;
    and toggling twice gives a selection with the same services. *)
Theorem toggleService_flips (serviceKey : string) (st : Services.state) :
  let selected s := In s (Services.selectedServices st) in
  let selected' s :=
    In s (Services.selectedServices (Services.toggleService serviceKey st)) in
  let selected'' s :=
    In s (Services.selectedServices
            (Services.toggleService serviceKey
               (Services.toggleService serviceKey st))) in
  (selected' serviceKey <-> ~ selected serviceKey)
  /\ (forall other, other <> serviceKey -> (selected' other <-> selected other))
  /\ (NoDup (Services.selectedServices st) ->
      NoDup (Services.selectedServices (Services.toggleService serviceKey st)))
  /\ (forall s, selected'' s <-> selected s).
Proof.
  assert (forall k s,
             let sel := Services.selectedServices s in
             let sel' := Services.selectedServices (Services.toggleService k s) in
             (In k sel' <-> ~ In k sel)
             /\ (forall other, other <> k -> (In other sel' <-> In other sel)))
    as Flip.
  { intros k s. unfold Services.toggleService.
    cbn [Services.selectedServices Services.setSelectedServices].
    destruct (existsb _ _) eqn:E.
    - apply existsb_exists in E. destruct E as (x & Hx & Ex).
      apply String.eqb_eq in Ex. subst x.
      split.
      + rewrite filter_In, negb_true_iff, String.eqb_neq. tauto.
      + intros other Hne. rewrite filter_In, negb_true_iff, String.eqb_neq.
        tauto.
    - assert (~ In k (Services.selectedServices s)) as Hn.
      { intros Hx. assert (existsb (String.eqb k) (Services.selectedServices s)
                           = true) as K; [|congruence].
        apply existsb_exists. exists k. split; [exact Hx|apply String.eqb_refl]. }
      split.
      + rewrite in_app_iff. cbn [In]. tauto.
      + intros other Hne. rewrite in_app_iff. cbn [In].
        split; [intros [H|[H|[]]]; [exact H|congruence]|tauto]. }
  cbv zeta.
  destruct (Flip serviceKey st) as [F1 F2].
  destruct (Flip serviceKey (Services.toggleService serviceKey st)) as [G1 G2].
  split; [exact F1|]. split; [exact F2|].
  split; [apply toggleService_NoDup|].
  intros s. destruct (String.eqb_spec s serviceKey) as [->|Hne].
  - rewrite G1, F1.
    destruct (in_dec string_dec serviceKey (Services.selectedServices st));
      tauto.
  - rewrite (G2 s Hne). apply F2. exact Hne.
Qed.

(** ** Deleting a service *)

(** X15.  [deleteService] never throws.  Declined at the confirmation, it
    does nothing.  Confirmed, when the delete request fails the table and
    the list on the screen stay and the error is shown.  When it succeeds
    the table loses the rows with that id and no other, and the success is
    shown; the list on the screen is then asked again, and is the user's
    rows of the new table, unless that request fails: then the list is the
    old one, the deleted service still on it if it was, and the error of
    the list is shown as well. *)
Theorem deleteService_outcome
        (uid : string) (serviceId : Z) (st : Services.state) :
  Services.deleteService (Some uid) false serviceId st = (Eff.Normal tt, st)
  /\ exists final,
       Services.deleteService (Some uid) true serviceId st
       = (Eff.Normal tt, final)
       /\ match Services.schedule st with
          | false :: _ =>
              Services.service_records final = Services.service_records st
              /\ Services.upcomingServices final = Services.upcomingServices st
              /\ Services.shown final
                 = (Services.shown st
                    ++ [{| type := "error";
                           message := "No se pudo eliminar el servicio" |}])%list
          | _ =>
              (forall r, In r (Services.service_records final)
                         <-> In r (Services.service_records st)
                             /\ Services.id r <> serviceId)
              /\ match tl (Services.schedule st) with
                 | false :: _ =>
                     Services.upcomingServices final
                     = Services.upcomingServices st
                     /\ Services.shown final
                        = (Services.shown st
                           ++ [{| type := "success";
                                  message := "Servicio eliminado correctamente" |};
                               {| type := "error";
                                  message := "Error al cargar los servicios" |}])%list
                 | _ =>
                     Services.upcomingServices final
                     = own_rows uid (Services.service_records final)
                     /\ Services.shown final
                        = (Services.shown st
                           ++ [{| type := "success";
                                  message := "Servicio eliminado correctamente" |}])%list
                 end
          end.
Proof.
  split; [reflexivity|]. rewrite deleteService_eq. eexists.
  split; [reflexivity|].
  assert (forall r, In r (filter (fun r => negb (Services.id r =? serviceId))
                                 (Services.service_records st))
                    <-> In r (Services.service_records st)
                        /\ Services.id r <> serviceId) as Hrows.
  { intros r. rewrite filter_In, negb_true_iff, Z.eqb_neq. tauto. }
  unfold reloaded, loaded, Services.outcome.
  cbn [Services.schedule Services.showNotification Services.set_table
       Services.sent].
  destruct (Services.schedule st) as [|[|] [|[|] later]]; cbn [tl];
    cbn [Services.service_records Services.upcomingServices Services.shown
         Services.showNotification Services.set_table Services.sent
         Services.setUpcomingServices];
    rewrite <- ?app_assoc; auto.
Qed.

(** ** What the screen shows *)

(** X16.  Whatever the user does on the services screen and whatever the
    data store holds and answers, the list on the screen holds rows of the
    signed-in user only, and the selection holds no service twice, so that
    a submission meets every service once. *)
Theorem services_screen_invariant
        (tz : Z) (uid : string) (st : Services.state) :
  services_reachable tz uid st ->
  Forall (fun r => Services.user_id r = uid) (Services.upcomingServices st)
  /\ NoDup (Services.selectedServices st).
Proof.
  assert (forall rows,
             Forall (fun r => Services.user_id r = uid) (own_rows uid rows))
    as Hown.
  { intros rows. apply Forall_forall. intros r Hr.
    apply own_rows_In in Hr. tauto. }
  assert (forall s,
             Forall (fun r => Services.user_id r = uid)
                    (Services.upcomingServices s)
             /\ NoDup (Services.selectedServices s) ->
             Forall (fun r => Services.user_id r = uid)
                    (Services.upcomingServices (loaded uid s))
             /\ NoDup (Services.selectedServices (loaded uid s))) as Hload.
  { intros s [H N]. unfold loaded. destruct (Services.outcome s);
      cbn [Services.upcomingServices Services.selectedServices
           Services.setUpcomingServices Services.showNotification
           Services.sent]; auto. }
  induction 1 as [rows fresh outcomes|st _ IH|st v _ IH|st k _ IH
                  |st now _ IH|st confirmed serviceId _ IH
                  |st rows fresh outcomes _ IH].
  - split; constructor.
  - rewrite loadUpcomingServices_eq. apply Hload. exact IH.
  - exact IH.
  - destruct IH as [H N]. split; [exact H|].
    apply toggleService_NoDup. exact N.
  - destruct (nothing_to_save_dec (Some uid) st) as [K|K].
    + rewrite (handleSave_invalid tz _ now st K). exact IH.
    + rewrite (handleSave_valid tz uid now st K). cbn [snd].
      destruct (Eff.for_of _ _ _) as [res s1] eqn:Eloop.
      apply loop_frame in Eloop. destruct Eloop as (_ & F2 & F3 & _).
      cbn [Services.selectedServices Services.upcomingServices
           Services.setLoading] in F2, F3.
      destruct IH as [H N]. destruct res as [[]|e].
      * apply (Hload (Services.setSelectedServices []
                        (Services.setCurrentMileage ""
                           (Services.showNotification "success"
                              "Servicios registrados correctamente" s1)))).
        cbn [Services.selectedServices Services.upcomingServices
             Services.setSelectedServices Services.setCurrentMileage
             Services.showNotification].
        rewrite F3. split; [exact H|constructor].
      * cbn [Services.selectedServices Services.upcomingServices
             Services.setLoading Services.showNotification].
        rewrite F2, F3. split; assumption.
  - destruct confirmed; [|exact IH].
    rewrite deleteService_eq. cbn [snd reloaded].
    destruct (Services.outcome st); [|exact IH].
    apply Hload. exact IH.
  - exact IH.
Qed.

(** The theorem after a submission and a deletion. *)
Lemma services_screen_invariant_witness :
  let st :=
    snd (Services.deleteService (Some "driver-1") true 1
           (snd (Services.handleSave utc_minus_3 (Some "driver-1")
                   1762124645123
                   (Services.toggleService "vtv"
                      (Services.setCurrentMileage "61000"
                         (services_form "" [] one_oil_change 2 [])))))) in
  Forall (fun r => Services.user_id r = "driver-1")
         (Services.upcomingServices st)
  /\ NoDup (Services.selectedServices st).
Proof.
  apply (services_screen_invariant utc_minus_3 "driver-1").
  apply sreach_delete, sreach_save, sreach_toggle, sreach_mileage,
    sreach_mounted.
Defined.

(* ================================================================== *)
(** * The trips screen                                                *)
(* ================================================================== *)

(** ** Suggestions *)

(** X19.  [fetchSuggestions] for one address field leaves the list of the
    other field, the form, the coordinates, the analysis and the
    notifications as they are.  A query of fewer than three code units
    sends no request and empties the list of its field.  A longer query
    sends one request and changes nothing until the answer is there; then
    the features of the answer are listed under the field (none when the
    answer has no features), and a failed request changes nothing at all:
    no error is shown. *)
Theorem fetchSuggestions_spec
        (query : string) (isOrigin : bool) (answer : Trips.geocoding)
        (st : Trips.state) :
  let st1 := Trips.fetchSuggestions_begin query isOrigin st in
  let st2 := Trips.fetchSuggestions_end isOrigin answer st1 in
  (Trips.calculator st1 = Trips.calculator st
   /\ Trips.calculator st2 = Trips.calculator st
   /\ Trips.listed (negb isOrigin) st1 = Trips.listed (negb isOrigin) st
   /\ Trips.listed (negb isOrigin) st2 = Trips.listed (negb isOrigin) st)
  /\ ((String.length query < 3)%nat ->
      Trips.queries st1 = Trips.queries st
      /\ Trips.suggestions isOrigin st1 = []
      /\ Trips.listed isOrigin st1 = [])
  /\ ((3 <= String.length query)%nat ->
      Trips.queries st1 = (Trips.queries st ++ [query])%list
      /\ Trips.listed isOrigin st1 = Trips.listed isOrigin st
      /\ Trips.queries st2 = Trips.queries st1
      /\ match answer with
         | Trips.Failed => st2 = st1
         | Trips.Features features =>
             Trips.listed isOrigin st2 = features_of features
         end).
Proof.
  cbv zeta. unfold Trips.fetchSuggestions_begin, Trips.fetchSuggestions_end.
  split; [|split].
  - destruct (String.length query <? 3)%nat, answer as [|features], isOrigin;
      repeat split.
  - intros H. apply Nat.ltb_lt in H. rewrite H.
    destruct isOrigin; repeat split.
  - intros H. apply Nat.ltb_ge in H. rewrite H.
    split; [reflexivity|]. split; [destruct isOrigin; reflexivity|].
    split; [destruct answer, isOrigin; reflexivity|].
    destruct answer as [|[l|]]; [reflexivity| |destruct isOrigin; reflexivity].
    unfold Trips.listed, Trips.suggestions, features_of.
    destruct isOrigin;
      cbn [Trips.showOriginSuggestions Trips.showDestinationSuggestions
           Trips.originSuggestions Trips.destinationSuggestions
           Trips.setShowSuggestions Trips.setSuggestions andb];
      destruct l; reflexivity.
Qed.

(** The theorem at a query of two letters and at one of three. *)
Lemma fetchSuggestions_spec_witness :
  Trips.queries
    (Trips.fetchSuggestions_begin "ob" true
       (trips_screen (trip_form "750" "5000") []))
  = []
  /\ Trips.listed true
       (Trips.fetchSuggestions_end true (Trips.Features (Some [obelisco]))
          (Trips.fetchSuggestions_begin "obe" true
             (trips_screen (trip_form "750" "5000") [])))
     = [obelisco].
Proof.
  split.
  - destruct (fetchSuggestions_spec "ob" true Trips.Failed
                (trips_screen (trip_form "750" "5000") [])) as (_ & H & _).
    apply H. cbn. lia.
  - destruct (fetchSuggestions_spec "obe" true
                (Trips.Features (Some [obelisco]))
                (trips_screen (trip_form "750" "5000") [])) as (_ & _ & H).
    apply H. cbn. lia.
Defined.

(** X20.  A request for suggestions is not cancelled and its answer is not
    matched with the field: after a query of three code units or more is
    typed into an address field and then another text, whatever else
    happens to the lists in between, the answer to the first query lists
    its features under the field when it arrives, while the field holds
    the text typed last (which may be too short for any query). *)
Theorem suggestions_of_a_late_answer
        (isOrigin : bool) (query text : string)
        (features : list Trips.suggestion) (earlier : Trips.geocoding)
        (st : Trips.state) :
  (3 <= String.length query)%nat ->
  let name := if isOrigin then "origin" else "destination" in
  let typed :=
    Trips.handleInputChange name text (Trips.handleInputChange name query st) in
  let st' :=
    Trips.fetchSuggestions_end isOrigin (Trips.Features (Some features))
      (Trips.fetchSuggestions_end isOrigin earlier typed) in
  In query (Trips.queries typed)
  /\ Trips.listed isOrigin st' = features
  /\ (if isOrigin then Trip.origin else Trip.destination)
       (Trip.form (Trips.calculator st')) = text.
Proof.
  intros H. apply Nat.ltb_ge in H. cbv zeta.
  unfold Trips.handleInputChange, Trips.fetchSuggestions_begin.
  destruct isOrigin; cbn [String.eqb Ascii.eqb Bool.eqb]; rewrite H;
    (destruct (String.length text <? 3)%nat;
     destruct earlier as [|[l|]];
     (split; [cbn [Trips.queries Trips.fetchSuggestions_end Trips.setSuggestions
                   Trips.setShowSuggestions Trips.on_calculator];
              rewrite ?in_app_iff; cbn [In]; tauto|]);
     (split; [destruct features; reflexivity|reflexivity])).
Qed.

(** The theorem at a query that is cut to two letters before its answer
    arrives. *)
Lemma suggestions_of_a_late_answer_witness :
  let st' :=
    Trips.fetchSuggestions_end true (Trips.Features (Some [obelisco]))
      (Trips.handleInputChange "origin" "ob"
         (Trips.handleInputChange "origin" "obe"
            (trips_screen (trip_form "750" "5000") []))) in
  Trips.listed true st' = [obelisco]
  /\ Trip.origin (Trip.form (Trips.calculator st')) = "ob".
Proof.
  destruct (suggestions_of_a_late_answer true "obe" "ob" [obelisco] Trips.Failed
              (trips_screen (trip_form "750" "5000") []))
    as (_ & L & T).
  - cbn. lia.
  - split; [exact L|exact T].
Defined.

(** ** Typing after choosing *)

(** Typing changes the form, the queries and the lists of suggestions, and
    nothing else. *)
Lemma trips_handleInputChange_frame name value st :
  let st' := Trips.handleInputChange name value st in
  Trip.originCoords (Trips.calculator st')
  = Trip.originCoords (Trips.calculator st)
  /\ Trip.destinationCoords (Trips.calculator st')
     = Trip.destinationCoords (Trips.calculator st)
  /\ Trip.analysis (Trips.calculator st') = Trip.analysis (Trips.calculator st)
  /\ Trip.requests (Trips.calculator st') = Trip.requests (Trips.calculator st)
  /\ Trip.shown (Trips.calculator st') = Trip.shown (Trips.calculator st)
  /\ Trips.trip_analysis st' = Trips.trip_analysis st
  /\ Trips.schedule st' = Trips.schedule st.
Proof.
  cbv zeta. unfold Trips.handleInputChange, Trips.fetchSuggestions_begin.
  destruct (name =? "origin")%string;
    [|destruct (name =? "destination")%string];
    try destruct (String.length value <? 3)%nat; repeat split.
Qed.

Lemma type_in_trip_frame edits st :
  let st' := type_in_trip edits st in
  Trip.originCoords (Trips.calculator st')
  = Trip.originCoords (Trips.calculator st)
  /\ Trip.destinationCoords (Trips.calculator st')
     = Trip.destinationCoords (Trips.calculator st)
  /\ Trip.analysis (Trips.calculator st') = Trip.analysis (Trips.calculator st)
  /\ Trip.requests (Trips.calculator st') = Trip.requests (Trips.calculator st)
  /\ Trip.shown (Trips.calculator st') = Trip.shown (Trips.calculator st)
  /\ Trips.trip_analysis st' = Trips.trip_analysis st
  /\ Trips.schedule st' = Trips.schedule st.
Proof.
  cbv zeta. unfold type_in_trip. revert st.
  induction edits as [|[name value] edits IH]; intros st; cbn [fold_left fst snd].
  - repeat split.
  - destruct (IH (Trips.handleInputChange name value st))
      as (A1 & A2 & A3 & A4 & A5 & A6 & A7).
    destruct (trips_handleInputChange_frame name value st)
      as (B1 & B2 & B3 & B4 & B5 & B6 & B7).
    repeat split; congruence.
Qed.

(** With both places chosen and both prices given, the directions request
    is sent whatever it comes back with. *)
Lemma calculateProfitability_request answer st from to :
  Trip.originCoords st = Some from ->
  Trip.destinationCoords st = Some to ->
  ~ bad_price (Trip.desiredPricePerKm (Trip.form st)) ->
  ~ bad_price (Trip.tripPrice (Trip.form st)) ->
  Trip.requests (snd (Trip.calculateProfitability answer st))
  = (Trip.requests st ++ [(from, to)])%list.
Proof.
  intros Hfrom Hto Hdesired Hprice.
  destruct (good_price _ Hdesired) as (D1 & D2 & D3).
  destruct (good_price _ Hprice) as (P1 & P2 & P3).
  unfold Trip.calculateProfitability, Eff.bind at 1, Eff.get. cbv beta iota.
  rewrite Hfrom, Hto, D1, P1. cbv beta iota delta [negb orb].
  rewrite D2, D3, P2, P3. cbv beta iota.
  unfold Eff.bind, Eff.modify, Eff.finally, Eff.try_catch, Trip.get_directions.
  cbv beta iota. destruct answer as [|[[|route routes]|]]; reflexivity.
Qed.

(** X21.  Choosing a suggestion puts its address in the field and keeps its
    coordinates; typing into the fields afterwards changes the text and
    not the coordinates.  So the directions asked for are those between the
    suggestions chosen last, whatever the address fields read by then. *)
Theorem coordinates_of_the_chosen_places
        (from to : Trips.suggestion) (edits : list (string * string))
        (answer : Trip.response) (st : Trips.state) :
  let chosen :=
    Trips.selectSuggestion to false (Trips.selectSuggestion from true st) in
  let typed := type_in_trip edits chosen in
  (Trip.origin (Trip.form (Trips.calculator chosen)) = Trips.place_name from
   /\ Trip.destination (Trip.form (Trips.calculator chosen))
      = Trips.place_name to
   /\ Trips.listed true chosen = [] /\ Trips.listed false chosen = [])
  /\ Trip.originCoords (Trips.calculator typed)
     = Some (Trips.coordinates from)
  /\ Trip.destinationCoords (Trips.calculator typed)
     = Some (Trips.coordinates to)
  /\ (~ bad_price (Trip.desiredPricePerKm (Trip.form (Trips.calculator typed))) ->
      ~ bad_price (Trip.tripPrice (Trip.form (Trips.calculator typed))) ->
      Trip.requests
        (Trips.calculator (snd (Trips.calculateProfitability answer typed)))
      = (Trip.requests (Trips.calculator st)
         ++ [(Trips.coordinates from, Trips.coordinates to)])%list).
Proof.
  cbv zeta.
  destruct (type_in_trip_frame edits
              (Trips.selectSuggestion to false
                 (Trips.selectSuggestion from true st)))
    as (F1 & F2 & _ & F4 & _).
  cbn [Trips.selectSuggestion Trips.calculator Trips.on_calculator
       Trips.setShowSuggestions Trips.setSuggestions Trip.originCoords
       Trip.destinationCoords Trip.requests Trips.setOriginCoords
       Trips.setDestinationCoords Trips.set_form] in F1, F2, F4.
  split; [repeat split|]. split; [exact F1|]. split; [exact F2|].
  intros Hdesired Hprice. unfold Trips.calculateProfitability.
  pose proof (calculateProfitability_request answer _ _ _ F1 F2 Hdesired Hprice)
    as R.
  destruct (Trip.calculateProfitability answer _) as [r c].
  cbn [snd Trips.calculator Trips.on_calculator] in *. rewrite R, F4.
  reflexivity.
Qed.

(** The theorem at two places, the origin field rewritten afterwards. *)
Lemma coordinates_of_the_chosen_places_witness :
  let typed :=
    type_in_trip [("desiredPricePerKm", "750"); ("tripPrice", "5000");
                  ("origin", "Plaza de Mayo")]
      (Trips.selectSuggestion aeroparque false
         (Trips.selectSuggestion obelisco true
            (trips_screen (trip_form "" "") []))) in
  Trip.origin (Trip.form (Trips.calculator typed)) = "Plaza de Mayo"
  /\ Trip.requests
       (Trips.calculator
          (snd (Trips.calculateProfitability (one_route 5880%float) typed)))
     = [(Trips.coordinates obelisco, Trips.coordinates aeroparque)].
Proof.
  split; [reflexivity|].
  destruct (coordinates_of_the_chosen_places obelisco aeroparque
              [("desiredPricePerKm", "750"); ("tripPrice", "5000");
               ("origin", "Plaza de Mayo")]
              (one_route 5880%float) (trips_screen (trip_form "" "") []))
    as (_ & _ & _ & R).
  apply R; vm_compute; intros [H|[H|H]]; discriminate H.
Defined.

(** ** Saving an analysis *)

Lemma trips_handleSave_eq uid analysis st :
  Trip.analysis (Trips.calculator st) = Some analysis ->
  Trips.handleSave (Some uid) st
  = (Eff.Normal tt,
     if next_trip_outcome st then
       Trips.on_calculator
         (fun c =>
            Trip.setLoading false
              (Trips.clearAnalysis
                 (Trips.setDestinationCoords None
                    (Trips.setOriginCoords None
                       (Trips.set_form Trips.blank_form
                          (Trip.showNotification "success"
                             "Análisis guardado correctamente"
                             (Trip.setLoading true c)))))))
         (snd (Trips.insert
                 (Trips.tripData uid analysis (Trip.form (Trips.calculator st)))
                 st))
     else
       Trips.on_calculator
         (fun c =>
            Trip.setLoading false
              (Trip.showNotification "error" "No se pudo guardar el análisis"
                 (Trip.setLoading true c)))
         (snd (Trips.insert
                 (Trips.tripData uid analysis (Trip.form (Trips.calculator st)))
                 st))).
Proof.
  intros H. unfold Trips.handleSave, Eff.bind at 1, Eff.get. cbv beta iota.
  rewrite H.
  generalize (Trips.tripData uid analysis (Trip.form (Trips.calculator st))).
  intros row.
  unfold Eff.bind, Eff.modify, Eff.finally, Eff.try_catch, Eff.throw,
    Trips.insert, next_trip_outcome.
  cbn [Trips.schedule Trips.on_calculator].
  destruct (Trips.schedule st) as [|[|] later]; reflexivity.
Qed.

(** X22.  [handleSave] of the trips screen never throws.  With nobody
    signed in or no analysis on the screen it does nothing.  Otherwise it
    makes one insert request and ends with the loading flag down: when the
    request succeeds, the table has one more row, built from the analysis
    and from the form as it is now, the form is blank again, the
    coordinates and the analysis are gone and the success is shown; when it
    fails, the table, the form, the coordinates and the analysis are as
    they were and the error is shown. *)
Theorem trips_handleSave_outcome (user : option string) (st : Trips.state) :
  exists final,
    Trips.handleSave user st = (Eff.Normal tt, final)
    /\ match user, Trip.analysis (Trips.calculator st) with
       | Some uid, Some analysis =>
           Trip.loading (Trips.calculator final) = false
           /\ Trips.schedule final = tl (Trips.schedule st)
           /\ if next_trip_outcome st then
                Trips.trip_analysis final
                = (Trips.trip_analysis st
                   ++ [Trips.tripData uid analysis
                         (Trip.form (Trips.calculator st))])%list
                /\ Trip.form (Trips.calculator final) = Trips.blank_form
                /\ Trip.originCoords (Trips.calculator final) = None
                /\ Trip.destinationCoords (Trips.calculator final) = None
                /\ Trip.analysis (Trips.calculator final) = None
                /\ Trip.shown (Trips.calculator final)
                   = (Trip.shown (Trips.calculator st)
                      ++ [{| type := "success";
                             message := "Análisis guardado correctamente" |}])%list
              else
                Trips.trip_analysis final = Trips.trip_analysis st
                /\ Trip.form (Trips.calculator final)
                   = Trip.form (Trips.calculator st)
                /\ Trip.originCoords (Trips.calculator final)
                   = Trip.originCoords (Trips.calculator st)
                /\ Trip.destinationCoords (Trips.calculator final)
                   = Trip.destinationCoords (Trips.calculator st)
                /\ Trip.analysis (Trips.calculator final) = Some analysis
                /\ Trip.shown (Trips.calculator final)
                   = (Trip.shown (Trips.calculator st)
                      ++ [{| type := "error";
                             message := "No se pudo guardar el análisis" |}])%list
       | _, _ => final = st
       end.
Proof.
  destruct user as [uid|].
  - destruct (Trip.analysis (Trips.calculator st)) as [analysis|] eqn:A.
    + rewrite (trips_handleSave_eq uid analysis st A). eexists.
      split; [reflexivity|].
      unfold next_trip_outcome, Trips.insert.
      destruct (Trips.schedule st) as [|[|] later]; cbn [snd tl];
        repeat split; exact A.
    + exists st. split; [|reflexivity].
      unfold Trips.handleSave, Eff.bind, Eff.get. rewrite A. reflexivity.
  - exists st. split; reflexivity.
Qed.

(** X23.  The row saved for an analysis holds the distance, the price per
    km and the tier computed when the analysis was made, from the prices
    the form held then, and the addresses and prices the form holds when it
    is saved: typing into the form does not touch the analysis.  When
    nothing was typed in between, the price per km of the row is its price
    divided by its distance. *)
Theorem saved_analysis_and_edits
        (uid : string) (st : Trips.state) (from to : Trip.coords)
        (route : Trip.route) (others : list Trip.route)
        (edits : list (string * string)) :
  Trip.originCoords (Trips.calculator st) = Some from ->
  Trip.destinationCoords (Trips.calculator st) = Some to ->
  ~ bad_price (Trip.desiredPricePerKm (Trip.form (Trips.calculator st))) ->
  ~ bad_price (Trip.tripPrice (Trip.form (Trips.calculator st))) ->
  next_trip_outcome st = true ->
  let price := JS.parseFloat (Trip.tripPrice (Trip.form (Trips.calculator st))) in
  let desired :=
    JS.parseFloat (Trip.desiredPricePerKm (Trip.form (Trips.calculator st))) in
  let analysed :=
    snd (Trips.calculateProfitability
           (Trip.Resolved (Some (route :: others))) st) in
  let typed := type_in_trip edits analysed in
  exists row final,
    Trips.handleSave (Some uid) typed = (Eff.Normal tt, final)
    /\ Trips.trip_analysis final = (Trips.trip_analysis st ++ [row])%list
    /\ Trips.distance_km row = (Trip.route_distance route / 1000)%float
    /\ Trips.actual_price_per_km row = (price / Trips.distance_km row)%float
    /\ Trips.profitability row
       = Trip.classify
           ((Trips.actual_price_per_km row - desired) / desired * 100)%float
    /\ Trips.trip_price row
       = JS.parseFloat (Trip.tripPrice (Trip.form (Trips.calculator typed)))
    /\ Trips.desired_price_per_km row
       = JS.parseFloat
           (Trip.desiredPricePerKm (Trip.form (Trips.calculator typed)))
    /\ Trips.origin row = Trip.origin (Trip.form (Trips.calculator typed))
    /\ Trips.destination row
       = Trip.destination (Trip.form (Trips.calculator typed))
    /\ (edits = [] ->
        Trips.actual_price_per_km row
        = (Trips.trip_price row / Trips.distance_km row)%float).
Proof.
  intros Hfrom Hto Hdesired Hprice Hok. cbv zeta.
  pose proof (calculateProfitability_route (Trips.calculator st) from to
                route others Hfrom Hto Hdesired Hprice) as Ec.
  set (c := Trip.setLoading false _) in Ec.
  assert (Trip.analysis c
          = Some (Trip.analyse
                    (JS.parseFloat (Trip.tripPrice (Trip.form (Trips.calculator st))))
                    (JS.parseFloat
                       (Trip.desiredPricePerKm (Trip.form (Trips.calculator st))))
                    route)) as A by reflexivity.
  assert (Trip.form c = Trip.form (Trips.calculator st)) as Fc by reflexivity.
  clearbody c.
  unfold Trips.calculateProfitability. rewrite Ec. cbn [snd].
  set (analysed := Trips.on_calculator (fun _ => c) st).
  destruct (type_in_trip_frame edits analysed)
    as (_ & _ & T3 & _ & _ & T6 & T7).
  cbv zeta in T3, T6, T7.
  cbn [analysed Trips.on_calculator Trips.calculator Trips.trip_analysis
       Trips.schedule] in T3, T6, T7.
  rewrite A in T3.
  rewrite (trips_handleSave_eq uid _ _ T3).
  assert (next_trip_outcome (type_in_trip edits analysed) = true) as Hok'.
  { unfold next_trip_outcome in *. rewrite T7. exact Hok. }
  rewrite Hok'. eexists. eexists. split; [reflexivity|].
  assert (forall r s,
             next_trip_outcome s = true ->
             Trips.trip_analysis (snd (Trips.insert r s))
             = (Trips.trip_analysis s ++ [r])%list) as Hins.
  { intros r s. unfold next_trip_outcome, Trips.insert.
    destruct (Trips.schedule s) as [|[|] later]; try reflexivity.
    discriminate. }
  cbn [Trips.trip_analysis Trips.on_calculator]. rewrite (Hins _ _ Hok'), T6.
  split; [reflexivity|].
  cbn [Trips.tripData Trips.distance_km Trips.actual_price_per_km
       Trips.profitability Trips.trip_price Trips.desired_price_per_km
       Trips.origin Trips.destination Trip.analyse Trip.distance
       Trip.actualPricePerKm Trip.profitability].
  repeat split.
  intros ->. cbn [type_in_trip fold_left analysed Trips.on_calculator
                  Trips.calculator]. rewrite Fc. reflexivity.
Qed.

(** The theorem at the trip of the example, its price rewritten before it
    is saved. *)
Lemma saved_analysis_and_edits_witness :
  exists row final,
    Trips.handleSave (Some "driver-1")
      (type_in_trip [("tripPrice", "9000")]
         (snd (Trips.calculateProfitability (one_route 5000%float)
                 (trips_screen (trip_form "750" "5000") []))))
    = (Eff.Normal tt, final)
    /\ Trips.trip_analysis final = [row]
    /\ Trips.trip_price row = 9000%float
    /\ Trips.actual_price_per_km row = 1000%float.
Proof.
  destruct (saved_analysis_and_edits "driver-1"
              (trips_screen (trip_form "750" "5000") [])
              ((-58.375)%float, (-34.625)%float) ((-58.5)%float, (-34.5)%float)
              {| Trip.route_distance := 5000%float |} []
              [("tripPrice", "9000")])
    as (row & final & E & R & D & A & _ & P & _).
  - reflexivity.
  - reflexivity.
  - vm_compute. intros [H|[H|H]]; discriminate H.
  - vm_compute. intros [H|[H|H]]; discriminate H.
  - reflexivity.
  - exists row, final. split; [exact E|]. split; [exact R|].
    split; [rewrite P; vm_compute; reflexivity|].
    rewrite A, D. vm_compute. reflexivity.
Defined.

(* ================================================================== *)
(** * Notifications and the history of earnings                       *)
(* ================================================================== *)

(** ** Notifications go away *)

(** X25.  Whatever is shown, typed and timed out on a screen, a
    notification that is on the screen has a timer armed that will take it
    off: notifications dismiss themselves.  But the timer that takes a
    notification off need not be its own: of two notifications shown one
    after the other, the second is taken off by the timer of the first,
    before its three seconds are over. *)
Theorem notifications_dismissed (events : list Notice.event) :
  (Notice.timers (Notice.run events Notice.mounted) = O ->
   Notice.notification (Notice.run events Notice.mounted) = None)
  /\ forall t1 m1 t2 m2,
       Notice.run [Notice.Show t1 m1; Notice.Show t2 m2; Notice.Timeout]
                  (Notice.run events Notice.mounted)
       = {| Notice.notification := None;
            Notice.timers :=
              S (Notice.timers (Notice.run events Notice.mounted)) |}.
Proof.
  split; [|reflexivity].
  assert (forall st,
             (Notice.timers st = O -> Notice.notification st = None) ->
             Notice.timers (Notice.run events st) = O ->
             Notice.notification (Notice.run events st) = None) as H.
  { unfold Notice.run. induction events as [|e events IH]; intros st Hst;
      cbn [fold_left]; [exact Hst|].
    apply IH. destruct e as [t m| |]; cbn [Notice.step].
    - discriminate.
    - destruct (0 <? Z.of_nat (Notice.timers st)); [reflexivity|exact Hst].
    - unfold Notice.input. destruct (Notice.notification st) eqn:E;
        [reflexivity|]. rewrite E. reflexivity. }
  apply H. reflexivity.
Qed.

(** ** Sorting the history *)

(** X26.  The buttons of the history screen keep the sort column among the
    three they stand for and the direction among [asc] and [desc].  A click
    on another column sorts by it, the highest first; a click on the
    column sorted by reverses the direction, so that two clicks leave the
    order as it was. *)
Theorem handleSort_spec (clicks : list string) (field : string)
        (rows : list History.stored) (outcomes : list bool) :
  Forall (fun c => In c sort_columns) clicks ->
  let st :=
    fold_left (fun s c => History.handleSort c s) clicks
              (history_mounted rows outcomes) in
  In (History.sortField st) sort_columns
  /\ (History.sortOrder st = "asc" \/ History.sortOrder st = "desc")
  /\ (History.sortField st <> field ->
      History.sortField (History.handleSort field st) = field
      /\ History.sortOrder (History.handleSort field st) = "desc")
  /\ (History.sortField st = field ->
      History.sortField (History.handleSort field st) = field
      /\ History.sortOrder (History.handleSort field st)
         <> History.sortOrder st
      /\ History.handleSort field (History.handleSort field st) = st).
Proof.
  intros Hclicks. cbv zeta.
  assert (forall s,
             In (History.sortField s) sort_columns
             /\ (History.sortOrder s = "asc" \/ History.sortOrder s = "desc") ->
             let s' := fold_left (fun s c => History.handleSort c s) clicks s in
             In (History.sortField s') sort_columns
             /\ (History.sortOrder s' = "asc" \/ History.sortOrder s' = "desc"))
    as Inv.
  { induction Hclicks as [|c clicks Hc _ IH]; intros s Hs; cbn [fold_left];
      [exact Hs|].
    apply IH. unfold History.handleSort.
    destruct (History.sortField s =? c)%string;
      cbn [History.sortField History.sortOrder History.setSort].
    - split; [tauto|]. destruct (History.sortOrder s =? "asc")%string; auto.
    - auto. }
  destruct (Inv (history_mounted rows outcomes)) as [Hf Ho].
  { split; [left; reflexivity|right; reflexivity]. }
  set (st := fold_left _ _ _) in *. clearbody st.
  split; [exact Hf|]. split; [exact Ho|]. split.
  - intros Hne. unfold History.handleSort.
    rewrite (proj2 (String.eqb_neq _ _) Hne). split; reflexivity.
  - intros <-. unfold History.handleSort.
    rewrite String.eqb_refl.
    cbn [History.sortField History.sortOrder History.setSort].
    rewrite String.eqb_refl. split; [reflexivity|].
    destruct st as [records sortField sortOrder selected shown table deleted
                    schedule].
    cbn [History.sortOrder History.sortField History.setSort] in *.
    destruct Ho as [->| ->]; cbn; split; (discriminate || reflexivity).
Qed.

(** The theorem after a click on the net earnings and two on the trips. *)
Lemma handleSort_spec_witness :
  let st :=
    fold_left (fun s c => History.handleSort c s)
              ["net_earnings"; "trips_completed"; "trips_completed"]
              (history_mounted [] []) in
  History.sortField st = "trips_completed" /\ History.sortOrder st = "asc"
  /\ In (History.sortField st) sort_columns.
Proof.
  split; [reflexivity|]. split; [reflexivity|].
  apply (handleSort_spec ["net_earnings"; "trips_completed"; "trips_completed"]
           "date" [] []).
  repeat constructor; cbn; tauto.
Defined.

(** X27.  For each of the three columns that the history is sorted by, the
    comparator never answers 0.  For two records whose sort values differ
    it answers 1 one way round and -1 the other, and the two directions are
    opposite; for two records with the same sort value, or with one that is
    not a number, it answers -1 both ways round: each of the two is to come
    before the other. *)
Theorem comparator_spec (field order : string) (a b : History.stored) :
  In field sort_columns ->
  let x := History.sort_value field a in
  let y := History.sort_value field b in
  (History.comparator field order a b = 1
   \/ History.comparator field order a b = -1)
  /\ ((x <? y)%float = true \/ (y <? x)%float = true ->
      History.comparator field order a b
      = - History.comparator field order b a
      /\ History.comparator field "asc" a b
         = - History.comparator field "desc" a b)
  /\ ((x <? y)%float = false -> (y <? x)%float = false ->
      History.comparator field order a b = -1
      /\ History.comparator field order b a = -1).
Proof.
  intros _. cbv zeta. unfold History.comparator.
  set (x := History.sort_value field a). set (y := History.sort_value field b).
  assert (forall u v : float, (u <? v)%float = true -> (v <? u)%float = false)
    as Hasym.
  { intros u v. rewrite !ltb_spec. unfold SFltb.
    rewrite (SFcompare_antisym (Prim2SF u) (Prim2SF v)).
    destruct (SFcompare (Prim2SF u) (Prim2SF v)) as [[| |]|];
      cbn; congruence. }
  pose proof (Hasym x y) as Hxy. pose proof (Hasym y x) as Hyx.
  cbn [String.eqb Ascii.eqb Bool.eqb].
  split; [|split].
  - destruct (order =? "asc")%string; [destruct (y <? x)%float
                                      |destruct (x <? y)%float]; auto.
  - intros [H|H].
    + rewrite H, (Hxy H). destruct (order =? "asc")%string; auto.
    + rewrite H, (Hyx H). destruct (order =? "asc")%string; auto.
  - intros H1 H2. rewrite H1, H2. destruct (order =? "asc")%string; auto.
Qed.

(** The theorem at two records of the same day, sorted by date. *)
Lemma comparator_spec_witness :
  History.comparator "date" "desc" (same_day_record 1) (same_day_record 2) = -1
  /\ History.comparator "date" "desc" (same_day_record 2) (same_day_record 1)
     = -1.
Proof.
  destruct (comparator_spec "date" "desc" (same_day_record 1)
              (same_day_record 2)) as (_ & _ & H).
  - left. reflexivity.
  - apply H; vm_compute; reflexivity.
Defined.

(** No number is below itself. *)
Lemma float_ltb_irrefl (x : float) : (x <? x)%float = false.
Proof.
  destruct (x <? x)%float eqn:E; [|reflexivity].
  rewrite <- E. revert E. rewrite !ltb_spec. unfold SFltb.
  rewrite (SFcompare_antisym (Prim2SF x) (Prim2SF x)) at 1.
  destruct (SFcompare (Prim2SF x) (Prim2SF x)) as [[| |]|]; cbn; congruence.
Qed.

(** X30.  Two records that [EarningsScreen] saved at moments of the same
    UTC day carry the same date, so the comparator of the history, sorting
    by date (as the screen does when it is mounted), answers -1 for them
    both ways round, in either direction: their order in the history is
    not settled by the comparator. *)
Theorem same_day_records_order
        (uid1 uid2 : string) (now1 now2 : Z) (st1 st2 : Earnings.state)
        (id1 id2 : Z) (order : string) :
  Date.Day now1 = Date.Day now2 ->
  let saved uid now st :=
    Earnings.earningsData uid (Date.split_0 "T" (Date.toISOString now)) st in
  let a := {| History.id := id1; History.row := saved uid1 now1 st1 |} in
  let b := {| History.id := id2; History.row := saved uid2 now2 st2 |} in
  Earnings.date (History.row a) = Earnings.date (History.row b)
  /\ History.comparator "date" order a b = -1
  /\ History.comparator "date" order b a = -1.
Proof.
  intros Hday. cbv zeta.
  assert (Date.split_0 "T" (Date.toISOString now1)
          = Date.split_0 "T" (Date.toISOString now2)) as E
      by (rewrite !toISOString_date_of_day, Hday; reflexivity).
  unfold History.comparator, History.sort_value.
  cbn [String.eqb Ascii.eqb Bool.eqb History.row Earnings.date
       Earnings.earningsData].
  rewrite E. split; [reflexivity|].
  rewrite float_ltb_irrefl.
  destruct (order =? "asc")%string; split; reflexivity.
Qed.

(** The theorem at two records saved an hour apart. *)
Lemma same_day_records_order_witness :
  let saved now :=
    Earnings.earningsData "driver-1"
      (Date.split_0 "T" (Date.toISOString now))
      (earnings_form "1000" "10" "100" "5" "50") in
  let a := {| History.id := 1; History.row := saved 1762124645123 |} in
  let b := {| History.id := 2; History.row := saved 1762121045123 |} in
  History.comparator "date" "desc" a b = -1
  /\ History.comparator "date" "desc" b a = -1.
Proof.
  destruct (same_day_records_order "driver-1" "driver-1" 1762124645123
              1762121045123 (earnings_form "1000" "10" "100" "5" "50")
              (earnings_form "1000" "10" "100" "5" "50") 1 2 "desc")
    as (_ & H).
  - reflexivity.
  - exact H.
Defined.

(** ** Deleting a record of the history *)

(** X28.  [deleteRecord] never throws.  Declined at the confirmation, it
    does nothing.  Confirmed, it sends one delete request: when that fails,
    the table, the list and the record unfolded on the screen stay and the
    error is shown; when it succeeds, the table and the list on the screen
    both lose the records with that id and no other, without the list being
    asked again, no record is unfolded any more and the success is shown.
    Either way a list that held the user's rows of the table still does. *)
Theorem deleteRecord_outcome
        (uid : string) (recordId : Z) (st : History.state) :
  History.deleteRecord false recordId st = (Eff.Normal tt, st)
  /\ exists final,
       History.deleteRecord true recordId st = (Eff.Normal tt, final)
       /\ History.deleted final = (History.deleted st ++ [recordId])%list
       /\ (in_sync uid st -> in_sync uid final)
       /\ match History.schedule st with
          | false :: _ =>
              History.earnings_records final = History.earnings_records st
              /\ History.records final = History.records st
              /\ History.selectedRecord final = History.selectedRecord st
              /\ History.shown final
                 = (History.shown st
                    ++ [{| type := "error";
                           message := "Error al eliminar el registro" |}])%list
          | _ =>
              (forall r, In r (History.earnings_records final)
                         <-> In r (History.earnings_records st)
                             /\ History.id r <> recordId)
              /\ (forall r, In r (History.records final)
                            <-> In r (History.records st)
                                /\ History.id r <> recordId)
              /\ History.selectedRecord final = None
              /\ History.shown final
                 = (History.shown st
                    ++ [{| type := "success";
                           message := "Registro eliminado correctamente" |}])%list
          end.
Proof.
  split; [reflexivity|].
  assert (forall l r, In r (filter (fun r => negb (History.id r =? recordId)) l)
                      <-> In r l /\ History.id r <> recordId) as Hrows.
  { intros l r. rewrite filter_In, negb_true_iff, Z.eqb_neq. tauto. }
  unfold History.deleteRecord, Eff.try_catch, Eff.bind, Eff.modify, Eff.throw,
    History.send_delete, in_sync.
  destruct (History.schedule st) as [|[|] later]; eexists;
    (split; [reflexivity|]);
    cbn [History.deleted History.earnings_records History.records
         History.selectedRecord History.shown History.showNotification
         History.setSelectedRecord History.setRecords History.delete_row];
    (split; [reflexivity|]);
    (split; [|auto]);
    try (intros H r; rewrite !Hrows, H; tauto); auto.
Qed.
